(** * MARIS backend: examination assembly and question-bank membership

    A shallow embedding of the request handlers of
    [app/api/examinations.py], [app/api/question_banks.py] and
    [app/api/questions.py], together with the models and CRUD helpers they
    call, and the properties of the examination assembler and of the bank
    operations proved over it.

    Conventions of the embedding:
    - Python [int] is [Z]; [str] is [string], the text in UTF-8;
      [None]-able columns are [option].
    - What a handler takes from the runtime and depends on the whole of
      Unicode, on a setting of the interpreter or on a library that is not
      part of the program ([str.capitalize], [str.lower], [str] of an
      [int], [json.loads]) is a parameter of its model, and the properties
      hold for every value of it.
    - A Python [dict] whose iteration order matters (the two quota maps of a
      request) is the list of its [items()]; the [dict] used for grouping
      is a [gmap].
    - The database session is an explicit value [db] passed in and out; the
      process-wide random source is an explicit [random.state].
    - A handler returns [inl] of the [HTTPException] it raises or [inr] of
      its response. *)

From Stdlib Require Import ZArith String Ascii List DecimalString.
From stdpp Require Import gmap strings list.

Local Open Scope Z_scope.

(** ** Python built-ins used by the handlers *)

Module Py.

(** [bool(s)] for an optional string: [None] and the empty string are
    false. *)
Definition truthy_str (o : option string) : bool :=
  match o with
  | Some (String _ _) => true
  | _ => false
  end.

(** [bool(n)] for an optional integer: [None] and [0] are false. *)
Definition truthy_int (o : option Z) : bool :=
  match o with
  | Some n => negb (n =? 0)
  | None => false
  end.

Definition is_ascii_lower (c : ascii) : bool :=
  ((97 <=? nat_of_ascii c) && (nat_of_ascii c <=? 122))%nat.

Definition is_ascii_upper (c : ascii) : bool :=
  ((65 <=? nat_of_ascii c) && (nat_of_ascii c <=? 90))%nat.

Definition upper_char (c : ascii) : ascii :=
  if is_ascii_lower c then ascii_of_nat (nat_of_ascii c - 32) else c.

Definition lower_char (c : ascii) : ascii :=
  if is_ascii_upper c then ascii_of_nat (nat_of_ascii c + 32) else c.

(** The case maps of ASCII: the letters [A-Z] and [a-z] are mapped, every
    other byte is kept. They are not [str.lower] and [str.capitalize],
    which map the letters of every script; on text that is all ASCII they
    give what those give (see [agrees_on_ascii]). *)
Fixpoint ascii_lower (s : string) : string :=
  match s with
  | EmptyString => EmptyString
  | String c s' => String (lower_char c) (ascii_lower s')
  end.

(** The first character upper-cased, the rest lower-cased. *)
Definition ascii_capitalize (s : string) : string :=
  match s with
  | EmptyString => EmptyString
  | String c s' => String (upper_char c) (ascii_lower s')
  end.

(** [s.isascii()] *)
Fixpoint is_ascii (s : string) : bool :=
  match s with
  | EmptyString => true
  | String c s' => (nat_of_ascii c <? 128)%nat && is_ascii s'
  end.

(** A case map of the runtime gives on ASCII text what the ASCII map
    gives; so do [str.lower] and [str.capitalize]. *)
Definition agrees_on_ascii (f ascii_f : string -> string) : Prop :=
  forall s, is_ascii s = true -> f s = ascii_f s.

(** The decimal text of an integer: what [str(n)] returns when it
    returns. *)
Definition str_of_int (n : Z) : string :=
  NilZero.string_of_int (Z.to_int n).

(** [str(n)] under the interpreter's limit on integer-to-text conversion
    ([sys.get_int_max_str_digits()], 4300 unless reconfigured, [0] for no
    limit): an integer of more decimal digits raises [ValueError], here
    [inl] of the exception's text. *)
Definition str_limited (max_str_digits : N) (error_text : string) (n : Z)
  : string + string :=
  if (max_str_digits =? 0)%N || (Z.abs n <? 10 ^ Z.of_N max_str_digits)
  then inr (str_of_int n)
  else inl error_text.

(** [sum(d.values())] for a [dict] with integer values. *)
Definition sum_values {K : Type} (d : list (K * Z)) : Z :=
  foldl Z.add 0 (d.*2).

End Py.

(** ** The [random] module

    The random source is the sequence of raw draws it is going to produce.
    [randbelow n] consumes one draw and reduces it into [0, n); an exhausted
    source keeps answering [0]. *)

Module random.

Definition state : Type := list nat.

Definition randbelow (n : nat) (g : state) : nat * state :=
  match g with
  | [] => (0%nat, [])
  | r :: g' => ((r mod n)%nat, g')
  end.

(** The selection loop of [random.sample], in the variant that works on a
    copy of the population: [k] times, draw a position [j] among the live
    part of the pool, output [pool[j]] and move the last live item into the
    vacancy. [pool] is the live part. (For large populations the library
    tracks the chosen positions in a set instead; the items are again taken
    at [k] pairwise distinct positions, which is all the properties below
    use.) *)
Fixpoint sample_loop {A : Type} (pool : list A) (k : nat) (g : state)
  : list A * state :=
  match k with
  | O => ([], g)
  | S k' =>
      let n := length pool in
      let '(j, g1) := randbelow n g in
      match pool !! j, pool !! (n - 1)%nat with
      | Some x, Some y =>
          let '(result, g2) :=
            sample_loop (take (n - 1)%nat (<[j := y]> pool)) k' g1 in
          (x :: result, g2)
      | _, _ => ([], g1)
      end
  end.

Definition ValueError_sample : string :=
  "Sample larger than population or is negative"%string.

(** [random.sample(population, k)]: [ValueError] unless [0 <= k <= n],
    otherwise [k] items taken at pairwise distinct positions. *)
Definition sample {A : Type} (population : list A) (k : Z) (g : state)
  : string + list A * state :=
  if bool_decide (0 <= k <= Z.of_nat (length population))
  then inr (sample_loop population (Z.to_nat k) g)
  else inl ValueError_sample.

End random.

(** ** Models *)

(** [app/models/question.py]; the two timestamp columns are left out. *)
Module Question.
Record t : Type := mk {
  id : Z;
  question : string;
  answer : option string;
  level : option string;
  type : option string;
  options : option string;
  context : option string;
  bank_id : option Z
}.

Definition set_bank_id (b : option Z) (q : t) : t :=
  mk (id q) (question q) (answer q) (level q) (type q) (options q)
     (context q) b.

Definition set_options (o : option string) (q : t) : t :=
  mk (id q) (question q) (answer q) (level q) (type q) o (context q)
     (bank_id q).
End Question.

(** [app/models/question_bank.py]; the two timestamp columns are left
    out. *)
Module QuestionBank.
Record t : Type := mk {
  id : Z;
  name : string;
  description : option string;
  user_id : option Z
}.
End QuestionBank.

(** Modelled from the spec: [app/models/user.py] is not among the sources;
    the handlers read only the primary key of the authenticated user. *)
Module User.
Record t : Type := mk { id : Z }.
End User.

#[global] Instance Question_eq_dec : EqDecision Question.t.
Proof. solve_decision. Defined.

#[global] Instance QuestionBank_eq_dec : EqDecision QuestionBank.t.
Proof. solve_decision. Defined.

(** ** The database session

    Two tables, rows in insertion order. *)

Record Session : Type := mkSession {
  questions : list Question.t;
  question_banks : list QuestionBank.t
}.

(** ** CRUD helpers *)

(** Modelled from the spec: [app/crud/base.py] ([CRUDBase]) is not among
    the sources. The spec asks of the store a lookup by identifier,
    [get_by_id(id) -> Question | none]; [update] with [{"bank_id": b}] sets
    that column on the row with the object's primary key; [create] inserts
    a row under a fresh primary key and returns it. *)
Module question_crud.

Definition get (db : Session) (id : Z) : option Question.t :=
  find (fun q => Question.id q =? id) (questions db).

Definition update_bank_id (db : Session) (db_obj : Question.t)
    (bank_id : option Z) : Session :=
  mkSession
    ((fun q => if Question.id q =? Question.id db_obj
               then Question.set_bank_id bank_id q else q)
       <$> questions db)
    (question_banks db).

(** [.offset(skip).limit(limit)] of a query. [skip] and [limit] are the
    integers of the request, which the handlers do not check. A negative
    offset counts as [0] and a negative limit as no limit: this is what
    SQLite does, the database of the default configuration
    ([DATABASE_URL] of [app/core/config.py]); other databases refuse
    them. *)
Definition offset_limit {A : Type} (skip limit : Z) (rows : list A)
  : list A :=
  let rest := drop (Z.to_nat skip) rows in
  if limit <? 0 then rest else take (Z.to_nat limit) rest.

(** [db.query(Question).filter(Question.bank_id == bank_id)
      .offset(skip).limit(limit).all()] *)
Definition get_by_bank (db : Session) (bank_id : Z) (skip limit : Z)
  : list Question.t :=
  offset_limit skip limit
    (filter (fun q => Question.bank_id q = Some bank_id) (questions db)).

End question_crud.

Module bank_crud.

(** Modelled from the spec: [CRUDBase.get], see above. *)
Definition get (db : Session) (id : Z) : option QuestionBank.t :=
  find (fun b => QuestionBank.id b =? id) (question_banks db).

(** [db.query(QuestionBank).filter(QuestionBank.name == name).first()] *)
Definition get_by_name (db : Session) (name : string)
  : option QuestionBank.t :=
  find (fun b => bool_decide (QuestionBank.name b = name))
       (question_banks db).

Definition fresh_id (db : Session) : Z :=
  1 + foldr Z.max 0 (QuestionBank.id <$> question_banks db).

(** Modelled from the spec: [CRUDBase.create], see above. *)
Definition create (db : Session) (name : string)
    (description : option string) (user_id : option Z)
  : QuestionBank.t * Session :=
  let bank := QuestionBank.mk (fresh_id db) name description user_id in
  (bank, mkSession (questions db) (question_banks db ++ [bank])).

(** [db.query(QuestionBank).filter(QuestionBank.user_id == user_id)
      .offset(skip).limit(limit).all()] *)
Definition get_multi_by_user (db : Session) (user_id : Z) (skip limit : Z)
  : list QuestionBank.t :=
  question_crud.offset_limit skip limit
    (filter (fun b => QuestionBank.user_id b = Some user_id)
            (question_banks db)).

End bank_crud.

(** ** JSON values, as [json.loads] builds them

    An object is a [dict] in insertion order; a number that is not an
    integer literal is kept as its text. *)

#[warnings="-register-all"]
Inductive json : Type :=
| JNull
| JBool (b : bool)
| JInt (n : Z)
| JFloat (text : string)
| JString (s : string)
| JArray (items : list json)
| JObject (members : list (string * json)).

(** The empty mapping [{}]. *)
Definition empty_dict : json := JObject [].

(** ** Exceptions *)

(** [fastapi.HTTPException(status_code, detail)] *)
Record HTTPException : Type := mkHTTPException {
  status_code : Z;
  detail : string
}.

(** What a handler body can raise: an [HTTPException], or any other
    exception, of which only [str(e)] is observed. *)
Inductive exception : Type :=
| HTTP (e : HTTPException)
| Other (msg : string).

(** The handlers' closing clauses,
    [except HTTPException: raise] and
    [except Exception as e: raise HTTPException(status_code=500, detail=str(e))]. *)
Definition reraise {A : Type} (r : exception + A) : HTTPException + A :=
  match r with
  | inl (HTTP e) => inl e
  | inl (Other msg) => inl (mkHTTPException 500 msg)
  | inr a => inr a
  end.

(** ** [app/api/examinations.py] *)

(** The request body [exam_config]. A key that is absent reads as its
    default: [[]] for [question_ids], [{}] for the two quota maps (so these
    three fields hold the default when absent) and ["New Examination"] for
    the title.

    The handler declares the body as [Dict[str, Any]] and validates
    nothing. The record holds the bodies the handler is written for:
    [question_ids] a list of integers, the two quota maps objects whose
    values are integers. A body of another shape (a count that is a
    fraction or a text, a quota that is not an object, ...) is not a value
    of this type; the properties below say nothing about it. *)
Record exam_config : Type := mk_exam_config {
  question_ids : list Z;
  title : option string;
  bloom_levels : list (string * Z);
  question_types : list (string * Z)
}.

(** One entry of the response's [questions] list; [options] is [None] when
    the key is absent. *)
Record question_data : Type := mk_question_data {
  qd_id : Z;
  qd_question : string;
  qd_answer : option string;
  qd_level : option string;
  qd_type : option string;
  qd_options : option json
}.

Record examination : Type := mk_examination {
  exam_title : string;
  exam_questions : list question_data;
  total_questions : Z
}.

Record exam_response : Type := mk_exam_response {
  success : bool;
  exam : examination
}.

(** The grouping loop: [groups[key(q)]] is created empty on first use and
    [q] appended to it. *)
Definition group_by {K : Type} `{Countable K} (key : Question.t -> K)
    (qs : list Question.t) : gmap K (list Question.t) :=
  foldl (fun groups q =>
           <[key q := default [] (groups !! key q) ++ [q]]> groups)
        ∅ qs.

Section Examinations.

(** [str.capitalize], of the runtime. *)
Variable capitalize : string -> string.

(** [str] of an [int], which the f-string of the mismatch message calls:
    [inr] of the text, or [inl] of the text of the [ValueError] raised for
    an integer above the interpreter's digit limit (see
    [Py.str_limited]). *)
Variable str_int : Z -> string + string.

(** [json.loads], [None] when it raises. *)
Variable json_loads : string -> option json.

(** [level_groups.get(level.capitalize(), [])] *)
Definition level_qs (level_groups : gmap (option string) (list Question.t))
    (level : string) : list Question.t :=
  default [] (level_groups !! Some (capitalize level)).

(** One round of the selection loop: what is appended to
    [selected_questions] for the entry [(level, count)]. *)
Definition select_level
    (level_groups : gmap (option string) (list Question.t))
    (entry : string * Z) (g : random.state)
  : string + list Question.t * random.state :=
  let '(level, count) := entry in
  let pool := level_qs level_groups level in
  let actual_count := Z.min count (Z.of_nat (length pool)) in
  if bool_decide (actual_count > 0)
  then random.sample pool actual_count g
  else inr ([], g).

(** The selection loop, [for level, count in bloom_levels.items()]. *)
Fixpoint select_questions
    (level_groups : gmap (option string) (list Question.t))
    (items : list (string * Z)) (selected_questions : list Question.t)
    (g : random.state)
  : (exception + list Question.t) * random.state :=
  match items with
  | [] => (inr selected_questions, g)
  | entry :: rest =>
      match select_level level_groups entry g with
      | inl msg => (inl (Other msg), g)
      | inr (selected, g') =>
          select_questions level_groups rest
            (selected_questions ++ selected) g'
      end
  end.

(** The mismatch message, from the texts of the two totals. *)
Definition quota_mismatch_detail (total_bloom total_types : string)
  : string :=
  ("Total questions by Bloom level (" +:+ total_bloom +:+
   ") must match total by question type (" +:+ total_types +:+ ")")%string.

(** [raise HTTPException(status_code=400, detail=f"...")] of the total
    check: the f-string renders [total_bloom], then [total_types]; a
    [ValueError] of either leaves the [try] block in place of the
    [HTTPException]. *)
Definition raise_quota_mismatch (total_bloom total_types : Z) : exception :=
  match str_int total_bloom with
  | inl error => Other error
  | inr bloom_text =>
      match str_int total_types with
      | inl error => Other error
      | inr types_text =>
          HTTP (mkHTTPException 400
                  (quota_mismatch_detail bloom_text types_text))
      end
  end.

(** The formatting loop's body. *)
Definition format_question (q : Question.t) : question_data :=
  mk_question_data
    (Question.id q) (Question.question q) (Question.answer q)
    (Question.level q) (Question.type q)
    (if Py.truthy_str (Question.options q)
     then Some (default empty_dict
                  (json_loads (default ""%string (Question.options q))))
     else None).

(** The body of the [try] block. *)
Definition create_examination_body (db : Session) (g : random.state)
    (cfg : exam_config)
  : (exception + exam_response) * random.state :=
  let title := default "New Examination"%string (title cfg) in
  if bool_decide (question_ids cfg = []) then
    (inl (HTTP (mkHTTPException 400 "No questions selected")), g)
  else
  let total_bloom := Py.sum_values (bloom_levels cfg) in
  let total_types := Py.sum_values (question_types cfg) in
  if bool_decide (total_bloom <> total_types) then
    (inl (raise_quota_mismatch total_bloom total_types), g)
  else
  let questions := omap (question_crud.get db) (question_ids cfg) in
  match questions with
  | [] => (inl (HTTP (mkHTTPException 404 "No valid questions found")), g)
  | _ :: _ =>
      let level_groups := group_by Question.level questions in
      let type_groups := group_by Question.type questions in
      match select_questions level_groups (bloom_levels cfg) [] g with
      | (inl e, g') => (inl e, g')
      | (inr selected_questions, g') =>
          let result_questions := format_question <$> selected_questions in
          (inr (mk_exam_response true
                  (mk_examination title result_questions
                     (Z.of_nat (length result_questions)))), g')
      end
  end.

Definition create_examination (db : Session) (g : random.state)
    (cfg : exam_config)
  : (HTTPException + exam_response) * random.state :=
  let '(r, g') := create_examination_body db g cfg in (reraise r, g').

End Examinations.

(** ** The [json] module: [json.loads]

    The decoder of the standard library, over byte strings: surrounding
    white space (character codes 32, 9, 10, 13), the literals (with [NaN], [Infinity] and [-Infinity], which
    the decoder accepts), numbers, strings with their escapes (a [\u]
    escape is written out in UTF-8), arrays and objects (a repeated key
    keeps its first position and its last value). [None] stands for the
    [JSONDecodeError] (or [RecursionError]) the decoder raises. *)

Module json_module.

Local Open Scope char_scope.
Local Open Scope Z_scope.

Definition is_ws (c : ascii) : bool :=
  match c with
  | " " | "009" | "010" | "013" => true
  | _ => false
  end.

Fixpoint skip_ws (s : string) : string :=
  match s with
  | String c s' => if is_ws c then skip_ws s' else s
  | EmptyString => s
  end.

Definition is_digit (c : ascii) : bool :=
  ((48 <=? nat_of_ascii c) && (nat_of_ascii c <=? 57))%nat.

Definition digit_value (c : ascii) : Z := Z.of_nat (nat_of_ascii c) - 48.

(** The longest prefix of digits, its value continuing [acc], and the
    rest. *)
Fixpoint digits (s : string) (acc : Z) : string * Z * string :=
  match s with
  | String c s' =>
      if is_digit c
      then let '(text, n, rest) := digits s' (10 * acc + digit_value c) in
           (String c text, n, rest)
      else (EmptyString, acc, s)
  | EmptyString => (EmptyString, acc, s)
  end.

(** A number, the sign already read: an integer part without a leading
    zero, then an optional fraction and an optional exponent. *)
Definition number (negative : bool) (s : string) : option (json * string) :=
  let sign := if negative then "-"%string else ""%string in
  let '(int_text, int_value, rest) :=
    match s with
    | String "0" s' => ("0"%string, 0%Z, s')
    | _ => digits s 0
    end in
  match int_text with
  | EmptyString => None
  | _ =>
      let '(frac_text, rest1) :=
        match rest with
        | String "." s' =>
            match digits s' 0 with
            | (EmptyString, _, _) => (""%string, rest)
            | (text, _, s'') => (("." +:+ text)%string, s'')
            end
        | _ => (""%string, rest)
        end in
      let exp_digits (mark : string) (s' : string) :=
        match digits s' 0 with
        | (EmptyString, _, _) => (""%string, rest1)
        | (text, _, s'') => ((mark +:+ text)%string, s'')
        end in
      let '(exp_text, rest2) :=
        match rest1 with
        | String "e" (String "+" s') => exp_digits "e+"%string s'
        | String "e" (String "-" s') => exp_digits "e-"%string s'
        | String "e" s' => exp_digits "e"%string s'
        | String "E" (String "+" s') => exp_digits "E+"%string s'
        | String "E" (String "-" s') => exp_digits "E-"%string s'
        | String "E" s' => exp_digits "E"%string s'
        | _ => (""%string, rest1)
        end in
      match frac_text, exp_text with
      | EmptyString, EmptyString =>
          Some (JInt (if negative then - int_value else int_value), rest2)
      | _, _ =>
          Some (JFloat (sign +:+ int_text +:+ frac_text +:+ exp_text), rest2)
      end
  end.

Definition hex_value (c : ascii) : option Z :=
  let n := Z.of_nat (nat_of_ascii c) in
  if (48 <=? n) && (n <=? 57) then Some (n - 48)
  else if (65 <=? n) && (n <=? 70) then Some (n - 55)
  else if (97 <=? n) && (n <=? 102) then Some (n - 87)
  else None.

(** Four hexadecimal digits. *)
Definition hex4 (s : string) : option (Z * string) :=
  match s with
  | String a (String b (String c (String d rest))) =>
      match hex_value a, hex_value b, hex_value c, hex_value d with
      | Some x, Some y, Some z, Some w =>
          Some (4096 * x + 256 * y + 16 * z + w, rest)
      | _, _, _, _ => None
      end
  | _ => None
  end.

Definition byte (n : Z) : ascii := ascii_of_N (Z.to_N n).

Definition utf8 (cp : Z) : string :=
  if cp <? 128 then String (byte cp) ""
  else if cp <? 2048 then
    String (byte (192 + cp / 64)) (String (byte (128 + cp mod 64)) "")
  else if cp <? 65536 then
    String (byte (224 + cp / 4096))
      (String (byte (128 + (cp / 64) mod 64))
         (String (byte (128 + cp mod 64)) ""))
  else
    String (byte (240 + cp / 262144))
      (String (byte (128 + (cp / 4096) mod 64))
         (String (byte (128 + (cp / 64) mod 64))
            (String (byte (128 + cp mod 64)) ""))).

(** The text after [\u]: one code unit, or a surrogate pair. *)
Definition unicode_escape (s : string) : option (string * string) :=
  match hex4 s with
  | None => None
  | Some (hi, rest) =>
      if (55296 <=? hi) && (hi <=? 56319) then
        match rest with
        | String "\" (String "u" s') =>
            match hex4 s' with
            | Some (lo, rest') =>
                if (56320 <=? lo) && (lo <=? 57343)
                then Some (utf8 (65536 + (hi - 55296) * 1024
                                 + (lo - 56320)), rest')
                else Some (utf8 hi, rest)
            | None => Some (utf8 hi, rest)
            end
        | _ => Some (utf8 hi, rest)
        end
      else Some (utf8 hi, rest)
  end.

(** The characters of a string up to its closing quote; a control
    character or an unknown escape is an error. *)
Fixpoint scanstring (fuel : nat) (s : string) : option (string * string) :=
  match fuel with
  | O => None
  | S fuel' =>
      match s with
      | EmptyString => None
      | String "034" rest => Some (""%string, rest)
      | String "\" (String e rest) =>
          let continue (text : string) (rest' : string) :=
            match scanstring fuel' rest' with
            | Some (tail, rest'') => Some ((text +:+ tail)%string, rest'')
            | None => None
            end in
          match e with
          | "034" => continue (String "034" "") rest
          | "\" => continue "\"%string rest
          | "/" => continue "/"%string rest
          | "b" => continue (String "008" "") rest
          | "f" => continue (String "012" "") rest
          | "n" => continue (String "010" "") rest
          | "r" => continue (String "013" "") rest
          | "t" => continue (String "009" "") rest
          | "u" =>
              match unicode_escape rest with
              | Some (text, rest') => continue text rest'
              | None => None
              end
          | _ => None
          end
      | String c rest =>
          if (nat_of_ascii c <? 32)%nat then None
          else match scanstring fuel' rest with
               | Some (tail, rest') => Some (String c tail, rest')
               | None => None
               end
      end
  end.

(** [d[key] = value] on a [dict] in insertion order. *)
Fixpoint dict_set (key : string) (value : json)
    (d : list (string * json)) : list (string * json) :=
  match d with
  | [] => [(key, value)]
  | (k, v) :: d' =>
      if bool_decide (k = key) then (k, value) :: d'
      else (k, v) :: dict_set key value d'
  end.

Definition literal (word : string) (v : json) (s : string)
  : option (json * string) :=
  if String.prefix word s
  then Some (v, String.substring (String.length word)
                  (String.length s - String.length word) s)
  else None.

(** One value at the head of [s]; [elements] and [members] read the
    rest of an array after a value is expected, and the rest of an
    object after a key is expected. *)
Fixpoint value (fuel : nat) (s : string) : option (json * string) :=
  match fuel with
  | O => None
  | S fuel' =>
      match s with
      | String "034" rest =>
          match scanstring (S (String.length rest)) rest with
          | Some (text, rest') => Some (JString text, rest')
          | None => None
          end
      | String "{" rest =>
          match skip_ws rest with
          | String "}" rest' => Some (JObject [], rest')
          | rest' => members fuel' rest' []
          end
      | String "[" rest =>
          match skip_ws rest with
          | String "]" rest' => Some (JArray [], rest')
          | rest' => elements fuel' rest' []
          end
      | String "n" _ => literal "null" JNull s
      | String "t" _ => literal "true" (JBool true) s
      | String "f" _ => literal "false" (JBool false) s
      | String "N" _ => literal "NaN" (JFloat "NaN") s
      | String "I" _ => literal "Infinity" (JFloat "Infinity") s
      | String "-" (String "I" _) =>
          literal "-Infinity" (JFloat "-Infinity") s
      | String "-" rest => number true rest
      | _ => number false s
      end
  end
with elements (fuel : nat) (s : string) (acc : list json)
  : option (json * string) :=
  match fuel with
  | O => None
  | S fuel' =>
      match value fuel' s with
      | None => None
      | Some (v, rest) =>
          match skip_ws rest with
          | String "]" rest' => Some (JArray (acc ++ [v]), rest')
          | String "," rest' => elements fuel' (skip_ws rest') (acc ++ [v])
          | _ => None
          end
      end
  end
with members (fuel : nat) (s : string) (acc : list (string * json))
  : option (json * string) :=
  match fuel with
  | O => None
  | S fuel' =>
      match s with
      | String "034" rest =>
          match scanstring (S (String.length rest)) rest with
          | None => None
          | Some (key, rest1) =>
              match skip_ws rest1 with
              | String ":" rest2 =>
                  match value fuel' (skip_ws rest2) with
                  | None => None
                  | Some (v, rest3) =>
                      match skip_ws rest3 with
                      | String "}" rest4 =>
                          Some (JObject (dict_set key v acc), rest4)
                      | String "," rest4 =>
                          members fuel' (skip_ws rest4) (dict_set key v acc)
                      | _ => None
                      end
                  end
              | _ => None
              end
          end
      | _ => None
      end
  end.

(** [json.loads(s)]: one value between optional white space, and nothing
    after it. *)
Definition loads (s : string) : option json :=
  match value (2 * String.length s + 2) (skip_ws s) with
  | Some (v, rest) =>
      match skip_ws rest with
      | EmptyString => Some v
      | _ => None
      end
  | None => None
  end.

End json_module.

(** ** [app/api/question_banks.py] *)

(** The request body of [create_bank], [QuestionBankCreate]. *)
Record QuestionBankCreate : Type := mkQuestionBankCreate {
  bc_name : string;
  bc_description : option string;
  bc_user_id : option Z
}.

(** The bank returned by [create_bank], with the [question_count] set on
    it. *)
Record QuestionBankResponse : Type := mkQuestionBankResponse {
  bank : QuestionBank.t;
  question_count : Z
}.

(** The [dict] the three membership handlers return. *)
Record membership_response : Type := mk_membership_response {
  m_success : bool;
  m_message : string;
  m_bank_id : Z;
  m_bank_name : string
}.

Definition duplicate_name_detail (name : string) : string :=
  ("A question bank with the name '" +:+ name +:+ "' already exists")%string.

Definition create_bank (db : Session) (bank_in : QuestionBankCreate)
    (current_user : User.t)
  : (HTTPException + QuestionBankResponse) * Session :=
  let existing_bank := bank_crud.get_by_name db (bc_name bank_in) in
  if match existing_bank with
     | Some b =>
         bool_decide (QuestionBank.user_id b = Some (User.id current_user))
     | None => false
     end
  then (inl (mkHTTPException 400 (duplicate_name_detail (bc_name bank_in))),
        db)
  else
    let '(bank, db') :=
      bank_crud.create db (bc_name bank_in) (bc_description bank_in)
        (Some (User.id current_user)) in
    (inr (mkQuestionBankResponse bank 0), db').

(** The loop of [add_questions_to_bank] (and of [save_questions_to_bank]):
    every id that resolves gets [bank_id] and is counted. *)
Definition add_loop (bank_id : Z) (question_ids : list Z) (db : Session)
  : Session * Z :=
  foldl (fun '(db, updated_count) q_id =>
           match question_crud.get db q_id with
           | Some question =>
               (question_crud.update_bank_id db question (Some bank_id),
                updated_count + 1)
           | None => (db, updated_count)
           end)
        (db, 0) question_ids.

(** The loop of [remove_questions_from_bank]: every id that resolves to a
    question of this bank has its [bank_id] cleared and is counted. *)
Definition remove_loop (bank_id : Z) (question_ids : list Z) (db : Session)
  : Session * Z :=
  foldl (fun '(db, updated_count) q_id =>
           match question_crud.get db q_id with
           | Some question =>
               if bool_decide (Question.bank_id question = Some bank_id)
               then (question_crud.update_bank_id db question None,
                     updated_count + 1)
               else (db, updated_count)
           | None => (db, updated_count)
           end)
        (db, 0) question_ids.

Definition add_questions_to_bank (db : Session) (bank_id : Z)
    (question_ids : list Z) (current_user : User.t)
  : (HTTPException + membership_response) * Session :=
  match bank_crud.get db bank_id with
  | None => (inl (mkHTTPException 404 "Question bank not found"), db)
  | Some bank =>
      if bool_decide (QuestionBank.user_id bank <> Some (User.id current_user))
      then (inl (mkHTTPException 403 "Not enough permissions"), db)
      else
        let '(db', updated_count) := add_loop bank_id question_ids db in
        (inr (mk_membership_response true
                (Py.str_of_int updated_count +:+ " questions added to bank")
                bank_id (QuestionBank.name bank)),
         db')
  end.

Definition remove_questions_from_bank (db : Session) (bank_id : Z)
    (question_ids : list Z) (current_user : User.t)
  : (HTTPException + membership_response) * Session :=
  match bank_crud.get db bank_id with
  | None => (inl (mkHTTPException 404 "Question bank not found"), db)
  | Some bank =>
      if bool_decide (QuestionBank.user_id bank <> Some (User.id current_user))
      then (inl (mkHTTPException 403 "Not enough permissions"), db)
      else
        let '(db', updated_count) := remove_loop bank_id question_ids db in
        (inr (mk_membership_response true
                (Py.str_of_int updated_count
                 +:+ " questions removed from bank")
                bank_id (QuestionBank.name bank)),
         db')
  end.

(** ** [app/api/questions.py]: [save_questions_to_bank] *)

(** The request body; [bank_id] and [bank_name] are [None] when absent. *)
Record save_request : Type := mk_save_request {
  sr_question_ids : list Z;
  sr_bank_id : option Z;
  sr_bank_name : option string
}.

Definition bank_not_found_detail (bank_id : Z) : string :=
  ("Question bank with ID " +:+ Py.str_of_int bank_id +:+ " not found")%string.

(** The body of the [try] block. No statement of it raises anything but
    the [HTTPException]s written out, so the handler's closing clauses
    leave its outcome as it is. *)
Definition save_questions_to_bank (db : Session) (request : save_request)
    (current_user : User.t)
  : (HTTPException + membership_response) * Session :=
  let question_ids := sr_question_ids request in
  let bank_id := sr_bank_id request in
  let bank_name := sr_bank_name request in
  if bool_decide (question_ids = []) then
    (inl (mkHTTPException 400 "No question IDs provided"), db)
  else
  (* Create bank if needed *)
  let '(bank_id, db) :=
    if negb (Py.truthy_int bank_id) && Py.truthy_str bank_name then
      let '(bank, db') :=
        bank_crud.create db (default ""%string bank_name) None
          (Some (User.id current_user)) in
      (Some (QuestionBank.id bank), db')
    else (bank_id, db) in
  match bank_id with
  | Some bank_id =>
      if bank_id =? 0 then
        (inl (mkHTTPException 400
                "Either bank_id or bank_name must be provided"), db)
      else
      (* Verify bank exists and user has access *)
      match bank_crud.get db bank_id with
      | None => (inl (mkHTTPException 404 (bank_not_found_detail bank_id)), db)
      | Some bank =>
          if Py.truthy_int (QuestionBank.user_id bank)
             && bool_decide (QuestionBank.user_id bank
                             <> Some (User.id current_user))
          then (inl (mkHTTPException 403
                       "You don't have access to this question bank"), db)
          else
            let '(db', updated_count) := add_loop bank_id question_ids db in
            (inr (mk_membership_response true
                    (Py.str_of_int updated_count
                     +:+ " questions saved to bank")
                    bank_id (QuestionBank.name bank)),
             db')
      end
  | None =>
      (inl (mkHTTPException 400
              "Either bank_id or bank_name must be provided"), db)
  end.

(** ** [app/api/question_banks.py]: the reading and maintenance handlers

    [skip] and [limit] are the integers of the query string, passed on to
    the query as its offset and limit (see [question_crud.offset_limit]). *)

(** [bank.questions], the relationship: the questions that carry the
    bank's id. *)
Definition bank_questions (db : Session) (b : QuestionBank.t)
  : list Question.t :=
  filter (fun q => Question.bank_id q = Some (QuestionBank.id b))
         (questions db).

Definition read_banks (db : Session) (skip limit : Z)
    (current_user : User.t) : list QuestionBankResponse :=
  (fun bank =>
     mkQuestionBankResponse bank
       (Z.of_nat (length (bank_questions db bank))))
    <$> bank_crud.get_multi_by_user db (User.id current_user) skip limit.

Definition read_bank (db : Session) (bank_id : Z) (current_user : User.t)
  : HTTPException + QuestionBank.t :=
  match bank_crud.get db bank_id with
  | None => inl (mkHTTPException 404 "Question bank not found")
  | Some bank =>
      if bool_decide (QuestionBank.user_id bank <> Some (User.id current_user))
      then inl (mkHTTPException 403 "Not enough permissions")
      else inr bank
  end.

(** The request body of [update_bank], [QuestionBankUpdate]. *)
Record QuestionBankUpdate : Type := mkQuestionBankUpdate {
  bu_name : option string;
  bu_description : option string
}.

Section BankMaintenance.

(** [CRUDBase.update] and [CRUDBase.remove] ([app/crud/base.py], not among
    the sources): each returns the object and the database it leaves. *)
Variable crud_update :
  Session -> QuestionBank.t -> QuestionBankUpdate -> QuestionBank.t * Session.
Variable crud_remove : Session -> Z -> QuestionBank.t * Session.

Definition update_bank (db : Session) (bank_id : Z)
    (bank_in : QuestionBankUpdate) (current_user : User.t)
  : (HTTPException + QuestionBank.t) * Session :=
  match bank_crud.get db bank_id with
  | None => (inl (mkHTTPException 404 "Question bank not found"), db)
  | Some bank =>
      if bool_decide (QuestionBank.user_id bank <> Some (User.id current_user))
      then (inl (mkHTTPException 403 "Not enough permissions"), db)
      else
        let '(bank, db') := crud_update db bank bank_in in (inr bank, db')
  end.

Definition delete_bank (db : Session) (bank_id : Z) (current_user : User.t)
  : (HTTPException + QuestionBank.t) * Session :=
  match bank_crud.get db bank_id with
  | None => (inl (mkHTTPException 404 "Question bank not found"), db)
  | Some bank =>
      if bool_decide (QuestionBank.user_id bank <> Some (User.id current_user))
      then (inl (mkHTTPException 403 "Not enough permissions"), db)
      else
        let '(bank, db') := crud_remove db bank_id in (inr bank, db')
  end.

End BankMaintenance.

Section OptionsDict.

(** [json.loads] ([None] when it raises), [json.dumps], and [bool(x)] for
    a float [x] that the decoder has kept as its text. *)
Variable json_loads : string -> option json.
Variable json_dumps : json -> string.
Variable float_truthy : string -> bool.

(** [bool(v)] for a decoded value. *)
Definition truthy_json (v : json) : bool :=
  match v with
  | JNull => false
  | JBool b => b
  | JInt n => negb (n =? 0)
  | JFloat text => float_truthy text
  | JString s => Py.truthy_str (Some s)
  | JArray items => match items with [] => false | _ => true end
  | JObject members => match members with [] => false | _ => true end
  end.

(** [Question.options_dict], the getter. *)
Definition options_dict (q : Question.t) : json :=
  if Py.truthy_str (Question.options q)
  then default empty_dict
         (json_loads (default ""%string (Question.options q)))
  else empty_dict.

(** [Question.options_dict], the setter. *)
Definition set_options_dict (d : json) (q : Question.t) : Question.t :=
  if truthy_json d
  then Question.set_options (Some (json_dumps d)) q
  else Question.set_options None q.

(** The body of the loop of [read_bank_questions]; the getter and the
    setter do not raise, so the [except] clause is never entered. *)
Definition refresh_options (q : Question.t) : Question.t :=
  if Py.truthy_str (Question.options q)
  then set_options_dict (options_dict q) q
  else q.

(** The objects are changed in the session and returned; nothing is
    committed. *)
Definition read_bank_questions (db : Session) (bank_id : Z)
    (skip limit : Z) (current_user : User.t)
  : HTTPException + list Question.t :=
  match bank_crud.get db bank_id with
  | None => inl (mkHTTPException 404 "Question bank not found")
  | Some bank =>
      if bool_decide (QuestionBank.user_id bank <> Some (User.id current_user))
      then inl (mkHTTPException 403 "Not enough permissions")
      else
        let questions := question_crud.get_by_bank db bank_id skip limit in
        inr (refresh_options <$> questions)
  end.

End OptionsDict.

(** ** [app/api/questions.py]: [generate_questions] *)

(** The nine counts of the form. *)
Module generation_form.
Record t : Type := mk {
  remember : Z;
  understand : Z;
  apply : Z;
  analyze : Z;
  evaluate : Z;
  create : Z;
  multiple_choice : Z;
  fill_in_blanks : Z;
  true_false : Z
}.
End generation_form.

(** The mismatch message, from the texts of the two totals. *)
Definition total_mismatch_detail (total_questions total_types : string)
  : string :=
  ("Total question count (" +:+ total_questions +:+
   ") does not match total question types (" +:+ total_types +:+ ")")%string.

Section Generation.

(** A generated question, a [Dict[str, Any]]. *)
Context {generated : Type}.

(** [str] of an [int], which the f-string of the mismatch message calls:
    [inr] of the text, or [inl] of the text of the [ValueError] raised
    above the interpreter's digit limit (see [Py.str_limited]). *)
Variable str_int : Z -> string + string.

(** [str(e)] for an [HTTPException]. *)
Variable str_HTTPException : HTTPException -> string.

(** [raise HTTPException(status_code=400, detail=f"...")] of the third
    check: the f-string renders [total_questions], then [total_types]; a
    [ValueError] of either is raised in place of the [HTTPException]. *)
Definition raise_total_mismatch (total_questions total_types : Z)
  : exception :=
  match str_int total_questions with
  | inl error => Other error
  | inr questions_text =>
      match str_int total_types with
      | inl error => Other error
      | inr types_text =>
          HTTP (mkHTTPException 400
                  (total_mismatch_detail questions_text types_text))
      end
  end.

(** What follows the three checks in the [try] block: the service's
    [process_file_and_generate_questions] on the uploaded file, its
    [save_questions_to_db], and the copy of the database ids into the
    questions. *)
Variable generate_and_save :
  generation_form.t -> Session -> (exception + list generated) * Session.

(** The handler has the single clause
    [except Exception as e: raise HTTPException(status_code=500, detail=str(e))],
    which also catches the [HTTPException]s of its own checks. *)
Definition generate_questions (db : Session) (form : generation_form.t)
  : (HTTPException + list generated) * Session :=
  let total_questions :=
    generation_form.remember form + generation_form.understand form
    + generation_form.apply form + generation_form.analyze form
    + generation_form.evaluate form + generation_form.create form in
  let total_types :=
    generation_form.multiple_choice form + generation_form.fill_in_blanks form
    + generation_form.true_false form in
  let '(r, db') :=
    if total_questions =? 0 then
      (inl (HTTP (mkHTTPException 400
                    "Select at least one Bloom's taxonomy level")), db)
    else if total_types =? 0 then
      (inl (HTTP (mkHTTPException 400 "Select at least one question type")),
       db)
    else if bool_decide (total_questions <> total_types) then
      (inl (raise_total_mismatch total_questions total_types), db)
    else generate_and_save form db in
  match r with
  | inl (HTTP e) => (inl (mkHTTPException 500 (str_HTTPException e)), db')
  | inl (Other msg) => (inl (mkHTTPException 500 msg), db')
  | inr questions => (inr questions, db')
  end.

End Generation.

(** ** [app/core/llm.py] and [app/services/question_generator.py] *)

(** [s.split(sep)] for a separator of one character. *)
Fixpoint split (sep : ascii) (s : string) : list string :=
  match s with
  | EmptyString => [EmptyString]
  | String c s' =>
      if bool_decide (c = sep) then EmptyString :: split sep s'
      else match split sep s' with
           | piece :: pieces => String c piece :: pieces
           | [] => [String c EmptyString]
           end
  end.

(** [', '.join(pieces)] *)
Fixpoint join_comma (pieces : list string) : string :=
  match pieces with
  | [] => EmptyString
  | [piece] => piece
  | piece :: rest => (piece +:+ ", " +:+ join_comma rest)%string
  end.

Definition allowed_extensions : list string :=
  ["pdf"%string; "docx"%string; "txt"%string].

Section ExtractText.

(** [str.lower], of the runtime. *)
Variable lower : string -> string.

(** [file_name.split('.')[-1].lower()] *)
Definition file_extension (file_name : string) : string :=
  lower (List.last (split "." file_name) EmptyString).

(** The checks of [process_file_and_generate_questions] on the file name:
    the [ValueError] raised, or the extension found. *)
Definition check_file_name (filename : option string) : string + string :=
  if negb (Py.truthy_str filename) then inl "Filename is required"%string
  else
    let file_extension := file_extension (default ""%string filename) in
    if bool_decide (file_extension ∈ allowed_extensions)
    then inr file_extension
    else inl ("Unsupported file format: " +:+ file_extension
              +:+ ". Supported formats: " +:+ join_comma allowed_extensions)%string.

(** The three readers ([PyPDF2], [docx] and [bytes.decode]); each raises
    ([inl]) or returns the text. *)
Context {bytes : Type}.
Variable read_pdf : bytes -> string + string.
Variable read_docx : bytes -> string + string.
Variable decode_utf8 : bytes -> string + string.

Definition extract_text_from_file (file_content : bytes) (file_name : string)
  : string + string :=
  let file_extension := file_extension file_name in
  if bool_decide (file_extension = "pdf"%string) then read_pdf file_content
  else if bool_decide (file_extension ∈ ["docx"%string; "doc"%string])
  then read_docx file_content
  else if bool_decide (file_extension = "txt"%string)
  then decode_utf8 file_content
  else inl ("Unsupported file format: " +:+ file_extension)%string.

End ExtractText.

Module LLMService.

(** [{k: v for k, v in d.items() if v > 0}] *)
Definition positive (d : list (string * Z)) : list (string * Z) :=
  filter (fun entry => entry.2 > 0) d.

Definition bloom_counts (form : generation_form.t) : list (string * Z) :=
  positive
    [ ("Remember"%string, generation_form.remember form);
      ("Understand"%string, generation_form.understand form);
      ("Apply"%string, generation_form.apply form);
      ("Analyze"%string, generation_form.analyze form);
      ("Evaluate"%string, generation_form.evaluate form);
      ("Create"%string, generation_form.create form) ].

Definition question_types (form : generation_form.t) : list (string * Z) :=
  positive
    [ ("multiple_choice"%string, generation_form.multiple_choice form);
      ("fill_in_blanks"%string, generation_form.fill_in_blanks form);
      ("true_false"%string, generation_form.true_false form) ].

(** The statements of [generate_questions] before the prompt is built: the
    [ValueError] raised, or the two maps of counts the prompt is written
    from. [api_key] is the key the service holds, [self.api_key]. *)
Definition generate_questions_counts (api_key : option string)
    (form : generation_form.t)
  : string + list (string * Z) * list (string * Z) :=
  if negb (Py.truthy_str api_key) then
    inl "OpenAI API key is required for question generation"%string
  else
    match bloom_counts form, question_types form with
    | _ :: _, _ :: _ => inr (bloom_counts form, question_types form)
    | _, _ =>
        inl "At least one Bloom's taxonomy level and one question type must be selected"%string
    end.

End LLMService.

(** ** Notions the properties are stated with *)

(** The questions the ids of a request resolve to, in request order (ids
    that do not resolve are dropped). *)
Definition resolve (db : Session) (ids : list Z) : list Question.t :=
  omap (question_crud.get db) ids.

Section Pools.

(** [str.capitalize], of the runtime. *)
Variable capitalize : string -> string.

(** The resolved questions whose stored level is the capitalized [level]. *)
Definition matching (db : Session) (ids : list Z) (level : string)
  : list Question.t :=
  filter (fun q => Question.level q = Some (capitalize level))
         (resolve db ids).

(** The pool the selection loop draws from for the quota key [level]. *)
Definition drawn_pool (db : Session) (ids : list Z) (level : string)
  : list Question.t :=
  level_qs capitalize (group_by Question.level (resolve db ids)) level.

(** [sum(min(quota[l], pool[l]) for l in quota)], as the specification
    writes the total. *)
Definition min_total (db : Session) (ids : list Z)
    (quota : list (string * Z)) : Z :=
  foldr (fun entry acc =>
           Z.min entry.2 (Z.of_nat (length (matching db ids entry.1))) + acc)
        0 quota.

(** What one quota entry contributes: [min(count, pool)] questions, and
    none when that is not positive. *)
Definition quota_share (count : Z) (pool : list Question.t) : Z :=
  Z.max 0 (Z.min count (Z.of_nat (length pool))).

Definition share_total (db : Session) (ids : list Z)
    (quota : list (string * Z)) : Z :=
  foldr (fun entry acc => quota_share entry.2 (matching db ids entry.1) + acc)
        0 quota.

End Pools.

(** [sel] is a draw without replacement from the pool [pool] for the
    entry [entry]: items at distinct positions of the pool, as many as the
    entry's share. *)
Definition drawn_from (pool : string -> list Question.t)
    (entry : string * Z) (sel : list Question.t) : Prop :=
  sel ⊆+ pool entry.1 ∧
  Z.of_nat (length sel) = quota_share entry.2 (pool entry.1).

(** Two strings that differ at most in the case of their ASCII letters. *)
Definition same_modulo_case (s t : string) : Prop :=
  Py.ascii_lower s = Py.ascii_lower t.

(** The updates of [add_loop], in one pass over the table. *)
Definition assign (bank_id : Z) (ids : list Z) (db : Session) : Session :=
  mkSession
    ((fun q => if bool_decide (Question.id q ∈ ids)
               then Question.set_bank_id (Some bank_id) q else q)
       <$> questions db)
    (question_banks db).

(** The banks of [db] that [user] owns under the name [name]. *)
Definition owned_named (db : Session) (user : Z) (name : string)
  : list QuestionBank.t :=
  filter (fun b => QuestionBank.user_id b = Some user
                   ∧ QuestionBank.name b = name)
         (question_banks db).

(** One round of [remove_loop]. *)
Definition remove_step (bank_id : Z) : Session * Z -> Z -> Session * Z :=
  fun '(db, updated_count) q_id =>
    match question_crud.get db q_id with
    | Some question =>
        if bool_decide (Question.bank_id question = Some bank_id)
        then (question_crud.update_bank_id db question None,
              updated_count + 1)
        else (db, updated_count)
    | None => (db, updated_count)
    end.

(** What [remove_loop] does to the row found under an id: its [bank_id] is
    cleared when the id is listed and the row is in the bank. *)
Definition released (bank_id : Z) (ids : list Z) (q : Question.t)
  : Question.t :=
  if bool_decide (Question.id q ∈ ids ∧ Question.bank_id q = Some bank_id)
  then Question.set_bank_id None q else q.

(** The two totals [generate_questions] compares. *)
Definition level_total (form : generation_form.t) : Z :=
  generation_form.remember form + generation_form.understand form
  + generation_form.apply form + generation_form.analyze form
  + generation_form.evaluate form + generation_form.create form.

Definition type_total (form : generation_form.t) : Z :=
  generation_form.multiple_choice form + generation_form.fill_in_blanks form
  + generation_form.true_false form.

(** The nine counts of a form. *)
Definition form_counts (form : generation_form.t) : list Z :=
  [ generation_form.remember form; generation_form.understand form;
    generation_form.apply form; generation_form.analyze form;
    generation_form.evaluate form; generation_form.create form;
    generation_form.multiple_choice form; generation_form.fill_in_blanks form;
    generation_form.true_false form ].

(** [c in s] for a character [c]. *)
Fixpoint contains (c : ascii) (s : string) : bool :=
  match s with
  | EmptyString => false
  | String c' s' => bool_decide (c' = c) || contains c s'
  end.

(** ** Sample data

    The texts of the samples are ASCII, on which [str.capitalize] and
    [str.lower] are [Py.ascii_capitalize] and [Py.ascii_lower]: the
    handlers are run on the samples with these two. *)

Module sample_data.

Definition mc_question (id : Z) (level : string) (options : option string)
  : Question.t :=
  Question.mk id "What is it?" (Some "A"%string) (Some level)
    (Some "multiple_choice"%string) options None None.

(** The double quote. *)
Definition dq : string := String "034" "".

(** The text of a JSON object with the members [A: yes] and [B: no]. *)
Definition options_yes_no : string :=
  ("{" +:+ dq +:+ "A" +:+ dq +:+ ": " +:+ dq +:+ "yes" +:+ dq +:+ ", "
   +:+ dq +:+ "B" +:+ dq +:+ ": " +:+ dq +:+ "no" +:+ dq +:+ "}")%string.

(** Three questions at canonical levels, with well- and ill-formed
    options. *)
Definition db3 : Session :=
  mkSession
    [ mc_question 1 "Remember" (Some options_yes_no);
      mc_question 2 "Remember" (Some "{bad"%string);
      mc_question 3 "Apply" None ]
    [ QuestionBank.mk 1 "Biology" None (Some 7);
      QuestionBank.mk 2 "Shared" None None ].

(** One question whose level is stored in lower case. *)
Definition db_lower : Session :=
  mkSession [ mc_question 1 "remember" None ] [].

(** One question whose options are stored as a JSON array. *)
Definition db_array : Session :=
  mkSession [ mc_question 1 "Remember" (Some "[1]"%string) ] [].

(** Two banks of the same name, the older one owned by user 2 and the
    newer one by user 1. *)
Definition db_same_name : Session :=
  mkSession []
    [ QuestionBank.mk 1 "Midterm" None (Some 2);
      QuestionBank.mk 2 "Midterm" None (Some 1) ].

(** [json.dumps] with its default separators, for values whose strings are
    printable ASCII (only the quote and the backslash are escaped) and
    whose floats are written by their text. *)
Fixpoint escape (s : string) : string :=
  match s with
  | EmptyString => EmptyString
  | String c s' =>
      if bool_decide (c = "034"%char) || bool_decide (c = "\"%char)
      then String "\" (String c (escape s'))
      else String c (escape s')
  end.

Definition quoted (s : string) : string := (dq +:+ escape s +:+ dq)%string.

Fixpoint dumps (v : json) : string :=
  match v with
  | JNull => "null"
  | JBool true => "true"
  | JBool false => "false"
  | JInt n => Py.str_of_int n
  | JFloat text => text
  | JString s => quoted s
  | JArray items => ("[" +:+ join_comma (map dumps items) +:+ "]")%string
  | JObject members =>
      ("{" +:+ join_comma
                 (map (fun '(key, value) =>
                         (quoted key +:+ ": " +:+ dumps value)%string)
                      members)
       +:+ "}")%string
  end.

(** Three questions, two of them in the bank 1, one of these with options
    that do not decode. *)
Definition db_banked : Session :=
  mkSession
    [ Question.set_bank_id (Some 1) (mc_question 1 "Remember"
                                       (Some options_yes_no));
      Question.set_bank_id (Some 1) (mc_question 2 "Remember"
                                       (Some "{bad"%string));
      mc_question 3 "Apply" None ]
    [ QuestionBank.mk 1 "Biology" None (Some 7);
      QuestionBank.mk 2 "Chemistry" None (Some 7);
      QuestionBank.mk 3 "Biology" None (Some 8) ].

(** A form asking for three questions on both sides, and one whose totals
    differ. *)
Definition form_three : generation_form.t :=
  generation_form.mk 2 0 1 0 0 0 1 0 2.

Definition form_mismatch : generation_form.t :=
  generation_form.mk 2 0 1 0 0 0 1 0 0.

(** [str] of an [int] under the interpreter's default limit of 4300
    digits, with the text of its [ValueError]. *)
Definition str_int : Z -> string + string :=
  Py.str_limited 4300
    "Exceeds the limit (4300 digits) for integer string conversion; use sys.set_int_max_str_digits() to increase the limit".

(** A total of 4301 digits. *)
Definition huge : Z := 10 ^ 4300.

End sample_data.

(** * Properties *)

(** ** Python built-ins *)

Lemma upper_lower_char c : Py.upper_char (Py.lower_char c) = Py.upper_char c.
Proof. by destruct c as [[] [] [] [] [] [] [] []]. Qed.

Lemma lower_lower_char c : Py.lower_char (Py.lower_char c) = Py.lower_char c.
Proof. by destruct c as [[] [] [] [] [] [] [] []]. Qed.

Lemma lower_idemp s : Py.ascii_lower (Py.ascii_lower s) = Py.ascii_lower s.
Proof.
  induction s as [|c s IH]; [done|]. simpl.
  by rewrite lower_lower_char, IH.
Qed.

Lemma capitalize_lower s :
  Py.ascii_capitalize (Py.ascii_lower s) = Py.ascii_capitalize s.
Proof.
  destruct s as [|c s]; [done|]. simpl.
  by rewrite upper_lower_char, lower_idemp.
Qed.

Lemma capitalize_same_modulo_case s t :
  same_modulo_case s t → Py.ascii_capitalize s = Py.ascii_capitalize t.
Proof.
  unfold same_modulo_case. intros Hst.
  by rewrite <-(capitalize_lower s), <-(capitalize_lower t), Hst.
Qed.

(** ** [random.sample] *)

Lemma swap_remove_perm {A : Type} (pool : list A) j x y :
  pool !! j = Some x → pool !! (length pool - 1)%nat = Some y →
  x :: take (length pool - 1)%nat (<[j := y]> pool) ≡ₚ pool.
Proof.
  intros Hj Hlast.
  assert (Hlen : (j < length pool)%nat) by by eapply lookup_lt_Some.
  set (n := (length pool - 1)%nat) in *.
  assert (Hpool : pool = take n pool ++ [y]).
  { rewrite <-(take_drop n pool) at 1. f_equal.
    erewrite drop_S by done. rewrite drop_ge; [done|]. lia. }
  destruct (decide (j = n)) as [->|Hne].
  - assert (x = y) as -> by congruence.
    rewrite list_insert_id by done. rewrite Hpool at 2.
    by rewrite Permutation_app_comm.
  - assert (Hlt : (j < length (take n pool))%nat)
      by (rewrite length_take; lia).
    rewrite Hpool at 1. rewrite insert_app_l by done.
    rewrite take_app_length' by (rewrite length_insert, length_take; lia).
    rewrite Hpool at 2.
    assert (Hx : take n pool !! j = Some x)
      by (rewrite lookup_take_lt; [done|lia]).
    rewrite <-(take_drop_middle _ _ _ Hx) at 2.
    rewrite insert_take_drop by done.
    rewrite <-!app_assoc. simpl.
    rewrite <-Permutation_middle.
    rewrite (Permutation_app_comm _ [y]). simpl.
    rewrite <-Permutation_middle. f_equiv. apply Permutation_middle.
Qed.

Lemma randbelow_lt n g : (0 < n)%nat → ((random.randbelow n g).1 < n)%nat.
Proof.
  intros Hn. destruct g as [|r g]; simpl; [done|].
  apply Nat.mod_upper_bound. lia.
Qed.

(** The loop outputs [k] items, taken at distinct positions of the pool. *)
Lemma sample_loop_spec {A : Type} k : ∀ (pool : list A) g,
  (k ≤ length pool)%nat →
  length (random.sample_loop pool k g).1 = k ∧
  (random.sample_loop pool k g).1 ⊆+ pool.
Proof.
  induction k as [|k IH]; intros pool g Hk; simpl.
  { split; [done|]. apply submseteq_nil_l. }
  pose proof (randbelow_lt (length pool) g ltac:(lia)) as Hj.
  destruct (random.randbelow (length pool) g) as [j g1]. simpl in Hj.
  destruct (lookup_lt_is_Some_2 pool j Hj) as [x Hx].
  destruct (lookup_lt_is_Some_2 pool (length pool - 1)%nat ltac:(lia))
    as [y Hy].
  rewrite Hx, Hy.
  pose proof (swap_remove_perm pool j x y Hx Hy) as Hperm.
  set (pool' := take (length pool - 1)%nat (<[j:=y]> pool)) in *.
  assert (Hlen' : length pool' = (length pool - 1)%nat).
  { unfold pool'. rewrite length_take, length_insert. lia. }
  destruct (IH pool' g1 ltac:(lia)) as [IH1 IH2].
  destruct (random.sample_loop pool' k g1) as [result g2]. simpl in *.
  split; [by rewrite IH1|].
  rewrite <-Hperm. by apply submseteq_skip.
Qed.

(** A negative or too large [k] is a [ValueError]. *)
Lemma sample_out_of_range {A : Type} (population : list A) k g :
  k < 0 ∨ Z.of_nat (length population) < k →
  random.sample population k g = inl random.ValueError_sample.
Proof.
  intros Hk. unfold random.sample. by rewrite bool_decide_eq_false_2 by lia.
Qed.

(** ** Grouping and selection *)

(** A group holds, in order, the questions with its key. *)
Lemma group_by_lookup {K : Type} `{Countable K} (key : Question.t → K) qs k :
  default [] (group_by key qs !! k) = filter (λ q, key q = k) qs.
Proof.
  unfold group_by. induction qs as [|q qs IH] using rev_ind; [done|].
  rewrite foldl_app, filter_app. simpl.
  destruct (decide (key q = k)) as [<-|Hne].
  - rewrite lookup_insert_eq. simpl. rewrite IH.
    by rewrite filter_cons_True by done.
  - rewrite lookup_insert_ne by done. rewrite IH.
    rewrite filter_cons_False by done. by rewrite app_nil_r.
Qed.

Lemma drawn_pool_matching capitalize db ids level :
  drawn_pool capitalize db ids level = matching capitalize db ids level.
Proof. apply group_by_lookup. Qed.

(** One round never raises, and appends a draw from the level's pool. *)
Lemma select_level_spec capitalize groups entry g :
  ∃ sel g', select_level capitalize groups entry g = inr (sel, g') ∧
            drawn_from (level_qs capitalize groups) entry sel.
Proof.
  destruct entry as [level count].
  unfold select_level, drawn_from, quota_share. simpl.
  set (pool := level_qs capitalize groups level).
  case_bool_decide as Hpos.
  - unfold random.sample. rewrite bool_decide_eq_true_2 by lia.
    destruct (sample_loop_spec
                (Z.to_nat (Z.min count (Z.of_nat (length pool))))
                pool g ltac:(lia)) as [Hlen Hsub].
    destruct (random.sample_loop _ _ _) as [sel g'].
    exists sel, g'. simpl in *. split; [done|]. split; [done|]. lia.
  - exists [], g. split; [done|]. split; [apply submseteq_nil_l|].
    simpl. lia.
Qed.

(** The loop never raises; what it appends is, entry by entry and in the
    order of the entries, a draw from that entry's pool. *)
Lemma select_questions_spec capitalize groups items : ∀ acc g,
  ∃ sels g',
    select_questions capitalize groups items acc g
    = (inr (acc ++ concat sels), g') ∧
    Forall2 (drawn_from (level_qs capitalize groups)) items sels.
Proof.
  induction items as [|entry items IH]; intros acc g; simpl.
  { exists [], g. by rewrite app_nil_r. }
  destruct (select_level_spec capitalize groups entry g)
    as (sel & g1 & -> & Hsel).
  destruct (IH (acc ++ sel) g1) as (sels & g' & -> & Hsels).
  exists (sel :: sels), g'. simpl. rewrite <-app_assoc. split; [done|].
  by constructor.
Qed.

Lemma drawn_total capitalize db ids quota sels :
  Forall2 (drawn_from (matching capitalize db ids)) quota sels →
  Z.of_nat (length (concat sels)) = share_total capitalize db ids quota.
Proof.
  induction 1 as [|entry sel quota sels [_ Hlen] _ IH]; [done|].
  simpl. rewrite length_app, Nat2Z.inj_add, Hlen, IH. done.
Qed.

(** What the handler does once the three checks have passed. *)
Lemma create_examination_selected capitalize str_int json_loads db g cfg :
  question_ids cfg ≠ [] →
  Py.sum_values (bloom_levels cfg) = Py.sum_values (question_types cfg) →
  resolve db (question_ids cfg) ≠ [] →
  ∃ sels g',
    create_examination capitalize str_int json_loads db g cfg =
      (inr (mk_exam_response true
              (mk_examination
                 (default "New Examination"%string (title cfg))
                 (format_question json_loads <$> concat sels)
                 (share_total capitalize db (question_ids cfg)
                    (bloom_levels cfg)))),
       g') ∧
    Forall2 (drawn_from (matching capitalize db (question_ids cfg)))
            (bloom_levels cfg) sels.
Proof.
  intros Hids Hsum Hres.
  unfold create_examination, create_examination_body.
  rewrite bool_decide_eq_false_2 by done.
  rewrite bool_decide_eq_false_2 by (by intros []).
  fold (resolve db (question_ids cfg)).
  destruct (resolve db (question_ids cfg)) as [|q0 qs] eqn:Hqs; [done|].
  rewrite <-Hqs.
  destruct (select_questions_spec capitalize
              (group_by Question.level (resolve db (question_ids cfg)))
              (bloom_levels cfg) [] g) as (sels & g' & -> & Hsels).
  assert (Hsels' : Forall2 (drawn_from (matching capitalize db
                                         (question_ids cfg)))
                           (bloom_levels cfg) sels).
  { eapply Forall2_impl; [exact Hsels|]. intros entry sel.
    unfold drawn_from.
    fold (drawn_pool capitalize db (question_ids cfg) entry.1).
    by rewrite drawn_pool_matching. }
  exists sels, g'. split; [|done]. simpl.
  by rewrite length_fmap, (drawn_total _ _ _ _ _ Hsels').
Qed.

Lemma resolve_all db ids :
  Forall (λ i, is_Some (question_crud.get db i)) ids →
  length (resolve db ids) = length ids.
Proof.
  unfold resolve. induction 1 as [|i ids [q Hq] _ IH]; [done|].
  cbn. rewrite Hq. cbn. by f_equal.
Qed.

(** ** The examination assembler *)

(** Claim C1, as the specification states it, fails for a negative quota:
    with [bloom_levels = {"Remember": -1, "Apply": 1}] and
    [question_types = {"multiple_choice": 0}] over the single resolved
    question 3 (level [Apply]), the preconditions hold and one question is
    returned, while [sum(min(quota[l], pool[l]))] is [0]. *)
Lemma create_examination_min_total_counterexample :
  let db := sample_data.db3 in
  let cfg := mk_exam_config [3] None
               [("Remember"%string, -1); ("Apply"%string, 1)]
               [("multiple_choice"%string, 0)] in
  question_ids cfg ≠ [] ∧
  Forall (λ i, is_Some (question_crud.get db i)) (question_ids cfg) ∧
  NoDup (question_ids cfg) ∧
  Py.sum_values (bloom_levels cfg) = Py.sum_values (question_types cfg) ∧
  ∃ r g', create_examination Py.ascii_capitalize sample_data.str_int
            json_module.loads db [] cfg = (inr r, g') ∧
          total_questions (exam r) = 1 ∧
          min_total Py.ascii_capitalize db (question_ids cfg)
            (bloom_levels cfg) = 0 ∧
          total_questions (exam r)
            ≠ min_total Py.ascii_capitalize db (question_ids cfg)
                (bloom_levels cfg).
Proof.
  simpl. split; [done|]. split; [by repeat constructor; eexists|].
  split; [apply NoDup_singleton|]. split; [done|].
  eexists _, _. split; [vm_compute; reflexivity|]. by vm_compute.
Qed.

(** Claim C1 (amended). For every non-empty [question_ids] in which every
    id resolves to a distinct stored question, and quota maps of equal
    totals, [create_examination] succeeds; [total_questions] is the sum
    over the level quota's entries of [min(quota[l], pool[l])] where that is
    positive and of zero otherwise, [pool[l]] being the resolved questions
    whose stored level is the capitalized key; and the returned questions
    are, in the iteration order of the level quota, one draw per entry out
    of that entry's pool. *)
Theorem create_examination_total capitalize str_int json_loads db g cfg :
  question_ids cfg ≠ [] →
  Forall (λ i, is_Some (question_crud.get db i)) (question_ids cfg) →
  NoDup (question_ids cfg) →
  Py.sum_values (bloom_levels cfg) = Py.sum_values (question_types cfg) →
  ∃ sels g',
    create_examination capitalize str_int json_loads db g cfg =
      (inr (mk_exam_response true
              (mk_examination
                 (default "New Examination"%string (title cfg))
                 (format_question json_loads <$> concat sels)
                 (share_total capitalize db (question_ids cfg)
                    (bloom_levels cfg)))),
       g') ∧
    Forall2 (drawn_from (matching capitalize db (question_ids cfg)))
            (bloom_levels cfg) sels.
Proof.
  intros Hids Hall _ Hsum.
  apply create_examination_selected; [done..|].
  intros Hnil. apply (f_equal length) in Hnil.
  rewrite resolve_all in Hnil by done.
  by destruct (question_ids cfg).
Qed.

Lemma create_examination_total_witness :
  ∃ sels g',
    create_examination Py.ascii_capitalize sample_data.str_int
      json_module.loads sample_data.db3 [5; 1; 4]%nat
      (mk_exam_config [1; 2; 3] (Some "Quiz"%string)
         [("remember"%string, 1); ("Apply"%string, 5)]
         [("multiple_choice"%string, 6)]) =
      (inr (mk_exam_response true
              (mk_examination "Quiz"
                 (format_question json_module.loads <$> concat sels) 2)),
       g') ∧
    Forall2 (drawn_from (matching Py.ascii_capitalize sample_data.db3
                           [1; 2; 3]))
            [("remember"%string, 1); ("Apply"%string, 5)] sels.
Proof.
  apply (create_examination_total Py.ascii_capitalize sample_data.str_int
           json_module.loads sample_data.db3
           [5; 1; 4]%nat
           (mk_exam_config [1; 2; 3] (Some "Quiz"%string)
              [("remember"%string, 1); ("Apply"%string, 5)]
              [("multiple_choice"%string, 6)])).
  - discriminate.
  - repeat constructor; eexists; reflexivity.
  - apply (bool_decide_unpack _). vm_compute. exact I.
  - reflexivity.
Defined.

(** Claim C10. For a level-quota entry whose requested count is zero or
    negative, the round of the selection loop appends nothing and does not
    raise: [random.sample] is not called (the random source is left as it
    was), and the whole loop runs as if the entry were not there. *)
Theorem nonpositive_count_selects_nothing capitalize groups level count g :
  count ≤ 0 →
  select_level capitalize groups (level, count) g = inr ([], g) ∧
  ∀ before after acc g0,
    select_questions capitalize groups (before ++ (level, count) :: after)
      acc g0
    = select_questions capitalize groups (before ++ after) acc g0.
Proof.
  intros Hcount.
  assert (Hround : ∀ g1, select_level capitalize groups (level, count) g1
                         = inr ([], g1)).
  { intros g1. unfold select_level.
    by rewrite bool_decide_eq_false_2 by lia. }
  split; [apply Hround|].
  intros before after. induction before as [|entry before IH]; intros acc g0.
  - cbn [app select_questions]. rewrite Hround. by rewrite app_nil_r.
  - cbn [app select_questions].
    destruct (select_level capitalize groups entry g0) as [msg|[sel g1]];
      [done|].
    apply IH.
Qed.

Lemma nonpositive_count_selects_nothing_witness :
  let groups := group_by Question.level (questions sample_data.db3) in
  select_level Py.ascii_capitalize groups ("Remember"%string, -2) [3; 1]%nat
  = inr ([], [3; 1]%nat) ∧
  ∀ before after acc g0,
    select_questions Py.ascii_capitalize groups
      (before ++ ("Remember"%string, -2) :: after) acc g0
    = select_questions Py.ascii_capitalize groups (before ++ after) acc g0.
Proof.
  apply (nonpositive_count_selects_nothing Py.ascii_capitalize
           (group_by Question.level (questions sample_data.db3))
           "Remember" (-2) [3; 1]%nat).
  lia.
Defined.

(** Claim C2, as the specification states it, fails: a question stored with
    level [remember] resolves, differs from the quota key [Remember] only
    in letter case, and is not in the pool drawn from for that key; the
    examination assembled for [{"Remember": 1}] is empty. *)
Lemma case_normalized_pool_counterexample :
  let db := sample_data.db_lower in
  (∃ q s, q ∈ resolve db [1] ∧ Question.level q = Some s ∧
          same_modulo_case s "Remember" ∧
          q ∉ drawn_pool Py.ascii_capitalize db [1] "Remember") ∧
  ∃ r g',
    create_examination Py.ascii_capitalize sample_data.str_int
      json_module.loads db [0]%nat
      (mk_exam_config [1] None [("Remember"%string, 1)]
         [("multiple_choice"%string, 1)]) = (inr r, g') ∧
    exam_questions (exam r) = [].
Proof.
  simpl. split.
  - exists (sample_data.mc_question 1 "remember" None), "remember"%string.
    split; [by left|]. split; [done|]. split; [done|].
    vm_compute. by inversion 1.
  - eexists _, _. split; [vm_compute; reflexivity|done].
Qed.

(** Claim C2 (amended). The resolved questions are grouped by their level
    exactly as stored; it is the quota key that is capitalized when its
    pool is looked up. So, whenever the three checks pass, the questions
    returned for a quota entry come out of the resolved questions whose
    stored level equals the capitalized key, and are all of them when the
    count is at least their number; and a resolved question whose stored
    level is in the capitalized form and differs from an ASCII quota key
    only in the case of its letters belongs to the pool of that key. *)
Theorem pool_by_stored_level capitalize str_int json_loads db g cfg :
  question_ids cfg ≠ [] →
  Py.sum_values (bloom_levels cfg) = Py.sum_values (question_types cfg) →
  resolve db (question_ids cfg) ≠ [] →
  ∃ sels r g',
    create_examination capitalize str_int json_loads db g cfg = (inr r, g') ∧
    exam_questions (exam r) = format_question json_loads <$> concat sels ∧
    Forall2
      (λ entry sel,
         let pool :=
           filter (λ q, Question.level q = Some (capitalize entry.1))
                  (resolve db (question_ids cfg)) in
         sel ⊆+ pool ∧
         (Z.of_nat (length pool) ≤ entry.2 → sel ≡ₚ pool) ∧
         (∀ q s,
            Py.agrees_on_ascii capitalize Py.ascii_capitalize →
            Py.is_ascii entry.1 = true →
            q ∈ resolve db (question_ids cfg) →
            Question.level q = Some s →
            Py.ascii_capitalize s = s →
            same_modulo_case s entry.1 →
            q ∈ pool))
      (bloom_levels cfg) sels.
Proof.
  intros Hids Hsum Hres.
  destruct (create_examination_selected capitalize str_int json_loads db g cfg
              Hids Hsum Hres) as (sels & g' & Hrun & Hsels).
  eexists sels, _, g'. split; [exact Hrun|]. split; [done|].
  eapply Forall2_impl; [exact Hsels|].
  intros [key count] sel [Hsub Hlen]. unfold matching in *. simpl in *.
  split; [done|]. split.
  - intros Hcount. apply submseteq_length_Permutation; [done|].
    unfold quota_share in Hlen. lia.
  - intros q s Hcap Hkey Hq Hlevel Hcanon Hcase.
    apply list_elem_of_filter. split; [|done].
    rewrite Hlevel, (Hcap key Hkey).
    by rewrite <-(capitalize_same_modulo_case _ _ Hcase), Hcanon.
Qed.

Lemma pool_by_stored_level_witness :
  ∃ sels r g',
    create_examination Py.ascii_capitalize sample_data.str_int
      json_module.loads sample_data.db3 [5; 1; 4]%nat
      (mk_exam_config [1; 2; 3] None
         [("aPPLY"%string, 1); ("remember"%string, 5)]
         [("multiple_choice"%string, 6)]) = (inr r, g') ∧
    exam_questions (exam r)
      = format_question json_module.loads <$> concat sels ∧
    Forall2
      (λ entry sel,
         let pool :=
           filter (λ q, Question.level q = Some (Py.ascii_capitalize entry.1))
                  (resolve sample_data.db3 [1; 2; 3]) in
         sel ⊆+ pool ∧
         (Z.of_nat (length pool) ≤ entry.2 → sel ≡ₚ pool) ∧
         (∀ q s,
            Py.agrees_on_ascii Py.ascii_capitalize Py.ascii_capitalize →
            Py.is_ascii entry.1 = true →
            q ∈ resolve sample_data.db3 [1; 2; 3] →
            Question.level q = Some s →
            Py.ascii_capitalize s = s →
            same_modulo_case s entry.1 →
            q ∈ pool))
      [("aPPLY"%string, 1); ("remember"%string, 5)] sels.
Proof.
  apply (pool_by_stored_level Py.ascii_capitalize sample_data.str_int
           json_module.loads sample_data.db3 [5; 1; 4]%nat
           (mk_exam_config [1; 2; 3] None
              [("aPPLY"%string, 1); ("remember"%string, 5)]
              [("multiple_choice"%string, 6)])).
  - discriminate.
  - reflexivity.
  - vm_compute. discriminate.
Defined.

(** On the sample data: the question 3, stored with the level [Apply], is
    what the key [aPPLY] draws, and the two questions stored with the level
    [Remember] are what the key [remember] draws. *)
Example pool_by_stored_level_sample :
  ∃ r g',
    create_examination Py.ascii_capitalize sample_data.str_int
      json_module.loads sample_data.db3 [5; 1; 4]%nat
      (mk_exam_config [1; 2; 3] None
         [("aPPLY"%string, 1); ("remember"%string, 5)]
         [("multiple_choice"%string, 6)]) = (inr r, g') ∧
    (λ p, (qd_id p, qd_level p)) <$> exam_questions (exam r)
    = [ (3, Some "Apply"%string); (2, Some "Remember"%string);
        (1, Some "Remember"%string) ].
Proof. eexists _, _. split; [vm_compute; reflexivity|reflexivity]. Qed.

(** Claim C3, as the specification states it, fails for an empty
    [question_ids]: the emptiness check comes first, and the request is
    refused with "No questions selected" although the totals differ. *)
Lemma quota_mismatch_counterexample :
  let cfg := mk_exam_config [] None
               [("Remember"%string, 2); ("Apply"%string, 1)]
               [("multiple_choice"%string, 2)] in
  Py.sum_values (bloom_levels cfg) ≠ Py.sum_values (question_types cfg) ∧
  create_examination Py.ascii_capitalize sample_data.str_int
    json_module.loads sample_data.db3 [] cfg
  = (inl (mkHTTPException 400 "No questions selected"), []) ∧
  (create_examination Py.ascii_capitalize sample_data.str_int
     json_module.loads sample_data.db3 [] cfg).1
  ≠ inl (mkHTTPException 400 (quota_mismatch_detail "3" "2")).
Proof. by vm_compute. Qed.

(** Claim C3 (amended). For every input with a non-empty [question_ids] in
    which the sum of the level-quota values differs from the sum of the
    type-quota values, and whose two totals the interpreter renders as
    text (it refuses an integer above its digit limit, 4300 digits unless
    reconfigured), [create_examination] fails with the quota-mismatch
    error (status 400), whose detail carries the level total and the type
    total; the random source is not touched. *)
Theorem quota_mismatch_rejected capitalize str_int json_loads db g cfg :
  question_ids cfg ≠ [] →
  Py.sum_values (bloom_levels cfg) ≠ Py.sum_values (question_types cfg) →
  str_int (Py.sum_values (bloom_levels cfg))
    = inr (Py.str_of_int (Py.sum_values (bloom_levels cfg))) →
  str_int (Py.sum_values (question_types cfg))
    = inr (Py.str_of_int (Py.sum_values (question_types cfg))) →
  create_examination capitalize str_int json_loads db g cfg =
    (inl (mkHTTPException 400
            ("Total questions by Bloom level ("
             +:+ Py.str_of_int (Py.sum_values (bloom_levels cfg))
             +:+ ") must match total by question type ("
             +:+ Py.str_of_int (Py.sum_values (question_types cfg))
             +:+ ")")),
     g).
Proof.
  intros Hids Hsum Hbloom Htypes.
  unfold create_examination, create_examination_body.
  rewrite bool_decide_eq_false_2 by done.
  rewrite bool_decide_eq_true_2 by done.
  unfold raise_quota_mismatch. by rewrite Hbloom, Htypes.
Qed.

Lemma quota_mismatch_rejected_witness :
  create_examination Py.ascii_capitalize sample_data.str_int
    json_module.loads sample_data.db3 [2]%nat
    (mk_exam_config [1; 2] None
       [("Remember"%string, 2); ("Apply"%string, 1)]
       [("multiple_choice"%string, 2)]) =
    (inl (mkHTTPException 400
            "Total questions by Bloom level (3) must match total by question type (2)"),
     [2]%nat).
Proof.
  apply (quota_mismatch_rejected Py.ascii_capitalize sample_data.str_int
           json_module.loads sample_data.db3 [2]%nat
           (mk_exam_config [1; 2] None
              [("Remember"%string, 2); ("Apply"%string, 1)]
              [("multiple_choice"%string, 2)])).
  - discriminate.
  - vm_compute. discriminate.
  - vm_compute. reflexivity.
  - vm_compute. reflexivity.
Defined.

(** Within the digit limit [str] gives the decimal text; above it, the
    mismatch of two totals ends in the handler's closing clause, as a 500
    with the text of the [ValueError]. *)
Lemma str_limited_within max_str_digits error_text n :
  max_str_digits = 0%N ∨ Z.abs n < 10 ^ Z.of_N max_str_digits →
  Py.str_limited max_str_digits error_text n = inr (Py.str_of_int n).
Proof.
  intros Hn. unfold Py.str_limited.
  destruct Hn as [->|Hn]; [done|].
  rewrite (proj2 (Z.ltb_lt _ _) Hn). by rewrite orb_true_r.
Qed.

Example quota_mismatch_beyond_digit_limit :
  ∃ e,
    create_examination Py.ascii_capitalize sample_data.str_int
      json_module.loads sample_data.db3 []
      (mk_exam_config [1] None [("Remember"%string, sample_data.huge)]
         [("multiple_choice"%string, 1)]) = (inl e, []) ∧
    status_code e = 500.
Proof. eexists. split; [vm_compute; reflexivity|done]. Qed.

(** Claim C4. The type quota enters the assembly only through its total:
    for two type-quota maps of equal value sums and the same question ids,
    title, level quota, database and random source, [create_examination]
    gives the same outcome (response or error) and leaves the random source
    in the same state. *)
Theorem type_quota_only_total capitalize str_int json_loads db g ids ttl
    levels types1 types2 :
  Py.sum_values types1 = Py.sum_values types2 →
  create_examination capitalize str_int json_loads db g
    (mk_exam_config ids ttl levels types1)
  = create_examination capitalize str_int json_loads db g
      (mk_exam_config ids ttl levels types2).
Proof.
  intros Hsum. unfold create_examination, create_examination_body. simpl.
  by rewrite Hsum.
Qed.

Lemma type_quota_only_total_witness :
  create_examination Py.ascii_capitalize sample_data.str_int
    json_module.loads sample_data.db3 [4; 2]%nat
    (mk_exam_config [1; 2; 3] None [("Remember"%string, 2)]
       [("multiple_choice"%string, 2)])
  = create_examination Py.ascii_capitalize sample_data.str_int
      json_module.loads sample_data.db3 [4; 2]%nat
      (mk_exam_config [1; 2; 3] None [("Remember"%string, 2)]
         [("true_false"%string, 1); ("fill_in_blanks"%string, 1)]).
Proof.
  apply (type_quota_only_total Py.ascii_capitalize sample_data.str_int
           json_module.loads sample_data.db3 [4; 2]%nat
           [1; 2; 3] None [("Remember"%string, 2)]
           [("multiple_choice"%string, 2)]
           [("true_false"%string, 1); ("fill_in_blanks"%string, 1)]).
  reflexivity.
Defined.

(** ** Distinct questions in an examination *)

Lemma submseteq_NoDup {A : Type} (l k : list A) : l ⊆+ k → NoDup k → NoDup l.
Proof.
  intros [k' Hk]%submseteq_Permutation Hnd. rewrite Hk in Hnd.
  by apply NoDup_app in Hnd as [? _].
Qed.

Lemma NoDup_fmap_inj_on {A B : Type} (f : A → B) (l : list A) x y :
  NoDup (f <$> l) → x ∈ l → y ∈ l → f x = f y → x = y.
Proof.
  induction l as [|a l IH]; [by inversion 2|].
  rewrite fmap_cons, NoDup_cons. intros [Ha Hnd].
  intros [->|Hx]%elem_of_cons [->|Hy]%elem_of_cons Hf; [done|..].
  - destruct Ha. rewrite Hf. by apply list_elem_of_fmap_2.
  - destruct Ha. rewrite <-Hf. by apply list_elem_of_fmap_2.
  - by apply IH.
Qed.

Lemma elem_of_concat {A : Type} (x : A) (ls : list (list A)) :
  x ∈ concat ls → ∃ l, x ∈ l ∧ l ∈ ls.
Proof.
  induction ls as [|l ls IH]; simpl; [by inversion 1|].
  intros [Hx|Hx]%elem_of_app.
  - exists l. split; [done|by left].
  - destruct (IH Hx) as (l' & Hl' & Hin). exists l'. split; [done|by right].
Qed.

(** The row found under an id carries that id. *)
Lemma get_id db i q : question_crud.get db i = Some q → Question.id q = i.
Proof.
  unfold question_crud.get. intros Hq. apply find_some in Hq as [_ Hq].
  by apply Z.eqb_eq.
Qed.

Lemma resolve_ids_sublist db ids :
  Question.id <$> resolve db ids `sublist_of` ids.
Proof.
  unfold resolve. induction ids as [|i ids IH]; [done|]. cbn.
  destruct (question_crud.get db i) as [q|] eqn:Hq; cbn.
  - rewrite (get_id _ _ _ Hq). by apply sublist_skip.
  - by apply sublist_cons.
Qed.

Lemma drawn_within capitalize db ids quota sels :
  Forall2 (drawn_from (matching capitalize db ids)) quota sels →
  concat sels ⊆+ concat (matching capitalize db ids <$> quota.*1).
Proof.
  induction 1 as [|entry sel quota sels [Hsub _] _ IH]; [done|].
  simpl. by apply submseteq_app.
Qed.

(** Pools of keys with distinct capitalized forms share no question. *)
Lemma pools_NoDup capitalize db ids (keys : list string) :
  NoDup (Question.id <$> resolve db ids) →
  NoDup (capitalize <$> keys) →
  NoDup (Question.id <$> concat (matching capitalize db ids <$> keys)).
Proof.
  intros Hres. induction keys as [|key keys IH]; [constructor|].
  rewrite fmap_cons, NoDup_cons. intros [Hkey Hkeys].
  simpl. rewrite fmap_app. apply NoDup_app. split; [|split].
  - eapply sublist_NoDup; [exact Hres|].
    apply fmap_sublist, sublist_filter.
  - intros x [q1 [-> Hq1]]%list_elem_of_fmap [q2 [Hid Hq2]]%list_elem_of_fmap.
    apply list_elem_of_filter in Hq1 as [Hlevel1 Hin1].
    apply elem_of_concat in Hq2 as (pool & Hq2 & Hpool).
    apply list_elem_of_fmap in Hpool as (key' & -> & Hkey').
    apply list_elem_of_filter in Hq2 as [Hlevel2 Hin2].
    assert (q1 = q2) as -> by by eapply NoDup_fmap_inj_on.
    apply Hkey. rewrite Hlevel1 in Hlevel2. injection Hlevel2 as ->.
    by apply list_elem_of_fmap_2.
  - by apply IH.
Qed.

(** Claim C5, as the specification states it, fails: with the id 1 given
    twice and a quota of two for its level, the question is in its pool
    twice and both occurrences are drawn; and with the two quota keys
    [Remember] and [remember], which name the same pool, the question 3 is
    drawn once for each. *)
Lemma assembled_ids_distinct_counterexample :
  (∃ r g',
     create_examination Py.ascii_capitalize sample_data.str_int
       json_module.loads sample_data.db3 [0; 0]%nat
       (mk_exam_config [1; 1] None [("Remember"%string, 2)]
          [("multiple_choice"%string, 2)]) = (inr r, g') ∧
     qd_id <$> exam_questions (exam r) = [1; 1] ∧
     ¬ NoDup (qd_id <$> exam_questions (exam r))) ∧
  (∃ r g',
     create_examination Py.ascii_capitalize sample_data.str_int
       json_module.loads sample_data.db3 [0; 0]%nat
       (mk_exam_config [3] None
          [("Apply"%string, 1); ("apply"%string, 1)]
          [("multiple_choice"%string, 2)]) = (inr r, g') ∧
     qd_id <$> exam_questions (exam r) = [3; 3] ∧
     ¬ NoDup (qd_id <$> exam_questions (exam r))).
Proof.
  split; eexists _, _; (split; [vm_compute; reflexivity|]);
    (split; [reflexivity|]); vm_compute;
    intros [Hin _]%NoDup_cons; apply Hin; by left.
Qed.

(** Claim C5 (amended). When [question_ids] holds no id more than once and
    no two keys of the level quota have the same capitalized form, the
    questions list of the assembled examination contains no question
    identifier more than once. *)
Theorem assembled_ids_distinct capitalize str_int json_loads db g cfg r g' :
  NoDup (question_ids cfg) →
  NoDup (capitalize <$> (bloom_levels cfg).*1) →
  create_examination capitalize str_int json_loads db g cfg = (inr r, g') →
  NoDup (qd_id <$> exam_questions (exam r)).
Proof.
  intros Hids Hkeys Hrun.
  destruct (decide (question_ids cfg = [])) as [Hnil|Hnil].
  { unfold create_examination, create_examination_body in Hrun.
    by rewrite bool_decide_eq_true_2 in Hrun by done. }
  destruct (decide (Py.sum_values (bloom_levels cfg)
                    = Py.sum_values (question_types cfg))) as [Hsum|Hsum].
  2: { unfold create_examination, create_examination_body in Hrun.
       rewrite bool_decide_eq_false_2 in Hrun by done.
       rewrite bool_decide_eq_true_2 in Hrun by done.
       unfold raise_quota_mismatch in Hrun.
       by repeat destruct (str_int _). }
  destruct (decide (resolve db (question_ids cfg) = [])) as [Hres|Hres].
  { unfold create_examination, create_examination_body in Hrun.
    rewrite bool_decide_eq_false_2 in Hrun by done.
    rewrite bool_decide_eq_false_2 in Hrun by (by intros []).
    fold (resolve db (question_ids cfg)) in Hrun. by rewrite Hres in Hrun. }
  destruct (create_examination_selected capitalize str_int json_loads db g
              cfg Hnil Hsum Hres) as (sels & g1 & Heq & Hsels).
  rewrite Heq in Hrun. injection Hrun as <- _. simpl.
  rewrite <-list_fmap_compose.
  change (qd_id ∘ format_question json_loads) with Question.id.
  eapply submseteq_NoDup.
  - apply fmap_submseteq, drawn_within, Hsels.
  - apply pools_NoDup; [|done].
    eapply sublist_NoDup; [exact Hids|]. apply resolve_ids_sublist.
Qed.

Lemma assembled_ids_distinct_witness :
  ∃ r g',
    create_examination Py.ascii_capitalize sample_data.str_int
      json_module.loads sample_data.db3 [1; 0]%nat
      (mk_exam_config [1; 2; 3; 9] None
         [("Remember"%string, 2); ("Apply"%string, 1)]
         [("multiple_choice"%string, 3)]) = (inr r, g') ∧
    qd_id <$> exam_questions (exam r) = [2; 1; 3] ∧
    NoDup (qd_id <$> exam_questions (exam r)).
Proof.
  eexists _, _. split; [vm_compute; reflexivity|]. split; [reflexivity|].
  eapply (assembled_ids_distinct Py.ascii_capitalize sample_data.str_int
            json_module.loads sample_data.db3
            [1; 0]%nat
            (mk_exam_config [1; 2; 3; 9] None
               [("Remember"%string, 2); ("Apply"%string, 1)]
               [("multiple_choice"%string, 3)])).
  - apply (bool_decide_unpack _). vm_compute. exact I.
  - apply (bool_decide_unpack _). vm_compute. exact I.
  - vm_compute. reflexivity.
Defined.

(** ** Options of a returned question *)

(** Claim C8, as the specification states it, fails: the stored text
    [[1]] is not a serialized mapping, it decodes without an error, and
    the payload's options is the decoded array, not the empty mapping. *)
Lemma options_not_mapping_counterexample :
  let q := sample_data.mc_question 1 "Remember" (Some "[1]"%string) in
  (∀ members, json_module.loads "[1]" ≠ Some (JObject members)) ∧
  qd_options (format_question json_module.loads q) = Some (JArray [JInt 1]) ∧
  qd_options (format_question json_module.loads q) ≠ Some empty_dict ∧
  ∃ r g',
    create_examination Py.ascii_capitalize sample_data.str_int
      json_module.loads sample_data.db_array [0]%nat
      (mk_exam_config [1] None [("Remember"%string, 1)]
         [("multiple_choice"%string, 1)]) = (inr r, g') ∧
    qd_options <$> exam_questions (exam r) = [Some (JArray [JInt 1])].
Proof.
  simpl. split; [by vm_compute|]. split; [by vm_compute|].
  split; [by vm_compute|].
  eexists _, _. split; [vm_compute; reflexivity|done].
Qed.

(** Claim C8 (amended). Whatever [json.loads] does, an assembly that has
    passed the three checks returns a response, with one payload for each
    question drawn from the stored questions, in the order of the draw;
    the payload has an [options] entry only when the stored options field
    of its question is non-empty; when [json.loads] fails on the stored
    text that entry is the empty mapping, and when it succeeds the entry
    is the decoded value as it is (a mapping when the text serializes
    one). *)
Theorem options_payload capitalize str_int json_loads db g cfg :
  question_ids cfg ≠ [] →
  Py.sum_values (bloom_levels cfg) = Py.sum_values (question_types cfg) →
  resolve db (question_ids cfg) ≠ [] →
  ∃ sels r g',
    create_examination capitalize str_int json_loads db g cfg = (inr r, g') ∧
    Forall2 (drawn_from (matching capitalize db (question_ids cfg)))
            (bloom_levels cfg) sels ∧
    Forall2
      (λ q payload,
         qd_id payload = Question.id q ∧
         (is_Some (qd_options payload)
          ↔ ∃ s, Question.options q = Some s ∧ s ≠ ""%string) ∧
         (∀ s, Question.options q = Some s → s ≠ ""%string →
               json_loads s = None →
               qd_options payload = Some (JObject [])) ∧
         (∀ s v, Question.options q = Some s → s ≠ ""%string →
                 json_loads s = Some v →
                 qd_options payload = Some v))
      (concat sels) (exam_questions (exam r)).
Proof.
  intros Hids Hsum Hres.
  destruct (create_examination_selected capitalize str_int json_loads db g
              cfg Hids Hsum Hres) as (sels & g' & Heq & Hsels).
  eexists sels, _, g'. split; [exact Heq|]. split; [done|]. simpl.
  apply Forall2_fmap_r, Forall_Forall2_diag, Forall_forall. intros q _.
  split; [done|]. unfold format_question. simpl.
  destruct (Question.options q) as [[|c s]|]; simpl.
  - split; [|split].
    + split; [by intros [? ?]|]. by intros (s & [= <-] & ?).
    + by intros s [= <-] ?.
    + by intros s v [= <-] ?.
  - split; [|split].
    + split; [|done]. intros _. by eexists.
    + by intros s' [= <-] _ ->.
    + by intros s' v [= <-] _ ->.
  - split; [|split].
    + split; [by intros [? ?]|]. by intros (s & ? & ?).
    + by intros s ?.
    + by intros s v ?.
Qed.

Lemma options_payload_witness :
  ∃ sels r g',
    create_examination Py.ascii_capitalize sample_data.str_int
      json_module.loads sample_data.db3 [0; 0]%nat
      (mk_exam_config [1; 2; 3] None [("Remember"%string, 2)]
         [("multiple_choice"%string, 2)]) = (inr r, g') ∧
    Forall2 (drawn_from (matching Py.ascii_capitalize sample_data.db3
                           [1; 2; 3]))
            [("Remember"%string, 2)] sels ∧
    Forall2
      (λ q payload,
         qd_id payload = Question.id q ∧
         (is_Some (qd_options payload)
          ↔ ∃ s, Question.options q = Some s ∧ s ≠ ""%string) ∧
         (∀ s, Question.options q = Some s → s ≠ ""%string →
               json_module.loads s = None →
               qd_options payload = Some (JObject [])) ∧
         (∀ s v, Question.options q = Some s → s ≠ ""%string →
                 json_module.loads s = Some v →
                 qd_options payload = Some v))
      (concat sels) (exam_questions (exam r)).
Proof.
  apply (options_payload Py.ascii_capitalize sample_data.str_int
           json_module.loads sample_data.db3 [0; 0]%nat
           (mk_exam_config [1; 2; 3] None [("Remember"%string, 2)]
              [("multiple_choice"%string, 2)])).
  - discriminate.
  - reflexivity.
  - vm_compute. discriminate.
Defined.

(** On the sample data the two questions of level [Remember] are returned,
    the first with its decoded mapping and the second, whose stored text
    does not decode, with the empty mapping. *)
Example options_payload_sample :
  ∃ r g',
    create_examination Py.ascii_capitalize sample_data.str_int
      json_module.loads sample_data.db3 [0; 0]%nat
      (mk_exam_config [1; 2; 3] None [("Remember"%string, 2)]
         [("multiple_choice"%string, 2)]) = (inr r, g') ∧
    (λ p, (qd_id p, qd_options p)) <$> exam_questions (exam r)
    = [ (1, Some (JObject [("A"%string, JString "yes");
                            ("B"%string, JString "no")]));
        (2, Some (JObject [])) ].
Proof. eexists _, _. split; [vm_compute; reflexivity|reflexivity]. Qed.

(** The question 2 of the sample data, whose stored options do not
    decode, is returned with the empty mapping. *)
Example malformed_options_empty_mapping :
  json_module.loads "{bad" = None ∧
  qd_options (format_question json_module.loads
                (sample_data.mc_question 2 "Remember" (Some "{bad"%string)))
  = Some (JObject []).
Proof. by vm_compute. Qed.

(** The decoder on the stored texts of the sample data. *)
Example sample_options_decoded :
  json_module.loads sample_data.options_yes_no
  = Some (JObject [("A"%string, JString "yes"); ("B"%string, JString "no")]) ∧
  json_module.loads "[1]" = Some (JArray [JInt 1]) ∧
  json_module.loads " [ 1 , -2.5e3 , true , null , { } ] "
  = Some (JArray [JInt 1; JFloat "-2.5e3"; JBool true; JNull; JObject []]) ∧
  json_module.loads "[1,]" = None ∧
  json_module.loads "[1] 2" = None.
Proof. by vm_compute. Qed.

(** ** Question banks *)

(** Claim C7. An [add_questions_to_bank] or [remove_questions_from_bank]
    call on an existing bank by a caller who is not the bank's owner fails
    with 403 and returns the database as it was: the check precedes every
    update. *)
Theorem membership_forbidden db bank_id ids current_user b :
  bank_crud.get db bank_id = Some b →
  QuestionBank.user_id b ≠ Some (User.id current_user) →
  add_questions_to_bank db bank_id ids current_user
  = (inl (mkHTTPException 403 "Not enough permissions"), db) ∧
  remove_questions_from_bank db bank_id ids current_user
  = (inl (mkHTTPException 403 "Not enough permissions"), db).
Proof.
  intros Hbank Howner.
  unfold add_questions_to_bank, remove_questions_from_bank.
  rewrite Hbank. by rewrite bool_decide_eq_true_2 by done.
Qed.

Lemma membership_forbidden_witness :
  add_questions_to_bank sample_data.db3 1 [1; 2] (User.mk 8)
  = (inl (mkHTTPException 403 "Not enough permissions"), sample_data.db3) ∧
  remove_questions_from_bank sample_data.db3 1 [1; 2] (User.mk 8)
  = (inl (mkHTTPException 403 "Not enough permissions"), sample_data.db3).
Proof.
  apply (membership_forbidden sample_data.db3 1 [1; 2] (User.mk 8)
           (QuestionBank.mk 1 "Biology" None (Some 7))).
  - reflexivity.
  - discriminate.
Defined.

(** Claim C6: the code departs from it. [get_by_name] returns the first
    bank of that name whoever owns it, and [create_bank] compares only
    that bank's owner with the caller. After user 2 and then user 1 have
    each created a bank named [Midterm], user 1 owns one, and a further
    [create_bank] of that name by user 1 is accepted: user 1 then owns two
    banks of the same name. *)
Lemma create_bank_accepts_duplicate :
  let midterm := mkQuestionBankCreate "Midterm" None None in
  let db0 := mkSession [] [] in
  let db1 := (create_bank db0 midterm (User.mk 2)).2 in
  let db2 := (create_bank db1 midterm (User.mk 1)).2 in
  db2 = sample_data.db_same_name ∧
  owned_named db2 1 "Midterm" = [QuestionBank.mk 2 "Midterm" None (Some 1)] ∧
  ∃ created db3,
    create_bank db2 midterm (User.mk 1) = (inr created, db3) ∧
    owned_named db3 1 "Midterm"
    = [QuestionBank.mk 2 "Midterm" None (Some 1);
       QuestionBank.mk 3 "Midterm" None (Some 1)].
Proof.
  simpl. split; [by vm_compute|]. split; [by vm_compute|].
  eexists _, _. split; [vm_compute; reflexivity|by vm_compute].
Qed.

(** ** Saving questions to a bank *)

(** An update of rows that keeps their ids keeps what resolves. *)
Lemma find_fmap_id (f : Question.t → Question.t) (qs : list Question.t) i :
  (∀ q, Question.id (f q) = Question.id q) →
  find (λ q, Question.id q =? i) (f <$> qs)
  = f <$> find (λ q, Question.id q =? i) qs.
Proof.
  intros Hf. induction qs as [|q qs IH]; [done|]. cbn.
  rewrite Hf. by destruct (Question.id q =? i).
Qed.

Lemma get_update_bank_id db q b i :
  question_crud.get (question_crud.update_bank_id db q b) i
  = (λ q', if Question.id q' =? Question.id q
           then Question.set_bank_id b q' else q')
      <$> question_crud.get db i.
Proof.
  unfold question_crud.get, question_crud.update_bank_id. cbn.
  apply find_fmap_id. intros q'. by destruct (Question.id q' =? _).
Qed.

Lemma get_assign bank_id ids db i :
  question_crud.get (assign bank_id ids db) i
  = (λ q, if bool_decide (Question.id q ∈ ids)
          then Question.set_bank_id (Some bank_id) q else q)
      <$> question_crud.get db i.
Proof.
  unfold question_crud.get, assign. cbn.
  apply find_fmap_id. intros q. by case_bool_decide.
Qed.

Lemma resolve_length_update db q b ids :
  length (resolve (question_crud.update_bank_id db q b) ids)
  = length (resolve db ids).
Proof.
  unfold resolve. induction ids as [|i ids IH]; [done|].
  cbn [omap list_omap]. rewrite get_update_bank_id.
  destruct (question_crud.get db i); cbn [fmap option_fmap option_map length];
    by rewrite IH.
Qed.

Lemma assign_nil bank_id db : assign bank_id [] db = db.
Proof.
  destruct db as [qs banks]. unfold assign. cbn. f_equal.
  induction qs as [|q qs IH]; [done|]. cbn in *. by rewrite IH.
Qed.

Lemma assign_cons_resolved bank_id i ids db q :
  question_crud.get db i = Some q →
  assign bank_id ids (question_crud.update_bank_id db q (Some bank_id))
  = assign bank_id (i :: ids) db.
Proof.
  intros Hq. apply get_id in Hq as <-.
  unfold assign, question_crud.update_bank_id. cbn. f_equal.
  rewrite <-list_fmap_compose. apply Forall_fmap_ext_1, Forall_forall.
  intros q' _. cbn.
  destruct (Z.eqb_spec (Question.id q') (Question.id q)) as [Heq|Hne].
  - rewrite (bool_decide_eq_true_2 (Question.id q' ∈ Question.id q :: ids))
      by (rewrite Heq; by left).
    by case_bool_decide.
  - destruct (decide (Question.id q' ∈ ids)) as [Hin|Hin].
    + rewrite !bool_decide_eq_true_2; [done| by right | done].
    + rewrite !bool_decide_eq_false_2; [done| |done].
      by intros [?|?]%elem_of_cons.
Qed.

Lemma assign_cons_unresolved bank_id i ids db :
  question_crud.get db i = None →
  assign bank_id ids db = assign bank_id (i :: ids) db.
Proof.
  intros Hq. unfold assign. f_equal.
  apply Forall_fmap_ext_1, Forall_forall. intros q Hin.
  apply list_elem_of_In in Hin.
  pose proof (find_none _ _ Hq q Hin) as Hne. cbn in Hne.
  apply Z.eqb_neq in Hne.
  destruct (decide (Question.id q ∈ ids)) as [Hids|Hids].
  - rewrite !bool_decide_eq_true_2; [done|by right|done].
  - rewrite !bool_decide_eq_false_2; [done| |done].
    by intros [?|?]%elem_of_cons.
Qed.

(** The loop sets [bank_id] on the rows whose id is listed and counts the
    listed ids that resolve. *)
Lemma add_loop_spec bank_id ids db :
  add_loop bank_id ids db
  = (assign bank_id ids db, Z.of_nat (length (resolve db ids))).
Proof.
  unfold add_loop.
  enough (Hgen : ∀ n,
    foldl (λ '(db, updated_count) q_id,
             match question_crud.get db q_id with
             | Some question =>
                 (question_crud.update_bank_id db question (Some bank_id),
                  updated_count + 1)
             | None => (db, updated_count)
             end) (db, n) ids
    = (assign bank_id ids db, n + Z.of_nat (length (resolve db ids))))
    by (by rewrite Hgen).
  revert db. induction ids as [|i ids IH]; intros db n.
  { cbn. rewrite assign_nil. f_equal. lia. }
  cbn [foldl]. unfold resolve. cbn [omap list_omap].
  destruct (question_crud.get db i) as [q|] eqn:Hq.
  - rewrite IH, (assign_cons_resolved _ _ _ _ _ Hq), resolve_length_update.
    f_equal. fold (resolve db ids). cbn [length]. lia.
  - by rewrite IH, (assign_cons_unresolved _ _ _ _ Hq).
Qed.

(** Claim C9. When a save-to-bank request names (by a non-zero [bank_id])
    an existing bank whose [user_id] is null, whoever the authenticated
    caller is, the ownership check is skipped: the call never fails with
    403, every id of the request that resolves ends up with that bank as
    its [bank_id], and for a non-empty id list the call succeeds and
    reports the number of resolved ids. *)
Theorem save_to_unowned_bank db request current_user bank_id b :
  sr_bank_id request = Some bank_id →
  bank_id ≠ 0 →
  bank_crud.get db bank_id = Some b →
  QuestionBank.user_id b = None →
  (∀ e, (save_questions_to_bank db request current_user).1 = inl e →
        status_code e ≠ 403) ∧
  (∀ i q, i ∈ sr_question_ids request →
          question_crud.get db i = Some q →
          ∃ q',
            question_crud.get
              (save_questions_to_bank db request current_user).2 i
            = Some q' ∧
            Question.bank_id q' = Some bank_id ∧
            q' = Question.mk (Question.id q) (Question.question q)
                   (Question.answer q) (Question.level q) (Question.type q)
                   (Question.options q) (Question.context q)
                   (Some bank_id)) ∧
  (sr_question_ids request ≠ [] →
   save_questions_to_bank db request current_user
   = (inr (mk_membership_response true
             (Py.str_of_int
                (Z.of_nat (length (resolve db (sr_question_ids request))))
              +:+ " questions saved to bank")
             bank_id (QuestionBank.name b)),
      assign bank_id (sr_question_ids request) db)).
Proof.
  intros Hreq Hnz Hbank Howner.
  assert (Hrun : sr_question_ids request ≠ [] →
    save_questions_to_bank db request current_user
    = (inr (mk_membership_response true
              (Py.str_of_int
                 (Z.of_nat (length (resolve db (sr_question_ids request))))
               +:+ " questions saved to bank")
              bank_id (QuestionBank.name b)),
       assign bank_id (sr_question_ids request) db)).
  { intros Hids. unfold save_questions_to_bank.
    rewrite bool_decide_eq_false_2 by done.
    rewrite Hreq. cbn [Py.truthy_int].
    apply Z.eqb_neq in Hnz. rewrite Hnz. cbn [negb andb].
    rewrite Hbank, Howner. cbn [Py.truthy_int andb].
    by rewrite add_loop_spec, Hnz. }
  destruct (decide (sr_question_ids request = [])) as [Hnil|Hids].
  - split; [|split; [|done]].
    + intros e. unfold save_questions_to_bank.
      rewrite bool_decide_eq_true_2 by done. by intros [= <-].
    + intros i q Hi. rewrite Hnil in Hi. by inversion Hi.
  - rewrite (Hrun Hids). split; [done|]. split; [|done].
    intros i q Hi Hq. cbn [snd]. rewrite get_assign, Hq.
    cbn [fmap option_fmap option_map].
    rewrite bool_decide_eq_true_2 by (by rewrite (get_id _ _ _ Hq)).
    eexists. split; [reflexivity|]. by split.
Qed.

Lemma save_to_unowned_bank_witness :
  let request := mk_save_request [1; 9; 3] (Some 2) None in
  (∀ e, (save_questions_to_bank sample_data.db3 request (User.mk 8)).1
        = inl e → status_code e ≠ 403) ∧
  (∀ i q, i ∈ sr_question_ids request →
          question_crud.get sample_data.db3 i = Some q →
          ∃ q',
            question_crud.get
              (save_questions_to_bank sample_data.db3 request (User.mk 8)).2
              i = Some q' ∧
            Question.bank_id q' = Some 2 ∧
            q' = Question.mk (Question.id q) (Question.question q)
                   (Question.answer q) (Question.level q) (Question.type q)
                   (Question.options q) (Question.context q) (Some 2)) ∧
  (sr_question_ids request ≠ [] →
   save_questions_to_bank sample_data.db3 request (User.mk 8)
   = (inr (mk_membership_response true "2 questions saved to bank" 2
             "Shared"),
      assign 2 [1; 9; 3] sample_data.db3)).
Proof.
  apply (save_to_unowned_bank sample_data.db3
           (mk_save_request [1; 9; 3] (Some 2) None) (User.mk 8) 2
           (QuestionBank.mk 2 "Shared" None None)).
  - reflexivity.
  - discriminate.
  - reflexivity.
  - reflexivity.
Defined.

(** * Further properties *)

(** ** More on the examination assembler *)

Lemma create_examination_cases capitalize str_int json_loads db g cfg :
  (question_ids cfg = [] ∧
   create_examination capitalize str_int json_loads db g cfg
   = (inl (mkHTTPException 400 "No questions selected"), g)) ∨
  (question_ids cfg ≠ [] ∧
   Py.sum_values (bloom_levels cfg) ≠ Py.sum_values (question_types cfg) ∧
   ∃ e,
     create_examination capitalize str_int json_loads db g cfg = (inl e, g) ∧
     ((∃ bloom_text types_text,
         str_int (Py.sum_values (bloom_levels cfg)) = inr bloom_text ∧
         str_int (Py.sum_values (question_types cfg)) = inr types_text ∧
         e = mkHTTPException 400
               (quota_mismatch_detail bloom_text types_text)) ∨
      (∃ error,
         (str_int (Py.sum_values (bloom_levels cfg)) = inl error ∨
          str_int (Py.sum_values (question_types cfg)) = inl error) ∧
         e = mkHTTPException 500 error))) ∨
  (question_ids cfg ≠ [] ∧
   Py.sum_values (bloom_levels cfg) = Py.sum_values (question_types cfg) ∧
   resolve db (question_ids cfg) = [] ∧
   create_examination capitalize str_int json_loads db g cfg
   = (inl (mkHTTPException 404 "No valid questions found"), g)) ∨
  (question_ids cfg ≠ [] ∧
   Py.sum_values (bloom_levels cfg) = Py.sum_values (question_types cfg) ∧
   resolve db (question_ids cfg) ≠ [] ∧
   ∃ sels g',
     create_examination capitalize str_int json_loads db g cfg =
       (inr (mk_exam_response true
               (mk_examination
                  (default "New Examination"%string (title cfg))
                  (format_question json_loads <$> concat sels)
                  (share_total capitalize db (question_ids cfg)
                    (bloom_levels cfg)))),
        g') ∧
     Forall2 (drawn_from (matching capitalize db (question_ids cfg)))
             (bloom_levels cfg) sels).
Proof.
  destruct (decide (question_ids cfg = [])) as [Hnil|Hnil].
  { left. split; [done|].
    unfold create_examination, create_examination_body.
    by rewrite bool_decide_eq_true_2 by done. }
  right.
  destruct (decide (Py.sum_values (bloom_levels cfg)
                    = Py.sum_values (question_types cfg))) as [Hsum|Hsum].
  2: { left. split; [done|]. split; [done|].
       unfold create_examination, create_examination_body.
       rewrite bool_decide_eq_false_2 by done.
       rewrite bool_decide_eq_true_2 by done.
       unfold raise_quota_mismatch.
       destruct (str_int (Py.sum_values (bloom_levels cfg)))
         as [error|bloom_text] eqn:Hbloom.
       { eexists. split; [done|]. right. exists error. by split; [left|]. }
       destruct (str_int (Py.sum_values (question_types cfg)))
         as [error|types_text] eqn:Htypes.
       { eexists. split; [done|]. right. exists error. by split; [right|]. }
       eexists. split; [done|]. left. by exists bloom_text, types_text. }
  right.
  destruct (decide (resolve db (question_ids cfg) = [])) as [Hres|Hres].
  { left. split; [done|]. split; [done|]. split; [done|].
    unfold create_examination, create_examination_body.
    rewrite bool_decide_eq_false_2 by done.
    rewrite bool_decide_eq_false_2 by (by intros []).
    fold (resolve db (question_ids cfg)). by rewrite Hres. }
  right. split; [done|]. split; [done|]. split; [done|].
  by apply create_examination_selected.
Qed.

Lemma resolve_nil_iff db ids :
  resolve db ids = [] ↔ Forall (λ i, question_crud.get db i = None) ids.
Proof.
  unfold resolve. induction ids as [|i ids IH]; [done|]. cbn.
  destruct (question_crud.get db i) as [q|] eqn:Hq; cbn.
  - split; [done|]. intros Hall. apply Forall_cons in Hall as [Hi _]. congruence.
  - rewrite IH. split; [by constructor|]. by intros [_ ?]%Forall_cons.
Qed.

(** Property X1. For a request body of the modelled shape (a list of
    integer ids, quota maps with integer counts), a failure of
    [create_examination] leaves the random source as it was and has the
    status 400, 404 or 500. It is 500 exactly when the id list is
    non-empty, the two totals differ and the interpreter refuses to render
    one of them as text (an integer above its digit limit); the
    [ValueError] of [random.sample] cannot occur. It is 404 exactly when
    the id list is non-empty, the two totals agree and none of the ids
    resolves. *)
Theorem create_examination_failures capitalize str_int json_loads db g cfg
    e g' :
  create_examination capitalize str_int json_loads db g cfg = (inl e, g') →
  g' = g ∧
  (status_code e = 400 ∨ status_code e = 404 ∨ status_code e = 500) ∧
  (status_code e = 500 ↔
   question_ids cfg ≠ [] ∧
   Py.sum_values (bloom_levels cfg) ≠ Py.sum_values (question_types cfg) ∧
   ∃ error, str_int (Py.sum_values (bloom_levels cfg)) = inl error ∨
            str_int (Py.sum_values (question_types cfg)) = inl error) ∧
  (status_code e = 404 ↔
   question_ids cfg ≠ [] ∧
   Py.sum_values (bloom_levels cfg) = Py.sum_values (question_types cfg) ∧
   Forall (λ i, question_crud.get db i = None) (question_ids cfg)).
Proof.
  intros Hrun.
  destruct (create_examination_cases capitalize str_int json_loads db g cfg)
    as [[Hnil Heq]|[(Hnil & Hsum & e2 & Heq & He)|[(Hnil & Hsum & Hres & Heq)
        |(Hnil & Hsum & Hres & sels & g1 & Heq & _)]]];
    rewrite Heq in Hrun; [| | |done]; injection Hrun as <- <-.
  - cbn. split; [done|]. split; [by left|].
    split; [split; [done|by intros [? _]]|].
    split; [done|]. by intros [? _].
  - split; [done|].
    destruct He as [(bloom_text & types_text & Hbloom & Htypes & ->)
                   |(error & Herror & ->)]; cbn.
    + split; [by left|]. split.
      * split; [done|]. intros (_ & _ & error & [Herror|Herror]); congruence.
      * split; [done|]. by intros (_ & ? & _).
    + split; [by right; right|]. split.
      * split; [|done]. intros _. split; [done|]. split; [done|].
        by exists error.
      * split; [done|]. by intros (_ & ? & _).
  - cbn. split; [done|]. split; [by right; left|]. split.
    + split; [done|]. by intros (_ & ? & _).
    + split; [|done]. intros _. split; [done|]. split; [done|].
      by apply resolve_nil_iff.
Qed.

(** Property X2. For a request body of the modelled shape (a list of
    integer ids, quota maps with integer counts), [create_examination]
    returns an examination exactly when the id list is non-empty, the two
    quota totals agree and at least one id resolves. *)
Theorem create_examination_succeeds_iff capitalize str_int json_loads db g cfg :
  (∃ r g', create_examination capitalize str_int json_loads db g cfg
           = (inr r, g')) ↔
  question_ids cfg ≠ [] ∧
  Py.sum_values (bloom_levels cfg) = Py.sum_values (question_types cfg) ∧
  ∃ i, i ∈ question_ids cfg ∧ is_Some (question_crud.get db i).
Proof.
  assert (Hex : resolve db (question_ids cfg) ≠ [] ↔
                ∃ i, i ∈ question_ids cfg ∧ is_Some (question_crud.get db i)).
  { rewrite resolve_nil_iff. split.
    - intros Hnot. apply not_Forall_Exists in Hnot; [|apply _].
      apply Exists_exists in Hnot as (i & Hi & Hsome).
      exists i. split; [done|]. by apply not_eq_None_Some.
    - intros (i & Hi & [q Hq]) Hall.
      rewrite Forall_forall in Hall. specialize (Hall i Hi). congruence. }
  rewrite <-Hex.
  destruct (create_examination_cases capitalize str_int json_loads db g cfg)
    as [[Hnil Heq]|[(Hnil & Hsum & e2 & Heq & He)|[(Hnil & Hsum & Hres & Heq)
        |(Hnil & Hsum & Hres & sels & g1 & Heq & _)]]]; rewrite Heq.
  - split; [by intros (? & ? & ?)|]. by intros [? _].
  - split; [by intros (? & ? & ?)|]. by intros (_ & ? & _).
  - split; [by intros (? & ? & ?)|]. by intros (_ & _ & ?).
  - split; [done|]. intros _. by eexists _, _.
Qed.

Lemma resolve_live db ids :
  resolve db (filter (λ i, is_Some (question_crud.get db i)) ids)
  = resolve db ids.
Proof.
  unfold resolve. induction ids as [|i ids IH]; [done|].
  destruct (question_crud.get db i) as [q|] eqn:Hq.
  - rewrite filter_cons_True by (rewrite Hq; by eexists).
    cbn. rewrite Hq. cbn. by f_equal.
  - rewrite filter_cons_False by (rewrite Hq; by intros [? ?]).
    cbn. by rewrite Hq.
Qed.

(** What the handler computes depends on the ids only through the
    questions they resolve to. *)
Lemma create_examination_resolve capitalize str_int json_loads db g ids1 ids2
    ttl levels types :
  ids1 ≠ [] → ids2 ≠ [] → resolve db ids1 = resolve db ids2 →
  create_examination capitalize str_int json_loads db g
    (mk_exam_config ids1 ttl levels types)
  = create_examination capitalize str_int json_loads db g
      (mk_exam_config ids2 ttl levels types).
Proof.
  intros H1 H2 Hres. unfold create_examination, create_examination_body.
  cbn [question_ids title bloom_levels question_types].
  rewrite (bool_decide_eq_false_2 (ids1 = [])) by done.
  rewrite (bool_decide_eq_false_2 (ids2 = [])) by done.
  fold (resolve db ids1). fold (resolve db ids2). by rewrite Hres.
Qed.

(** Property X3. Ids that do not resolve are dropped silently: as long as
    one id resolves, the outcome (and the random source after it) is the
    one of the request without the ids that do not resolve. *)
Theorem stale_ids_ignored capitalize str_int json_loads db g ids ttl levels
    types :
  filter (λ i, is_Some (question_crud.get db i)) ids ≠ [] →
  create_examination capitalize str_int json_loads db g
    (mk_exam_config ids ttl levels types)
  = create_examination capitalize str_int json_loads db g
      (mk_exam_config (filter (λ i, is_Some (question_crud.get db i)) ids)
         ttl levels types).
Proof.
  intros Hlive. apply create_examination_resolve; [|done|].
  - intros ->. by apply Hlive.
  - by rewrite resolve_live.
Qed.

Lemma elem_of_resolve db ids q :
  q ∈ resolve db ids ↔ ∃ i, i ∈ ids ∧ question_crud.get db i = Some q.
Proof. unfold resolve. apply list_elem_of_omap. Qed.

Lemma elem_of_drawn capitalize db ids quota sels q :
  Forall2 (drawn_from (matching capitalize db ids)) quota sels →
  q ∈ concat sels →
  ∃ entry, entry ∈ quota ∧ 0 < entry.2 ∧
           q ∈ matching capitalize db ids entry.1.
Proof.
  induction 1 as [|entry sel quota sels [Hsub Hlen] _ IH]; [by inversion 1|].
  simpl. intros [Hq|Hq]%elem_of_app.
  - exists entry. split; [by left|]. split.
    + unfold quota_share in Hlen. destruct sel; [by inversion Hq|].
      simpl in Hlen. lia.
    + by eapply elem_of_submseteq.
  - destruct (IH Hq) as (entry' & ? & ? & ?). exists entry'.
    split; [by right|done].
Qed.

(** Property X4. Every returned question is the payload of a question that
    one of the requested ids resolves to, it carries that id, and its level
    is the capitalized key of a level-quota entry with a positive count. *)
Theorem returned_questions_provenance capitalize str_int json_loads db g cfg
    r g' p :
  create_examination capitalize str_int json_loads db g cfg = (inr r, g') →
  p ∈ exam_questions (exam r) →
  ∃ i q entry,
    i ∈ question_ids cfg ∧ question_crud.get db i = Some q ∧
    p = format_question json_loads q ∧ qd_id p = i ∧
    entry ∈ bloom_levels cfg ∧ 0 < entry.2 ∧
    qd_level p = Some (capitalize entry.1).
Proof.
  intros Hrun Hp.
  destruct (create_examination_cases capitalize str_int json_loads db g cfg)
    as [[Hnil Heq]|[(Hnil & Hsum & e2 & Heq & He)|[(Hnil & Hsum & Hres & Heq)
        |(Hnil & Hsum & Hres & sels & g1 & Heq & Hsels)]]];
    rewrite Heq in Hrun; [done..|].
  injection Hrun as <- _. cbn in Hp.
  apply list_elem_of_fmap in Hp as (q & -> & Hq).
  destruct (elem_of_drawn _ _ _ _ _ _ Hsels Hq) as (entry & Hentry & Hpos & Hm).
  apply list_elem_of_filter in Hm as [Hlevel Hin].
  apply elem_of_resolve in Hin as (i & Hi & Hget).
  exists i, q, entry. split; [done|]. split; [done|]. split; [done|].
  split; [by apply get_id in Hget|]. done.
Qed.

Lemma share_total_bounds capitalize db ids quota :
  0 ≤ share_total capitalize db ids quota
    ≤ foldr (λ entry acc, Z.max 0 entry.2 + acc) 0 quota.
Proof.
  induction quota as [|entry quota IH]; simpl; [lia|].
  unfold quota_share. lia.
Qed.

Lemma submseteq_eq_trans_helper {A : Type} (l k m : list A) :
  l = k → k ⊆+ m → l ⊆+ m.
Proof. by intros ->. Qed.

Lemma pools_within capitalize (R : list Question.t) (keys : list string) :
  NoDup (capitalize <$> keys) →
  concat ((λ key, filter (λ q, Question.level q = Some (capitalize key)) R)
            <$> keys) ⊆+ R.
Proof.
  revert R. induction keys as [|key keys IH]; intros R.
  { intros _. apply submseteq_nil_l. }
  rewrite fmap_cons, NoDup_cons. intros [Hkey Hkeys]. simpl.
  set (P := λ q, Question.level q = Some (capitalize key)).
  etrans; [|apply Permutation_submseteq, (filter_app_complement P R)].
  apply submseteq_app; [done|].
  eapply (submseteq_eq_trans_helper _ _ _); [|apply (IH (filter (λ q, ¬ P q) R) Hkeys)].
  f_equal.
  apply list_fmap_ext. intros _ key' Hkey'%list_elem_of_lookup_2.
  symmetry. apply list_filter_filter_l. intros q Hq. unfold P.
  rewrite Hq. intros [= Heq]. apply Hkey. rewrite <-Heq.
  by apply list_elem_of_fmap_2.
Qed.

(** Property X5. [total_questions] is the length of the returned list; it
    is never negative and never above the sum of the positive level
    counts; and when no two level keys have the same capitalized form it
    is at most the number of resolved questions. *)
Theorem total_questions_bounds capitalize str_int json_loads db g cfg r g' :
  create_examination capitalize str_int json_loads db g cfg = (inr r, g') →
  total_questions (exam r) = Z.of_nat (length (exam_questions (exam r))) ∧
  0 ≤ total_questions (exam r)
    ≤ foldr (λ entry acc, Z.max 0 entry.2 + acc) 0 (bloom_levels cfg) ∧
  (NoDup (capitalize <$> (bloom_levels cfg).*1) →
   total_questions (exam r)
   ≤ Z.of_nat (length (resolve db (question_ids cfg)))).
Proof.
  intros Hrun.
  destruct (create_examination_cases capitalize str_int json_loads db g cfg)
    as [[Hnil Heq]|[(Hnil & Hsum & e2 & Heq & He)|[(Hnil & Hsum & Hres & Heq)
        |(Hnil & Hsum & Hres & sels & g1 & Heq & Hsels)]]];
    rewrite Heq in Hrun; [done..|].
  injection Hrun as <- _. cbn.
  split; [by rewrite length_fmap, (drawn_total _ _ _ _ _ Hsels)|].
  split; [apply share_total_bounds|].
  intros Hkeys. rewrite <-(drawn_total _ _ _ _ _ Hsels).
  apply inj_le, submseteq_length.
  etrans; [apply drawn_within, Hsels|].
  exact (pools_within capitalize (resolve db (question_ids cfg)) _ Hkeys).
Qed.

Lemma sum_values_foldr {K : Type} (d : list (K * Z)) :
  Py.sum_values d = foldr (λ entry acc, entry.2 + acc) 0 d.
Proof.
  unfold Py.sum_values.
  assert (Hacc : ∀ a, foldl Z.add a (d.*2)
                     = a + foldr (λ entry acc, entry.2 + acc) 0 d).
  { induction d as [|[k v] d IH]; intros a; simpl; [lia|]. rewrite IH. lia. }
  by rewrite Hacc.
Qed.

Lemma drawn_exact capitalize db ids quota sels :
  Forall (λ entry,
            0 ≤ entry.2
              ≤ Z.of_nat (length (matching capitalize db ids entry.1)))
         quota →
  Forall2 (drawn_from (matching capitalize db ids)) quota sels →
  Forall2 (λ entry sel,
             Z.of_nat (length sel) = entry.2 ∧
             sel ⊆+ matching capitalize db ids entry.1) quota sels.
Proof.
  intros Hpools Hsels. revert Hpools.
  induction Hsels as [|entry sel quota sels [Hsub Hlen] _ IH];
    [constructor|].
  intros [Hentry Hpools]%Forall_cons.
  constructor; [|by apply IH]. split; [|done].
  rewrite Hlen. unfold quota_share. lia.
Qed.

Lemma share_total_exact capitalize db ids quota :
  Forall (λ entry,
            0 ≤ entry.2
              ≤ Z.of_nat (length (matching capitalize db ids entry.1)))
         quota →
  share_total capitalize db ids quota = Py.sum_values quota.
Proof.
  rewrite sum_values_foldr.
  induction 1 as [|entry quota Hentry _ IH]; [done|].
  simpl. rewrite IH. unfold quota_share. lia.
Qed.

(** Property X6. When every level count lies between zero and the size of
    its pool, the examination holds exactly the requested number of
    questions of each level, and [total_questions] is the total of the
    level quota and of the type quota. *)
Theorem sufficient_pools_exact_quota capitalize str_int json_loads db g cfg :
  question_ids cfg ≠ [] →
  Py.sum_values (bloom_levels cfg) = Py.sum_values (question_types cfg) →
  resolve db (question_ids cfg) ≠ [] →
  Forall (λ entry,
            0 ≤ entry.2
              ≤ Z.of_nat (length (matching capitalize db (question_ids cfg)
                                    entry.1)))
         (bloom_levels cfg) →
  ∃ sels r g',
    create_examination capitalize str_int json_loads db g cfg = (inr r, g') ∧
    exam_questions (exam r) = format_question json_loads <$> concat sels ∧
    total_questions (exam r) = Py.sum_values (bloom_levels cfg) ∧
    total_questions (exam r) = Py.sum_values (question_types cfg) ∧
    Forall2 (λ entry sel,
               Z.of_nat (length sel) = entry.2 ∧
               sel ⊆+ matching capitalize db (question_ids cfg) entry.1)
            (bloom_levels cfg) sels.
Proof.
  intros Hids Hsum Hres Hpools.
  destruct (create_examination_selected capitalize str_int json_loads db g
              cfg Hids Hsum Hres) as (sels & g' & Heq & Hsels).
  assert (Hexact : Forall2 (λ entry sel,
               Z.of_nat (length sel) = entry.2 ∧
               sel ⊆+ matching capitalize db (question_ids cfg) entry.1)
            (bloom_levels cfg) sels).
  { by apply drawn_exact. }
  assert (Htotal : share_total capitalize db (question_ids cfg)
                     (bloom_levels cfg)
                   = Py.sum_values (bloom_levels cfg)).
  { by apply share_total_exact. }
  eexists sels, _, g'. split; [exact Heq|]. cbn.
  split; [done|]. split; [done|]. split; [congruence|done].
Qed.

Lemma select_questions_same_capitalized capitalize groups levels1 levels2 :
  Forall2 (λ e1 e2, capitalize e1.1 = capitalize e2.1 ∧ e1.2 = e2.2)
          levels1 levels2 →
  ∀ acc g, select_questions capitalize groups levels1 acc g
           = select_questions capitalize groups levels2 acc g.
Proof.
  induction 1 as [|[l1 c1] [l2 c2] levels1 levels2 [Hcase Hcount] _ IH];
    intros acc g; [done|].
  simpl in Hcase, Hcount. subst c2.
  cbn [select_questions].
  assert (Hround : select_level capitalize groups (l1, c1) g
                   = select_level capitalize groups (l2, c1) g).
  { unfold select_level, level_qs. by rewrite Hcase. }
  rewrite Hround.
  destruct (select_level capitalize groups (l2, c1) g) as [|[sel g1]];
    [done|]. apply IH.
Qed.

(** Property X7. For level-quota keys that are ASCII text the letter case
    does not matter: two level quotas whose keys are ASCII and agree up to
    the case of their letters, entry by entry, with the same counts, give
    the same outcome. *)
Theorem quota_keys_modulo_case capitalize str_int json_loads db g ids ttl
    levels1 levels2 types :
  Py.agrees_on_ascii capitalize Py.ascii_capitalize →
  Forall2 (λ e1 e2, Py.is_ascii e1.1 = true ∧ Py.is_ascii e2.1 = true ∧
                    same_modulo_case e1.1 e2.1 ∧ e1.2 = e2.2)
          levels1 levels2 →
  create_examination capitalize str_int json_loads db g
    (mk_exam_config ids ttl levels1 types)
  = create_examination capitalize str_int json_loads db g
      (mk_exam_config ids ttl levels2 types).
Proof.
  intros Hcap Hlevels.
  assert (Hsum : Py.sum_values levels1 = Py.sum_values levels2).
  { rewrite !sum_values_foldr.
    induction Hlevels as [|e1 e2 l1 l2 (_ & _ & _ & Hc) _ IH]; [done|].
    simpl. by rewrite Hc, IH. }
  assert (Hsame : Forall2 (λ e1 e2, capitalize e1.1 = capitalize e2.1
                                    ∧ e1.2 = e2.2) levels1 levels2).
  { eapply Forall2_impl; [exact Hlevels|].
    intros e1 e2 (H1 & H2 & Hcase & Hc). split; [|done].
    rewrite (Hcap _ H1), (Hcap _ H2).
    by apply capitalize_same_modulo_case. }
  unfold create_examination, create_examination_body.
  cbn [question_ids title bloom_levels question_types].
  rewrite Hsum.
  destruct (omap (question_crud.get db) ids) as [|q qs]; [done|].
  by rewrite (select_questions_same_capitalized _ _ _ _ Hsame).
Qed.

(** ** More on question banks *)

(** Property X8. On a bank id that does not resolve, [read_bank],
    [update_bank], [delete_bank], [read_bank_questions],
    [add_questions_to_bank] and [remove_questions_from_bank] all fail with
    404, and those that could write leave the database as it was. *)
Theorem bank_not_found crud_update crud_remove json_loads json_dumps
    float_truthy db bank_id ids bank_in skip limit current_user :
  bank_crud.get db bank_id = None →
  let not_found := mkHTTPException 404 "Question bank not found" in
  read_bank db bank_id current_user = inl not_found ∧
  update_bank crud_update db bank_id bank_in current_user
  = (inl not_found, db) ∧
  delete_bank crud_remove db bank_id current_user = (inl not_found, db) ∧
  read_bank_questions json_loads json_dumps float_truthy db bank_id skip limit
    current_user = inl not_found ∧
  add_questions_to_bank db bank_id ids current_user = (inl not_found, db) ∧
  remove_questions_from_bank db bank_id ids current_user
  = (inl not_found, db).
Proof.
  intros Hbank.
  unfold read_bank, update_bank, delete_bank, read_bank_questions,
    add_questions_to_bank, remove_questions_from_bank.
  by rewrite Hbank.
Qed.

(** Property X9. [read_bank], [update_bank], [delete_bank] and
    [read_bank_questions] on an existing bank fail with 403 for every
    caller who is not its owner (also when the bank has no owner);
    [update_bank] and [delete_bank] then leave the database as it was,
    whatever the update and the removal would do. *)
Theorem bank_access_forbidden crud_update crud_remove json_loads json_dumps
    float_truthy db bank_id bank_in skip limit current_user b :
  bank_crud.get db bank_id = Some b →
  QuestionBank.user_id b ≠ Some (User.id current_user) →
  let forbidden := mkHTTPException 403 "Not enough permissions" in
  read_bank db bank_id current_user = inl forbidden ∧
  update_bank crud_update db bank_id bank_in current_user
  = (inl forbidden, db) ∧
  delete_bank crud_remove db bank_id current_user = (inl forbidden, db) ∧
  read_bank_questions json_loads json_dumps float_truthy db bank_id skip limit
    current_user = inl forbidden.
Proof.
  intros Hbank Howner.
  unfold read_bank, update_bank, delete_bank, read_bank_questions.
  rewrite Hbank. by rewrite bool_decide_eq_true_2 by done.
Qed.

Lemma get_assign_id bank_id ids db i :
  question_crud.get (assign bank_id ids db) i
  = (if bool_decide (i ∈ ids) then Question.set_bank_id (Some bank_id)
     else λ q, q) <$> question_crud.get db i.
Proof.
  rewrite get_assign.
  destruct (question_crud.get db i) as [q|] eqn:Hq; [|done]. cbn.
  rewrite (get_id _ _ _ Hq). by case_bool_decide.
Qed.

Lemma resolve_length_assign bank_id ids db ids' :
  length (resolve (assign bank_id ids db) ids') = length (resolve db ids').
Proof.
  unfold resolve. induction ids' as [|i ids' IH]; [done|].
  cbn [omap list_omap]. rewrite get_assign.
  destruct (question_crud.get db i);
    cbn [fmap option_fmap option_map length]; by rewrite IH.
Qed.

Lemma assign_idemp bank_id ids db :
  assign bank_id ids (assign bank_id ids db) = assign bank_id ids db.
Proof.
  unfold assign. cbn. f_equal. rewrite <-list_fmap_compose.
  apply Forall_fmap_ext_1, Forall_forall. intros q _. cbn.
  destruct (decide (Question.id q ∈ ids)) as [Hin|Hin].
  - rewrite (bool_decide_eq_true_2 _ Hin). cbn.
    by rewrite (bool_decide_eq_true_2 _ Hin).
  - rewrite (bool_decide_eq_false_2 _ Hin).
    by rewrite (bool_decide_eq_false_2 _ Hin).
Qed.

(** Property X10. [add_questions_to_bank] by the owner succeeds; the
    message counts the listed ids that resolve (an id listed twice counts
    twice), every listed id that resolves gets the bank's id, and nothing
    else changes: the banks, the ids of the rows, and the rows of ids that
    are not listed. *)
Theorem add_questions_by_owner db bank_id ids current_user b :
  bank_crud.get db bank_id = Some b →
  QuestionBank.user_id b = Some (User.id current_user) →
  ∃ db',
    add_questions_to_bank db bank_id ids current_user
    = (inr (mk_membership_response true
              (Py.str_of_int (Z.of_nat (length (resolve db ids)))
               +:+ " questions added to bank")
              bank_id (QuestionBank.name b)), db') ∧
    question_banks db' = question_banks db ∧
    Question.id <$> questions db' = Question.id <$> questions db ∧
    (∀ i, question_crud.get db' i
          = (if bool_decide (i ∈ ids)
             then Question.set_bank_id (Some bank_id) else λ q, q)
              <$> question_crud.get db i) ∧
    ∀ i q', i ∈ ids → question_crud.get db' i = Some q' →
            Question.bank_id q' = Some bank_id.
Proof.
  intros Hbank Howner. exists (assign bank_id ids db).
  unfold add_questions_to_bank. rewrite Hbank.
  rewrite bool_decide_eq_false_2 by (by intros []).
  rewrite add_loop_spec. split; [done|]. split; [done|]. split; [|split].
  - unfold assign. cbn. rewrite <-list_fmap_compose.
    apply Forall_fmap_ext_1, Forall_forall. intros q _. cbn.
    by case_bool_decide.
  - apply get_assign_id.
  - intros i q' Hi. rewrite get_assign_id.
    rewrite bool_decide_eq_true_2 by done.
    destruct (question_crud.get db i) as [q|]; [|done].
    by intros [= <-].
Qed.

(** Property X11. Adding is idempotent in its effect: a successful
    [add_questions_to_bank] repeated on its own result returns the same
    response and database, and listing every id twice doubles the count
    in the message but gives the same database. *)
Theorem add_questions_idempotent db bank_id ids current_user r db1 :
  add_questions_to_bank db bank_id ids current_user = (inr r, db1) →
  add_questions_to_bank db1 bank_id ids current_user = (inr r, db1) ∧
  add_questions_to_bank db bank_id (ids ++ ids) current_user
  = (inr (mk_membership_response true
            (Py.str_of_int (2 * Z.of_nat (length (resolve db ids)))
             +:+ " questions added to bank")
            bank_id (m_bank_name r)), db1).
Proof.
  unfold add_questions_to_bank.
  destruct (bank_crud.get db bank_id) as [b|] eqn:Hbank; [|done].
  case_bool_decide as Howner; [done|].
  rewrite add_loop_spec. intros [= <- <-]. split.
  - assert (Hbank' : bank_crud.get (assign bank_id ids db) bank_id = Some b)
      by done.
    rewrite Hbank'. rewrite bool_decide_eq_false_2 by (by intros []).
    by rewrite add_loop_spec, assign_idemp, resolve_length_assign.
  - rewrite add_loop_spec.
    assert (Hlen : Z.of_nat (length (resolve db (ids ++ ids)))
                   = 2 * Z.of_nat (length (resolve db ids))).
    { unfold resolve. rewrite omap_app, length_app. lia. }
    rewrite Hlen. cbn. f_equal.
    unfold assign. f_equal.
    apply Forall_fmap_ext_1, Forall_forall. intros q _.
    destruct (decide (Question.id q ∈ ids)) as [Hin|Hin].
    + rewrite !bool_decide_eq_true_2; [done|done|].
      apply elem_of_app. by left.
    + rewrite !bool_decide_eq_false_2; [done|done|].
      by intros [?|?]%elem_of_app.
Qed.

(** *** Removing questions from a bank *)

Lemma get_same_id db i q q' :
  question_crud.get db i = Some q →
  question_crud.get db (Question.id q') = Some q' →
  Question.id q' = i → q' = q.
Proof. intros Hq Hq' Hid. rewrite Hid in Hq'. congruence. Qed.

Lemma resolve_cons_Some db j ids q :
  question_crud.get db j = Some q →
  resolve db (j :: ids) = q :: resolve db ids.
Proof. intros Hj. unfold resolve. cbn [omap list_omap]. by rewrite Hj. Qed.

Lemma resolve_cons_None db j ids :
  question_crud.get db j = None → resolve db (j :: ids) = resolve db ids.
Proof. intros Hj. unfold resolve. cbn [omap list_omap]. by rewrite Hj. Qed.

(** An update of the row of one id leaves what the other ids resolve
    to. *)
Lemma resolve_update_other db j qj b ids :
  question_crud.get db j = Some qj → j ∉ ids →
  resolve (question_crud.update_bank_id db qj b) ids = resolve db ids.
Proof.
  intros Hj. induction ids as [|i ids IH]; [done|].
  intros [Hne Hnotin]%not_elem_of_cons.
  unfold resolve in *. cbn [omap list_omap]. rewrite get_update_bank_id.
  destruct (question_crud.get db i) as [q|] eqn:Hi;
    cbn [fmap option_fmap option_map]; [|by apply IH].
  rewrite (get_id _ _ _ Hi), (get_id _ _ _ Hj).
  destruct (Z.eqb_spec i j) as [?|_]; [congruence|].
  by rewrite IH.
Qed.

Lemma remove_loop_foldl bank_id ids db :
  remove_loop bank_id ids db = foldl (remove_step bank_id) (db, 0) ids.
Proof. reflexivity. Qed.

Lemma remove_steps_spec bank_id ids : ∀ db n,
  question_banks (foldl (remove_step bank_id) (db, n) ids).1
  = question_banks db ∧
  (∀ i, question_crud.get (foldl (remove_step bank_id) (db, n) ids).1 i
        = released bank_id ids <$> question_crud.get db i) ∧
  (NoDup ids →
   (foldl (remove_step bank_id) (db, n) ids).2
   = n + Z.of_nat (length (filter (λ q, Question.bank_id q = Some bank_id)
                                  (resolve db ids)))).
Proof.
  induction ids as [|j ids IH]; intros db n.
  { cbn. split; [done|]. split; [|intros _; lia].
    intros i. destruct (question_crud.get db i) as [q|]; [|done].
    cbn. unfold released. rewrite bool_decide_eq_false_2; [done|].
    intros [Hin _]. by inversion Hin. }
  cbn [foldl]. unfold remove_step at 2 4 6.
  destruct (question_crud.get db j) as [qj|] eqn:Hj.
  - case_bool_decide as Hbank.
    + destruct (IH (question_crud.update_bank_id db qj None) (n + 1))
        as (Hbanks & Hget & Hcount).
      split; [by rewrite Hbanks|]. split.
      * intros i. rewrite Hget, get_update_bank_id.
        destruct (question_crud.get db i) as [q|] eqn:Hi; [|done]. cbn.
        f_equal. pose proof (get_id _ _ _ Hi) as Hidq.
        pose proof (get_id _ _ _ Hj) as Hidj.
        destruct (Z.eqb_spec (Question.id q) (Question.id qj)) as [Heq|Hne].
        -- assert (q = qj) as -> by congruence.
           unfold released. cbn.
           rewrite (bool_decide_eq_false_2
                      (Question.id qj ∈ ids ∧ None = Some bank_id))
             by (by intros [_ ?]).
           rewrite bool_decide_eq_true_2; [done|].
           split; [|done]. rewrite Hidj. by left.
        -- unfold released.
           destruct (decide (Question.id q ∈ ids
                             ∧ Question.bank_id q = Some bank_id))
             as [[Hin Hb]|Hnot].
           ++ rewrite !bool_decide_eq_true_2; [done| |done].
              split; [by right|done].
           ++ rewrite !bool_decide_eq_false_2; [done| |done].
              intros [[?|?]%elem_of_cons ?]; [congruence|by apply Hnot].
      * intros [Hnotin Hnd]%NoDup_cons. rewrite (Hcount Hnd).
        rewrite (resolve_cons_Some _ _ _ _ Hj).
        rewrite filter_cons_True by done. cbn [length].
        rewrite (resolve_update_other _ _ _ _ _ Hj Hnotin). lia.
    + destruct (IH db n) as (Hbanks & Hget & Hcount).
      split; [done|]. split.
      * intros i. rewrite Hget.
        destruct (question_crud.get db i) as [q|] eqn:Hi; [|done]. cbn.
        f_equal. unfold released.
        destruct (decide (Question.id q ∈ ids
                          ∧ Question.bank_id q = Some bank_id))
          as [[Hin Hb]|Hnot].
        -- rewrite !bool_decide_eq_true_2; [done| |done].
           split; [by right|done].
        -- rewrite !bool_decide_eq_false_2; [done| |done].
           intros [[Heq|?]%elem_of_cons Hb]; [|by apply Hnot].
           rewrite (get_id _ _ _ Hi) in Heq. subst i. congruence.
      * intros [Hnotin Hnd]%NoDup_cons. rewrite (Hcount Hnd).
        rewrite (resolve_cons_Some _ _ _ _ Hj).
        by rewrite filter_cons_False by done.
  - destruct (IH db n) as (Hbanks & Hget & Hcount).
    split; [done|]. split.
    + intros i. rewrite Hget.
      destruct (question_crud.get db i) as [q|] eqn:Hi; [|done]. cbn.
      f_equal. unfold released.
      destruct (decide (Question.id q ∈ ids
                        ∧ Question.bank_id q = Some bank_id))
        as [[Hin Hb]|Hnot].
      * rewrite !bool_decide_eq_true_2; [done| |done].
        split; [by right|done].
      * rewrite !bool_decide_eq_false_2; [done| |done].
        intros [[Heq|?]%elem_of_cons Hb]; [|by apply Hnot].
        rewrite (get_id _ _ _ Hi) in Heq. subst i. congruence.
    + intros [Hnotin Hnd]%NoDup_cons. rewrite (Hcount Hnd).
      by rewrite (resolve_cons_None _ _ _ Hj).
Qed.

(** Property X12. [remove_questions_from_bank] by the owner succeeds; the
    row of a listed id that is in the bank has its [bank_id] cleared, every
    other row is found as it was (also a listed one that is in another
    bank or in none), the banks are untouched, and for a list without
    repetition the message counts the listed questions that were in the
    bank. *)
Theorem remove_questions_by_owner db bank_id ids current_user b :
  bank_crud.get db bank_id = Some b →
  QuestionBank.user_id b = Some (User.id current_user) →
  ∃ count db',
    remove_questions_from_bank db bank_id ids current_user
    = (inr (mk_membership_response true
              (Py.str_of_int count +:+ " questions removed from bank")
              bank_id (QuestionBank.name b)), db') ∧
    question_banks db' = question_banks db ∧
    (∀ i, question_crud.get db' i
          = released bank_id ids <$> question_crud.get db i) ∧
    (NoDup ids →
     count = Z.of_nat
               (length (filter (λ q, Question.bank_id q = Some bank_id)
                               (resolve db ids)))) ∧
    ∀ i q q', i ∈ ids → question_crud.get db i = Some q →
              Question.bank_id q = Some bank_id →
              question_crud.get db' i = Some q' →
              Question.bank_id q' = None.
Proof.
  intros Hbank Howner. unfold remove_questions_from_bank. rewrite Hbank.
  rewrite bool_decide_eq_false_2 by (by intros []).
  rewrite remove_loop_foldl.
  destruct (remove_steps_spec bank_id ids db 0) as (Hbanks & Hget & Hcount).
  destruct (foldl (remove_step bank_id) (db, 0) ids) as [db' count].
  exists count, db'. cbn in *. split; [done|]. split; [done|].
  split; [done|]. split; [intros Hnd; rewrite (Hcount Hnd); lia|].
  intros i q q' Hi Hq Hin. rewrite Hget, Hq.
  cbn [fmap option_fmap option_map]. unfold released.
  rewrite bool_decide_eq_true_2 by (by rewrite (get_id _ _ _ Hq)).
  by intros [= <-].
Qed.

Lemma remove_loop_none bank_id ids db :
  Forall (λ i, ∀ q, question_crud.get db i = Some q →
                    Question.bank_id q ≠ Some bank_id) ids →
  remove_loop bank_id ids db = (db, 0).
Proof.
  rewrite remove_loop_foldl. generalize 0.
  induction 1 as [|i ids Hi _ IH]; [done|].
  cbn [foldl]. unfold remove_step at 2.
  destruct (question_crud.get db i) as [q|]; [|done].
  by rewrite bool_decide_eq_false_2 by by apply Hi.
Qed.

Lemma resolve_assign bank_id ids db ids' :
  resolve (assign bank_id ids db) ids'
  = (λ q, if bool_decide (Question.id q ∈ ids)
          then Question.set_bank_id (Some bank_id) q else q)
      <$> resolve db ids'.
Proof.
  unfold resolve. induction ids' as [|i ids' IH]; [done|].
  cbn [omap list_omap]. rewrite get_assign.
  destruct (question_crud.get db i);
    cbn [fmap option_fmap option_map]; [|done].
  rewrite fmap_cons. by f_equal.
Qed.

Lemma filter_all {A : Type} (P : A → Prop) `{∀ x, Decision (P x)}
    (l : list A) :
  Forall P l → filter P l = l.
Proof.
  induction 1 as [|x l Hx _ IH]; [done|].
  by rewrite filter_cons_True, IH by done.
Qed.

Lemma resolve_assigned bank_id ids db :
  Forall (λ q, Question.bank_id q = Some bank_id)
         (resolve (assign bank_id ids db) ids).
Proof.
  apply Forall_forall. intros q' Hq'. unfold resolve in Hq'.
  apply list_elem_of_omap in Hq' as (i & Hi & Hget).
  rewrite get_assign_id, (bool_decide_eq_true_2 _ Hi) in Hget.
  destruct (question_crud.get db i) as [q|]; [|done].
  by injection Hget as <-.
Qed.

(** Property X13. Removing after adding: after a successful
    [add_questions_to_bank] of a list without repetition,
    [remove_questions_from_bank] of the same list from the same bank
    reports as many questions as resolve and leaves every listed question
    without a bank, the others as they were before the addition. *)
Theorem add_then_remove db bank_id ids current_user r db1 :
  NoDup ids →
  add_questions_to_bank db bank_id ids current_user = (inr r, db1) →
  ∃ db2,
    remove_questions_from_bank db1 bank_id ids current_user
    = (inr (mk_membership_response true
              (Py.str_of_int (Z.of_nat (length (resolve db ids)))
               +:+ " questions removed from bank")
              bank_id (m_bank_name r)), db2) ∧
    ∀ i, question_crud.get db2 i
         = (if bool_decide (i ∈ ids) then Question.set_bank_id None
            else λ q, q) <$> question_crud.get db i.
Proof.
  intros Hnd. unfold add_questions_to_bank.
  destruct (bank_crud.get db bank_id) as [b|] eqn:Hbank; [|done].
  case_bool_decide as Howner; [done|].
  rewrite add_loop_spec. intros [= <- <-]. cbn [m_bank_name].
  assert (Hbank' : bank_crud.get (assign bank_id ids db) bank_id = Some b)
    by done.
  unfold remove_questions_from_bank. rewrite Hbank'.
  rewrite bool_decide_eq_false_2 by (by intros []).
  rewrite remove_loop_foldl.
  destruct (remove_steps_spec bank_id ids (assign bank_id ids db) 0)
    as (_ & Hget & Hcount).
  destruct (foldl (remove_step bank_id) (assign bank_id ids db, 0) ids)
    as [db2 count].
  cbn [fst snd] in Hget, Hcount.
  exists db2. rewrite (Hcount Hnd), Z.add_0_l. split.
  - by rewrite (filter_all _ _ (resolve_assigned bank_id ids db)),
      resolve_length_assign.
  - intros i. rewrite Hget, get_assign_id.
    destruct (question_crud.get db i) as [q|] eqn:Hi; [|done]. cbn.
    f_equal. unfold released. pose proof (get_id _ _ _ Hi) as Hid.
    destruct (decide (i ∈ ids)) as [Hin|Hin].
    + rewrite !(bool_decide_eq_true_2 (i ∈ ids)) by done.
      rewrite bool_decide_eq_true_2; [done|]. split; [|done].
      cbn. by rewrite Hid.
    + rewrite !(bool_decide_eq_false_2 (i ∈ ids)) by done.
      rewrite bool_decide_eq_false_2; [done|]. intros [? _].
      apply Hin. by rewrite <-Hid.
Qed.

(** Property X14. A question is in one bank at a time: after a successful
    [add_questions_to_bank] to one bank, removing the same ids from another
    bank of the caller reports 0 questions and changes nothing. *)
Theorem remove_after_move db bank_a bank_b ids current_user r db1 a :
  bank_a ≠ bank_b →
  add_questions_to_bank db bank_b ids current_user = (inr r, db1) →
  bank_crud.get db bank_a = Some a →
  QuestionBank.user_id a = Some (User.id current_user) →
  remove_questions_from_bank db1 bank_a ids current_user
  = (inr (mk_membership_response true "0 questions removed from bank"
            bank_a (QuestionBank.name a)), db1).
Proof.
  intros Hne. unfold add_questions_to_bank.
  destruct (bank_crud.get db bank_b) as [b|] eqn:Hbank; [|done].
  case_bool_decide as Howner; [done|].
  rewrite add_loop_spec. intros [= <- <-] Ha Hown.
  unfold remove_questions_from_bank.
  assert (Ha' : bank_crud.get (assign bank_b ids db) bank_a = Some a) by done.
  rewrite Ha'. rewrite bool_decide_eq_false_2 by (by intros []).
  rewrite remove_loop_none; [done|].
  apply Forall_forall. intros i Hi q Hq.
  rewrite get_assign_id, (bool_decide_eq_true_2 _ Hi) in Hq.
  destruct (question_crud.get db i) as [q0|]; [|done].
  injection Hq as <-. cbn. congruence.
Qed.

(** *** Creating a bank *)

Lemma get_by_name_None db name :
  Forall (λ b, QuestionBank.name b ≠ name) (question_banks db) →
  bank_crud.get_by_name db name = None.
Proof.
  unfold bank_crud.get_by_name.
  induction 1 as [|b banks Hb _ IH]; [done|]. cbn.
  by rewrite bool_decide_eq_false_2 by done.
Qed.

Lemma fresh_id_above db b :
  b ∈ question_banks db → QuestionBank.id b < bank_crud.fresh_id db.
Proof.
  unfold bank_crud.fresh_id. induction (question_banks db) as [|b' banks IH];
    [by inversion 1|].
  intros [->|Hb]%elem_of_cons; cbn; [lia|]. specialize (IH Hb). lia.
Qed.

Lemma fresh_id_positive db : 0 < bank_crud.fresh_id db.
Proof.
  unfold bank_crud.fresh_id.
  induction (question_banks db) as [|b' banks IH]; cbn; lia.
Qed.

(** The bank just created is the one found under its id. *)
Lemma get_created db name description user_id :
  bank_crud.get (bank_crud.create db name description user_id).2
    (bank_crud.fresh_id db)
  = Some (bank_crud.create db name description user_id).1.
Proof.
  unfold bank_crud.get, bank_crud.create. cbn.
  pose proof (fresh_id_above db) as Habove.
  induction (question_banks db) as [|b banks IH]; cbn.
  - by rewrite Z.eqb_refl.
  - destruct (Z.eqb_spec (QuestionBank.id b) (bank_crud.fresh_id db))
      as [Heq|_].
    + specialize (Habove b ltac:(by left)). lia.
    + apply IH. intros b' Hb'. apply Habove. by right.
Qed.

(** Property X15. [create_bank] with a name no bank has succeeds: the bank
    is appended with the name and description of the request, the caller
    as its owner (whatever [user_id] the request carries), a
    [question_count] of 0 and an id no bank had, under which it is then
    found. *)
Theorem create_bank_fresh_name db bank_in current_user :
  Forall (λ b, QuestionBank.name b ≠ bc_name bank_in) (question_banks db) →
  ∃ new,
    create_bank db bank_in current_user
    = (inr (mkQuestionBankResponse new 0),
       mkSession (questions db) (question_banks db ++ [new])) ∧
    QuestionBank.name new = bc_name bank_in ∧
    QuestionBank.description new = bc_description bank_in ∧
    QuestionBank.user_id new = Some (User.id current_user) ∧
    ¬ (QuestionBank.id new ∈ QuestionBank.id <$> question_banks db) ∧
    bank_crud.get
      (mkSession (questions db) (question_banks db ++ [new]))
      (QuestionBank.id new) = Some new.
Proof.
  intros Hname. unfold create_bank. rewrite (get_by_name_None _ _ Hname).
  eexists. split; [reflexivity|]. cbn. split; [done|]. split; [done|].
  split; [done|]. split.
  - intros (b & Hid & Hb)%list_elem_of_fmap.
    pose proof (fresh_id_above _ _ Hb). lia.
  - apply (get_created db (bc_name bank_in) (bc_description bank_in)
             (Some (User.id current_user))).
Qed.

Lemma get_by_name_first db name :
  Exists (λ b, QuestionBank.name b = name) (question_banks db) →
  ∃ b, bank_crud.get_by_name db name = Some b ∧ b ∈ question_banks db ∧
       QuestionBank.name b = name.
Proof.
  unfold bank_crud.get_by_name.
  induction 1 as [b banks Hb|b banks _ IH]; cbn.
  - exists b. rewrite bool_decide_eq_true_2 by done.
    split; [done|]. split; [by left|done].
  - case_bool_decide as Hb.
    + exists b. split; [done|]. split; [by left|done].
    + destruct IH as (b' & ? & ? & ?). exists b'.
      split; [done|]. split; [by right|done].
Qed.

(** Property X16. When no other user has a bank of the requested name and
    the caller has one, [create_bank] is rejected with the duplicate-name
    error and the database is left as it was. *)
Theorem create_bank_unshared_name db bank_in current_user :
  Forall (λ b, QuestionBank.name b = bc_name bank_in →
               QuestionBank.user_id b = Some (User.id current_user))
         (question_banks db) →
  Exists (λ b, QuestionBank.name b = bc_name bank_in) (question_banks db) →
  create_bank db bank_in current_user
  = (inl (mkHTTPException 400
            ("A question bank with the name '" +:+ bc_name bank_in
             +:+ "' already exists")), db).
Proof.
  intros Hown Hex.
  destruct (get_by_name_first _ _ Hex) as (b & Hget & Hb & Hname).
  unfold create_bank. rewrite Hget.
  rewrite Forall_forall in Hown.
  by rewrite bool_decide_eq_true_2 by by apply Hown.
Qed.

(** *** Listing banks and their questions *)

Lemma offset_limit_sublist {A : Type} skip limit (rows : list A) :
  question_crud.offset_limit skip limit rows `sublist_of` rows.
Proof.
  unfold question_crud.offset_limit. destruct (limit <? 0).
  - apply sublist_drop.
  - etrans; [apply sublist_take|apply sublist_drop].
Qed.

Lemma offset_limit_length {A : Type} skip limit (rows : list A) :
  0 ≤ limit →
  Z.of_nat (length (question_crud.offset_limit skip limit rows)) ≤ limit.
Proof.
  intros Hlimit. unfold question_crud.offset_limit.
  rewrite (proj2 (Z.ltb_ge limit 0)) by done. rewrite length_take. lia.
Qed.

Lemma offset_limit_all {A : Type} limit (rows : list A) :
  Z.of_nat (length rows) ≤ limit →
  question_crud.offset_limit 0 limit rows = rows.
Proof.
  intros Hlimit. unfold question_crud.offset_limit.
  change (Z.to_nat 0) with 0%nat. rewrite drop_0.
  destruct (limit <? 0); [done|]. apply take_ge. lia.
Qed.

(** Property X17. For a non-negative [skip] and [limit], [read_banks]
    lists at most [limit] banks, in table order, all of them owned by the
    caller, each with the number of questions that carry its id as its
    [question_count]. *)
Theorem read_banks_only_own db skip limit current_user :
  0 ≤ skip → 0 ≤ limit →
  Z.of_nat (length (read_banks db skip limit current_user)) ≤ limit ∧
  bank <$> read_banks db skip limit current_user
    `sublist_of` question_banks db ∧
  Forall (λ r,
            QuestionBank.user_id (bank r) = Some (User.id current_user) ∧
            question_count r
            = Z.of_nat
                (length (filter (λ q, Question.bank_id q
                                      = Some (QuestionBank.id (bank r)))
                                (questions db))))
         (read_banks db skip limit current_user).
Proof.
  intros _ Hlimit. unfold read_banks, bank_crud.get_multi_by_user.
  set (own := filter _ (question_banks db)).
  split; [|split].
  - rewrite length_fmap. by apply offset_limit_length.
  - rewrite <-list_fmap_compose.
    rewrite (list_fmap_ext _ (λ b, b)
               (question_crud.offset_limit skip limit own)) by done.
    rewrite list_fmap_id.
    etrans; [apply offset_limit_sublist|]. apply sublist_filter.
  - apply Forall_fmap, Forall_forall. intros b Hb. cbn. split; [|done].
    assert (Hown : b ∈ own).
    { eapply elem_of_submseteq; [exact Hb|]. apply sublist_submseteq.
      apply offset_limit_sublist. }
    by apply list_elem_of_filter in Hown as [? _].
Qed.

(** Property X18. Without offset and with a limit not below the number of
    banks, [read_banks] lists exactly the caller's banks. *)
Theorem read_banks_complete db limit current_user :
  Z.of_nat (length (question_banks db)) ≤ limit →
  bank <$> read_banks db 0 limit current_user
  = filter (λ b, QuestionBank.user_id b = Some (User.id current_user))
           (question_banks db).
Proof.
  intros Hlimit. unfold read_banks, bank_crud.get_multi_by_user.
  rewrite <-list_fmap_compose.
  rewrite (list_fmap_ext _ (λ b, b) _) by done. rewrite list_fmap_id.
  apply offset_limit_all.
  etrans; [apply inj_le, sublist_length, sublist_filter|done].
Qed.

Lemma refresh_options_fields json_loads json_dumps float_truthy q :
  refresh_options json_loads json_dumps float_truthy q
  = Question.set_options
      (Question.options
         (refresh_options json_loads json_dumps float_truthy q)) q.
Proof.
  unfold refresh_options, set_options_dict.
  destruct q as [i qu an le ty op co ba]. cbn.
  destruct (Py.truthy_str op); [|done].
  by destruct (truthy_json _ _).
Qed.

(** Property X19. For a non-negative [skip] and [limit],
    [read_bank_questions] by the owner returns at most [limit] questions,
    taken in table order from those that carry the bank's id; each is
    returned with at most its [options] rewritten, a
    question without options is returned as stored, and stored options
    that do not decode come back as [None] instead of an error. *)
Theorem read_bank_questions_by_owner json_loads json_dumps float_truthy
    db bank_id skip limit current_user b :
  0 ≤ skip → 0 ≤ limit →
  bank_crud.get db bank_id = Some b →
  QuestionBank.user_id b = Some (User.id current_user) →
  ∃ stored,
    read_bank_questions json_loads json_dumps float_truthy db bank_id
      skip limit current_user
    = inr (refresh_options json_loads json_dumps float_truthy <$> stored) ∧
    Z.of_nat (length stored) ≤ limit ∧
    stored `sublist_of` questions db ∧
    Forall (λ q,
              Question.bank_id q = Some bank_id ∧
              let q' := refresh_options json_loads json_dumps float_truthy q in
              q' = Question.set_options (Question.options q') q ∧
              (Py.truthy_str (Question.options q) = false → q' = q) ∧
              (∀ s, Question.options q = Some s → s ≠ ""%string →
                    json_loads s = None → Question.options q' = None))
           stored.
Proof.
  intros _ Hlimit Hbank Howner. unfold read_bank_questions. rewrite Hbank.
  rewrite bool_decide_eq_false_2 by (by intros []).
  eexists. split; [reflexivity|]. unfold question_crud.get_by_bank.
  set (mine := filter _ (questions db)).
  split; [by apply offset_limit_length|]. split.
  { etrans; [apply offset_limit_sublist|]. apply sublist_filter. }
  apply Forall_forall. intros q Hq.
  assert (Hmine : q ∈ mine).
  { eapply elem_of_submseteq; [exact Hq|]. apply sublist_submseteq.
    apply offset_limit_sublist. }
  apply list_elem_of_filter in Hmine as [Hb _]. split; [done|]. cbn.
  split; [apply refresh_options_fields|]. split.
  - intros Hfalsy. unfold refresh_options. by rewrite Hfalsy.
  - intros s Hs Hne Hfail. unfold refresh_options, options_dict.
    rewrite Hs. destruct s as [|c s]; [done|]. cbn.
    rewrite Hfail. cbn. unfold set_options_dict. by cbn.
Qed.

Lemma get_in_table db i q :
  question_crud.get db i = Some q → q ∈ questions db.
Proof.
  unfold question_crud.get. intros Hq. apply find_some in Hq as [Hin _].
  by apply list_elem_of_In.
Qed.

(** Property X20. What is added is listed: after a successful
    [add_questions_to_bank], [read_bank_questions] without offset and with
    a limit not below the number of questions returns, for every listed id
    that resolved, a question with that id in that bank. *)
Theorem added_questions_listed json_loads json_dumps float_truthy
    db bank_id ids limit current_user r db1 i :
  add_questions_to_bank db bank_id ids current_user = (inr r, db1) →
  Z.of_nat (length (questions db)) ≤ limit →
  i ∈ ids → is_Some (question_crud.get db i) →
  ∃ listed q',
    read_bank_questions json_loads json_dumps float_truthy db1 bank_id
      0 limit current_user = inr listed ∧
    q' ∈ listed ∧ Question.id q' = i ∧ Question.bank_id q' = Some bank_id.
Proof.
  unfold add_questions_to_bank.
  destruct (bank_crud.get db bank_id) as [b|] eqn:Hbank; [|done].
  case_bool_decide as Howner; [done|].
  rewrite add_loop_spec. intros [= <- <-] Hlimit Hi [q Hq].
  unfold read_bank_questions.
  assert (Hbank' : bank_crud.get (assign bank_id ids db) bank_id = Some b)
    by done.
  rewrite Hbank'. rewrite bool_decide_eq_false_2 by (by intros []).
  eexists _, (refresh_options json_loads json_dumps float_truthy
                (Question.set_bank_id (Some bank_id) q)).
  split; [reflexivity|]. split; [|split].
  - apply list_elem_of_fmap_2. unfold question_crud.get_by_bank.
    rewrite offset_limit_all.
    2: { etrans; [apply inj_le, sublist_length, sublist_filter|].
         unfold assign. cbn. by rewrite length_fmap. }
    apply list_elem_of_filter. split; [done|].
    unfold assign. cbn. apply list_elem_of_fmap.
    exists q. split; [|by eapply get_in_table].
    rewrite bool_decide_eq_true_2; [done|].
    by rewrite (get_id _ _ _ Hq).
  - rewrite refresh_options_fields. cbn. by eapply get_id.
  - rewrite refresh_options_fields. by cbn.
Qed.

(** *** Saving to a bank *)

(** Property X21. [save_questions_to_bank] with a bank name and no (or a
    zero) bank id always creates a bank of that name owned by the caller,
    with no check for a bank of the same name, and assigns the listed
    questions that resolve to it. *)
Theorem save_creates_bank db request current_user name :
  sr_question_ids request ≠ [] →
  Py.truthy_int (sr_bank_id request) = false →
  sr_bank_name request = Some name →
  name ≠ ""%string →
  let new := QuestionBank.mk (bank_crud.fresh_id db) name None
               (Some (User.id current_user)) in
  save_questions_to_bank db request current_user
  = (inr (mk_membership_response true
            (Py.str_of_int
               (Z.of_nat (length (resolve db (sr_question_ids request))))
             +:+ " questions saved to bank")
            (bank_crud.fresh_id db) name),
     assign (bank_crud.fresh_id db) (sr_question_ids request)
       (mkSession (questions db) (question_banks db ++ [new]))) ∧
  ∀ i q', i ∈ sr_question_ids request →
          question_crud.get
            (save_questions_to_bank db request current_user).2 i = Some q' →
          Question.bank_id q' = Some (bank_crud.fresh_id db).
Proof.
  intros Hids Hfalsy Hname Hne new.
  enough (Hrun : save_questions_to_bank db request current_user
    = (inr (mk_membership_response true
              (Py.str_of_int
                 (Z.of_nat (length (resolve db (sr_question_ids request))))
               +:+ " questions saved to bank")
              (bank_crud.fresh_id db) name),
       assign (bank_crud.fresh_id db) (sr_question_ids request)
         (mkSession (questions db) (question_banks db ++ [new])))).
  { split; [exact Hrun|]. rewrite Hrun. cbn [snd].
    intros i q' Hi. rewrite get_assign_id.
    rewrite bool_decide_eq_true_2 by done.
    destruct (question_crud.get _ i) as [q|]; [|done]. by intros [= <-]. }
  unfold save_questions_to_bank.
  rewrite bool_decide_eq_false_2 by done.
  rewrite Hfalsy, Hname. destruct name as [|c name]; [done|].
  cbn [negb andb Py.truthy_str default from_option id].
  pose proof (get_created db (String c name) None
                (Some (User.id current_user))) as Hget.
  pose proof (fresh_id_positive db) as Hpos.
  unfold bank_crud.create in *. cbn [fst snd QuestionBank.id] in *.
  apply Z.lt_neq, not_eq_sym, Z.eqb_neq in Hpos. rewrite Hpos.
  rewrite Hget. cbn [QuestionBank.user_id QuestionBank.name Py.truthy_int].
  destruct (User.id current_user =? 0); cbn [negb andb].
  - by rewrite add_loop_spec.
  - rewrite bool_decide_eq_false_2 by (by intros []).
    by rewrite add_loop_spec.
Qed.

(** Property X22. [save_questions_to_bank] on an existing bank owned by
    another user fails with 403 and leaves the database as it was. *)
Theorem save_forbidden db request current_user bank_id b owner :
  sr_question_ids request ≠ [] →
  sr_bank_id request = Some bank_id → bank_id ≠ 0 →
  bank_crud.get db bank_id = Some b →
  QuestionBank.user_id b = Some owner →
  owner ≠ 0 → owner ≠ User.id current_user →
  save_questions_to_bank db request current_user
  = (inl (mkHTTPException 403 "You don't have access to this question bank"),
     db).
Proof.
  intros Hids Hreq Hnz Hbank Howner Hno Hother.
  unfold save_questions_to_bank.
  rewrite bool_decide_eq_false_2 by done.
  rewrite Hreq. cbn [Py.truthy_int].
  apply Z.eqb_neq in Hnz. rewrite Hnz. cbn [negb andb].
  rewrite Hbank, Howner. cbn [Py.truthy_int].
  apply Z.eqb_neq in Hno. rewrite Hno. cbn [negb andb].
  rewrite bool_decide_eq_true_2 by congruence. by rewrite Hnz.
Qed.

(** Property X23. On a bank of the caller, [save_questions_to_bank] with a
    bank id does what [add_questions_to_bank] does: the same count and the
    same database. *)
Theorem save_as_add db request current_user bank_id b :
  sr_question_ids request ≠ [] →
  sr_bank_id request = Some bank_id → bank_id ≠ 0 →
  bank_crud.get db bank_id = Some b →
  QuestionBank.user_id b = Some (User.id current_user) →
  ∃ n db',
    save_questions_to_bank db request current_user
    = (inr (mk_membership_response true
              (Py.str_of_int n +:+ " questions saved to bank")
              bank_id (QuestionBank.name b)), db') ∧
    add_questions_to_bank db bank_id (sr_question_ids request) current_user
    = (inr (mk_membership_response true
              (Py.str_of_int n +:+ " questions added to bank")
              bank_id (QuestionBank.name b)), db').
Proof.
  intros Hids Hreq Hnz Hbank Howner.
  unfold save_questions_to_bank, add_questions_to_bank.
  rewrite bool_decide_eq_false_2 by done.
  rewrite Hreq. cbn [Py.truthy_int].
  apply Z.eqb_neq in Hnz. rewrite Hnz. cbn [negb andb].
  rewrite Hbank, Howner.
  rewrite !(bool_decide_eq_false_2
              (Some (User.id current_user) ≠ Some (User.id current_user)))
    by (by intros []).
  rewrite andb_false_r, add_loop_spec, Hnz. eexists _, _. split; reflexivity.
Qed.

(** ** Question generation *)

(** Property X24. [generate_questions] has a single clause, which catches
    every exception, the [HTTPException]s of its own three checks
    included: whatever fails, the answer has status 500. When the level
    total is zero the detail is the text of the exception with status 400
    and the message "Select at least one Bloom's taxonomy level"; when
    only the type total is zero, of the one with "Select at least one
    question type"; when both are non-zero and differ (and the interpreter
    renders both as text), of the one whose message carries the two
    totals; in each case nothing is generated or stored. *)
Theorem generation_checks_answer_500 {generated : Type} str_int
    str_HTTPException
    (generate_and_save :
       generation_form.t → Session → (exception + list generated) * Session)
    db form :
  (∀ e db',
     generate_questions str_int str_HTTPException generate_and_save db form
     = (inl e, db') → status_code e = 500) ∧
  (level_total form = 0 →
   generate_questions str_int str_HTTPException generate_and_save db form
   = (inl (mkHTTPException 500
             (str_HTTPException
                (mkHTTPException 400
                   "Select at least one Bloom's taxonomy level"))), db)) ∧
  (level_total form ≠ 0 → type_total form = 0 →
   generate_questions str_int str_HTTPException generate_and_save db form
   = (inl (mkHTTPException 500
             (str_HTTPException
                (mkHTTPException 400 "Select at least one question type"))),
      db)) ∧
  (level_total form ≠ 0 → type_total form ≠ 0 →
   level_total form ≠ type_total form →
   str_int (level_total form) = inr (Py.str_of_int (level_total form)) →
   str_int (type_total form) = inr (Py.str_of_int (type_total form)) →
   generate_questions str_int str_HTTPException generate_and_save db form
   = (inl (mkHTTPException 500
             (str_HTTPException
                (mkHTTPException 400
                   ("Total question count ("
                    +:+ Py.str_of_int (level_total form)
                    +:+ ") does not match total question types ("
                    +:+ Py.str_of_int (type_total form) +:+ ")")))), db)).
Proof.
  unfold generate_questions. fold (level_total form) (type_total form).
  split; [|split; [|split]].
  - intros e db'.
    destruct (if level_total form =? 0 then _ else _) as [[[e0|msg]|qs] db0];
      by intros [= <- _].
  - by intros ->.
  - intros Hl ->. apply Z.eqb_neq in Hl. by rewrite Hl.
  - intros Hl Ht Hne Hlevel Htype.
    apply Z.eqb_neq in Hl, Ht. rewrite Hl, Ht.
    rewrite bool_decide_eq_true_2 by done.
    unfold raise_total_mismatch. by rewrite Hlevel, Htype.
Qed.

Lemma sum_values_positive (d : list (string * Z)) :
  Forall (λ entry, 0 ≤ entry.2) d →
  Py.sum_values (LLMService.positive d) = Py.sum_values d.
Proof.
  rewrite !sum_values_foldr. unfold LLMService.positive.
  induction 1 as [|entry d Hentry _ IH]; [done|].
  destruct (decide (entry.2 > 0)) as [Hpos|Hzero].
  - rewrite filter_cons_True by done. simpl. by rewrite IH.
  - rewrite filter_cons_False by done. simpl. rewrite IH. lia.
Qed.

Lemma positive_entries (d : list (string * Z)) :
  Forall (λ entry, 0 < entry.2) (LLMService.positive d).
Proof.
  apply Forall_forall. intros entry [Hpos _]%list_elem_of_filter. lia.
Qed.

(** Property X25. With an API key and nine non-negative counts that pass
    the checks of the handler, [LLMService.generate_questions] raises none
    of its [ValueError]s, the two maps it writes the prompt from hold only
    positive counts, and both sum to the total of the form. *)
Theorem prompt_counts_agree api_key form :
  Py.truthy_str api_key = true →
  Forall (λ n, 0 ≤ n) (form_counts form) →
  level_total form ≠ 0 →
  level_total form = type_total form →
  LLMService.generate_questions_counts api_key form
  = inr (LLMService.bloom_counts form, LLMService.question_types form) ∧
  Py.sum_values (LLMService.bloom_counts form) = level_total form ∧
  Py.sum_values (LLMService.question_types form) = level_total form ∧
  Forall (λ entry, 0 < entry.2) (LLMService.bloom_counts form) ∧
  Forall (λ entry, 0 < entry.2) (LLMService.question_types form).
Proof.
  intros Hkey Hnonneg Hnz Hsame.
  unfold form_counts in Hnonneg.
  repeat (apply Forall_cons in Hnonneg as [? Hnonneg]).
  assert (Hbloom : Py.sum_values (LLMService.bloom_counts form)
                   = level_total form).
  { unfold LLMService.bloom_counts. rewrite sum_values_positive.
    - unfold Py.sum_values, level_total. cbn. lia.
    - by repeat constructor. }
  assert (Htypes : Py.sum_values (LLMService.question_types form)
                   = level_total form).
  { unfold LLMService.question_types. rewrite sum_values_positive.
    - rewrite Hsame. unfold Py.sum_values, type_total. cbn. lia.
    - by repeat constructor. }
  split; [|split; [done|split; [done|split; apply positive_entries]]].
  unfold LLMService.generate_questions_counts. rewrite Hkey. cbn [negb].
  destruct (LLMService.bloom_counts form) as [|? ?] eqn:Hb.
  { by rewrite <-Hbloom in Hnz. }
  destruct (LLMService.question_types form) as [|? ?] eqn:Ht.
  { by rewrite <-Htypes in Hnz. }
  done.
Qed.

(** ** File names *)

Lemma split_no_sep sep s : contains sep s = false → split sep s = [s].
Proof.
  induction s as [|c s IH]; [done|]. cbn.
  intros [Hc Hs]%orb_false_elim.
  rewrite Hc. by rewrite (IH Hs).
Qed.

Lemma split_cons_last sep s :
  ∃ piece pieces, split sep s = piece :: pieces.
Proof.
  induction s as [|c s (piece & pieces & IH)]; cbn; [by eexists _, _|].
  destruct (bool_decide (c = sep)); [by eexists _, _|].
  rewrite IH. by eexists _, _.
Qed.

Lemma last_split_after sep stem e :
  contains sep e = false →
  List.last (split sep (stem +:+ String sep e)) EmptyString = e.
Proof.
  intros He. induction stem as [|c stem IH]; simpl.
  - rewrite bool_decide_eq_true_2 by done. by rewrite (split_no_sep _ _ He).
  - destruct (split_cons_last sep (stem +:+ String sep e))
      as (piece & pieces & Hsplit).
    rewrite Hsplit in IH |- *.
    destruct (bool_decide (c = sep)); [done|].
    destruct pieces as [|piece' pieces]; [|done].
    cbn in IH. subst piece.
    (* a single piece cannot hold the separator *)
    exfalso. clear -Hsplit.
    assert (Hlen : ∀ s, contains sep s = true →
                        (2 ≤ length (split sep s))%nat).
    { induction s as [|c s IH]; [done|]. cbn.
      case_bool_decide as Hc; cbn.
      - intros _. destruct (split_cons_last sep s) as (? & ? & ->). cbn. lia.
      - intros Hs. specialize (IH Hs).
        destruct (split sep s) as [|? [|? ?]]; cbn in *; lia. }
    specialize (Hlen (stem +:+ String sep e)). rewrite Hsplit in Hlen.
    cbn in Hlen. enough (contains sep (stem +:+ String sep e) = true)
      by (specialize (Hlen ltac:(done)); lia).
    clear. induction stem as [|c stem IH]; simpl.
    + by rewrite bool_decide_eq_true_2.
    + rewrite IH. apply orb_true_r.
Qed.

(** Property X26. The extension of a file name is the lower-cased text
    after its last dot, and the whole lower-cased name when it has no
    dot. *)
Theorem file_extension_after_last_dot lower stem e :
  contains "." e = false →
  file_extension lower (stem +:+ String "." e) = lower e ∧
  file_extension lower e = lower e.
Proof.
  intros He. unfold file_extension. split.
  - by rewrite last_split_after.
  - by rewrite split_no_sep.
Qed.

(** Property X27. A file name accepted by the checks of
    [process_file_and_generate_questions] has one of the extensions [pdf],
    [docx], [txt], and [extract_text_from_file] hands it to the reader of
    that extension: its [doc] case and its unsupported-format error are
    not reached. *)
Theorem checked_file_is_extracted lower {bytes : Type}
    (read_pdf read_docx decode_utf8 : bytes → string + string)
    file_content file_name ext :
  check_file_name lower (Some file_name) = inr ext →
  ext = file_extension lower file_name ∧
  ext ∈ ["pdf"%string; "docx"%string; "txt"%string] ∧
  extract_text_from_file lower read_pdf read_docx decode_utf8 file_content
    file_name
  = (if bool_decide (ext = "pdf"%string) then read_pdf file_content
     else if bool_decide (ext = "docx"%string) then read_docx file_content
          else decode_utf8 file_content).
Proof.
  unfold check_file_name, extract_text_from_file.
  destruct file_name as [|c name]; [done|].
  cbn [Py.truthy_str negb default from_option id].
  set (found := file_extension lower (String c name)).
  case_bool_decide as Hallowed; [|done]. intros [= <-].
  split; [done|]. split; [done|].
  unfold allowed_extensions in Hallowed.
  apply elem_of_cons in Hallowed as [->|Hallowed]; [done|].
  apply elem_of_cons in Hallowed as [->|Hallowed]; [done|].
  apply elem_of_cons in Hallowed as [->|Hallowed]; [done|].
  by inversion Hallowed.
Qed.

(** * Instances of the further properties *)

Lemma create_examination_failures_witness :
  let cfg := mk_exam_config [9; 8] None [("Remember"%string, 1)]
               [("multiple_choice"%string, 1)] in
  let e := mkHTTPException 404 "No valid questions found" in
  [3]%nat = [3]%nat ∧
  (status_code e = 400 ∨ status_code e = 404 ∨ status_code e = 500) ∧
  (status_code e = 500 ↔
   question_ids cfg ≠ [] ∧
   Py.sum_values (bloom_levels cfg) ≠ Py.sum_values (question_types cfg) ∧
   ∃ error,
     sample_data.str_int (Py.sum_values (bloom_levels cfg)) = inl error ∨
     sample_data.str_int (Py.sum_values (question_types cfg)) = inl error) ∧
  (status_code e = 404 ↔
   question_ids cfg ≠ [] ∧
   Py.sum_values (bloom_levels cfg) = Py.sum_values (question_types cfg) ∧
   Forall (λ i, question_crud.get sample_data.db3 i = None)
          (question_ids cfg)).
Proof.
  intros cfg e.
  apply (create_examination_failures Py.ascii_capitalize sample_data.str_int
           json_module.loads sample_data.db3 [3]%nat cfg e [3]%nat).
  reflexivity.
Defined.

Lemma stale_ids_ignored_witness :
  create_examination Py.ascii_capitalize sample_data.str_int
    json_module.loads sample_data.db3 [1]%nat
    (mk_exam_config [9; 1; 8; 3] None [("Apply"%string, 1)]
       [("true_false"%string, 1)])
  = create_examination Py.ascii_capitalize sample_data.str_int
      json_module.loads sample_data.db3 [1]%nat
      (mk_exam_config
         (filter (λ i, is_Some (question_crud.get sample_data.db3 i))
                 [9; 1; 8; 3])
         None [("Apply"%string, 1)] [("true_false"%string, 1)]).
Proof.
  apply (stale_ids_ignored Py.ascii_capitalize sample_data.str_int
           json_module.loads sample_data.db3 [1]%nat
           [9; 1; 8; 3] None [("Apply"%string, 1)]
           [("true_false"%string, 1)]).
  vm_compute. discriminate.
Defined.

Lemma returned_questions_provenance_witness :
  let cfg := mk_exam_config [1; 2; 3] None [("apply"%string, 4)]
               [("true_false"%string, 4)] in
  let p := format_question json_module.loads
             (sample_data.mc_question 3 "Apply" None) in
  ∃ i q entry,
    i ∈ question_ids cfg ∧ question_crud.get sample_data.db3 i = Some q ∧
    p = format_question json_module.loads q ∧ qd_id p = i ∧
    entry ∈ bloom_levels cfg ∧ 0 < entry.2 ∧
    qd_level p = Some (Py.ascii_capitalize entry.1).
Proof.
  intros cfg p.
  eapply (returned_questions_provenance Py.ascii_capitalize sample_data.str_int
            json_module.loads sample_data.db3
            [0]%nat cfg _ _ p).
  - vm_compute. reflexivity.
  - vm_compute. left.
Defined.

Lemma total_questions_bounds_witness :
  let cfg := mk_exam_config [1; 2; 3] None
               [("Remember"%string, 5); ("Create"%string, -2)]
               [("true_false"%string, 3)] in
  ∃ r g',
    create_examination Py.ascii_capitalize sample_data.str_int
      json_module.loads sample_data.db3 [0; 0]%nat cfg
    = (inr r, g') ∧
    total_questions (exam r) = 2 ∧
    total_questions (exam r) = Z.of_nat (length (exam_questions (exam r))) ∧
    0 ≤ total_questions (exam r)
      ≤ foldr (λ entry acc, Z.max 0 entry.2 + acc) 0 (bloom_levels cfg) ∧
    (NoDup (Py.ascii_capitalize <$> (bloom_levels cfg).*1) →
     total_questions (exam r)
     ≤ Z.of_nat (length (resolve sample_data.db3 (question_ids cfg)))).
Proof.
  intros cfg. eexists _, _. split; [vm_compute; reflexivity|].
  split; [reflexivity|].
  eapply (total_questions_bounds Py.ascii_capitalize sample_data.str_int
            json_module.loads sample_data.db3
            [0; 0]%nat cfg).
  vm_compute. reflexivity.
Defined.

Lemma sufficient_pools_exact_quota_witness :
  let cfg := mk_exam_config [1; 2; 3] None
               [("Remember"%string, 2); ("Apply"%string, 1)]
               [("multiple_choice"%string, 3)] in
  ∃ sels r g',
    create_examination Py.ascii_capitalize sample_data.str_int
      json_module.loads sample_data.db3 [1; 0; 0]%nat cfg
    = (inr r, g') ∧
    exam_questions (exam r)
    = format_question json_module.loads <$> concat sels ∧
    total_questions (exam r) = Py.sum_values (bloom_levels cfg) ∧
    total_questions (exam r) = Py.sum_values (question_types cfg) ∧
    Forall2 (λ entry sel,
               Z.of_nat (length sel) = entry.2 ∧
               sel ⊆+ matching Py.ascii_capitalize sample_data.db3
                        (question_ids cfg) entry.1)
            (bloom_levels cfg) sels.
Proof.
  intros cfg.
  apply (sufficient_pools_exact_quota Py.ascii_capitalize sample_data.str_int
           json_module.loads sample_data.db3
           [1; 0; 0]%nat cfg).
  - discriminate.
  - reflexivity.
  - vm_compute. discriminate.
  - repeat constructor; vm_compute; discriminate.
Defined.

Lemma quota_keys_modulo_case_witness :
  create_examination Py.ascii_capitalize sample_data.str_int
    json_module.loads sample_data.db3 [1; 0]%nat
    (mk_exam_config [1; 2; 3] None
       [("remember"%string, 1); ("APPLY"%string, 1)]
       [("true_false"%string, 2)])
  = create_examination Py.ascii_capitalize sample_data.str_int
      json_module.loads sample_data.db3 [1; 0]%nat
      (mk_exam_config [1; 2; 3] None
         [("Remember"%string, 1); ("apply"%string, 1)]
         [("true_false"%string, 2)]).
Proof.
  apply (quota_keys_modulo_case Py.ascii_capitalize sample_data.str_int
           json_module.loads sample_data.db3 [1; 0]%nat
           [1; 2; 3] None
           [("remember"%string, 1); ("APPLY"%string, 1)]
           [("Remember"%string, 1); ("apply"%string, 1)]
           [("true_false"%string, 2)]).
  - intros s _. reflexivity.
  - repeat constructor.
Defined.

Lemma bank_not_found_witness :
  let not_found := mkHTTPException 404 "Question bank not found" in
  let db := sample_data.db_banked in
  read_bank db 9 (User.mk 7) = inl not_found ∧
  update_bank (λ db b _, (b, db)) db 9
    (mkQuestionBankUpdate (Some "Physics"%string) None) (User.mk 7)
  = (inl not_found, db) ∧
  delete_bank (λ db i, (QuestionBank.mk i "" None None, db)) db 9 (User.mk 7)
  = (inl not_found, db) ∧
  read_bank_questions json_module.loads sample_data.dumps (λ _, true) db 9
    0 10 (User.mk 7) = inl not_found ∧
  add_questions_to_bank db 9 [1; 2] (User.mk 7) = (inl not_found, db) ∧
  remove_questions_from_bank db 9 [1; 2] (User.mk 7) = (inl not_found, db).
Proof.
  intros not_found db.
  apply (bank_not_found (λ db b _, (b, db))
           (λ db i, (QuestionBank.mk i "" None None, db))
           json_module.loads sample_data.dumps (λ _, true)
           db 9 [1; 2] (mkQuestionBankUpdate (Some "Physics"%string) None)
           0 10 (User.mk 7)).
  reflexivity.
Defined.

Lemma bank_access_forbidden_witness :
  let forbidden := mkHTTPException 403 "Not enough permissions" in
  let db := sample_data.db_banked in
  read_bank db 1 (User.mk 8) = inl forbidden ∧
  update_bank (λ db b _, (b, db)) db 1
    (mkQuestionBankUpdate (Some "Physics"%string) None) (User.mk 8)
  = (inl forbidden, db) ∧
  delete_bank (λ db i, (QuestionBank.mk i "" None None, db)) db 1 (User.mk 8)
  = (inl forbidden, db) ∧
  read_bank_questions json_module.loads sample_data.dumps (λ _, true) db 1
    0 10 (User.mk 8) = inl forbidden.
Proof.
  intros forbidden db.
  apply (bank_access_forbidden (λ db b _, (b, db))
           (λ db i, (QuestionBank.mk i "" None None, db))
           json_module.loads sample_data.dumps (λ _, true)
           db 1 (mkQuestionBankUpdate (Some "Physics"%string) None)
           0 10 (User.mk 8)
           (QuestionBank.mk 1 "Biology" None (Some 7))).
  - reflexivity.
  - discriminate.
Defined.

Lemma add_questions_by_owner_witness :
  let db := sample_data.db_banked in
  ∃ db',
    add_questions_to_bank db 2 [3; 9; 3] (User.mk 7)
    = (inr (mk_membership_response true
              (Py.str_of_int (Z.of_nat (length (resolve db [3; 9; 3])))
               +:+ " questions added to bank")
              2 "Chemistry"), db') ∧
    question_banks db' = question_banks db ∧
    Question.id <$> questions db' = Question.id <$> questions db ∧
    (∀ i, question_crud.get db' i
          = (if bool_decide (i ∈ [3; 9; 3])
             then Question.set_bank_id (Some 2) else λ q, q)
              <$> question_crud.get db i) ∧
    ∀ i q', i ∈ [3; 9; 3] → question_crud.get db' i = Some q' →
            Question.bank_id q' = Some 2.
Proof.
  intros db.
  apply (add_questions_by_owner db 2 [3; 9; 3] (User.mk 7)
           (QuestionBank.mk 2 "Chemistry" None (Some 7))).
  - reflexivity.
  - reflexivity.
Defined.

Lemma add_questions_idempotent_witness :
  let db := sample_data.db_banked in
  ∃ r db1,
    add_questions_to_bank db 2 [3; 9] (User.mk 7) = (inr r, db1) ∧
    m_message r = "1 questions added to bank"%string ∧
    add_questions_to_bank db1 2 [3; 9] (User.mk 7) = (inr r, db1) ∧
    add_questions_to_bank db 2 ([3; 9] ++ [3; 9]) (User.mk 7)
    = (inr (mk_membership_response true
              (Py.str_of_int (2 * Z.of_nat (length (resolve db [3; 9])))
               +:+ " questions added to bank")
              2 (m_bank_name r)), db1).
Proof.
  intros db. eexists _, _. split; [vm_compute; reflexivity|].
  split; [reflexivity|].
  apply (add_questions_idempotent db 2 [3; 9] (User.mk 7)).
  vm_compute. reflexivity.
Defined.

Lemma remove_questions_by_owner_witness :
  let db := sample_data.db_banked in
  ∃ count db',
    remove_questions_from_bank db 1 [1; 3] (User.mk 7)
    = (inr (mk_membership_response true
              (Py.str_of_int count +:+ " questions removed from bank")
              1 "Biology"), db') ∧
    question_banks db' = question_banks db ∧
    (∀ i, question_crud.get db' i
          = released 1 [1; 3] <$> question_crud.get db i) ∧
    (NoDup [1; 3] →
     count = Z.of_nat
               (length (filter (λ q, Question.bank_id q = Some 1)
                               (resolve db [1; 3])))) ∧
    ∀ i q q', i ∈ [1; 3] → question_crud.get db i = Some q →
              Question.bank_id q = Some 1 →
              question_crud.get db' i = Some q' →
              Question.bank_id q' = None.
Proof.
  intros db.
  apply (remove_questions_by_owner db 1 [1; 3] (User.mk 7)
           (QuestionBank.mk 1 "Biology" None (Some 7))).
  - reflexivity.
  - reflexivity.
Defined.

Lemma add_then_remove_witness :
  let db := sample_data.db_banked in
  ∃ r db1 db2,
    add_questions_to_bank db 2 [3; 1; 9] (User.mk 7) = (inr r, db1) ∧
    remove_questions_from_bank db1 2 [3; 1; 9] (User.mk 7)
    = (inr (mk_membership_response true
              (Py.str_of_int (Z.of_nat (length (resolve db [3; 1; 9])))
               +:+ " questions removed from bank")
              2 (m_bank_name r)), db2) ∧
    ∀ i, question_crud.get db2 i
         = (if bool_decide (i ∈ [3; 1; 9]) then Question.set_bank_id None
            else λ q, q) <$> question_crud.get db i.
Proof.
  intros db.
  destruct (add_then_remove db 2 [3; 1; 9] (User.mk 7)
              (mk_membership_response true "2 questions added to bank" 2
                 "Chemistry")
              (assign 2 [3; 1; 9] db)) as (db2 & Hremove & Hget).
  - apply (bool_decide_unpack _). vm_compute. exact I.
  - vm_compute. reflexivity.
  - eexists _, _, db2. split; [vm_compute; reflexivity|].
    split; [exact Hremove|exact Hget].
Defined.

Lemma remove_after_move_witness :
  let db := sample_data.db_banked in
  ∃ r db1,
    add_questions_to_bank db 2 [1; 2] (User.mk 7) = (inr r, db1) ∧
    remove_questions_from_bank db1 1 [1; 2] (User.mk 7)
    = (inr (mk_membership_response true "0 questions removed from bank"
              1 "Biology"), db1).
Proof.
  intros db. eexists _, _. split; [vm_compute; reflexivity|].
  apply (remove_after_move db 1 2 [1; 2] (User.mk 7)
           (mk_membership_response true "2 questions added to bank" 2
              "Chemistry")
           _ (QuestionBank.mk 1 "Biology" None (Some 7))).
  - discriminate.
  - vm_compute. reflexivity.
  - reflexivity.
  - reflexivity.
Defined.

Lemma create_bank_fresh_name_witness :
  let db := sample_data.db_banked in
  let bank_in := mkQuestionBankCreate "Physics" None (Some 8) in
  ∃ new,
    create_bank db bank_in (User.mk 7)
    = (inr (mkQuestionBankResponse new 0),
       mkSession (questions db) (question_banks db ++ [new])) ∧
    QuestionBank.name new = bc_name bank_in ∧
    QuestionBank.description new = bc_description bank_in ∧
    QuestionBank.user_id new = Some 7 ∧
    ¬ (QuestionBank.id new ∈ QuestionBank.id <$> question_banks db) ∧
    bank_crud.get
      (mkSession (questions db) (question_banks db ++ [new]))
      (QuestionBank.id new) = Some new.
Proof.
  intros db bank_in.
  apply (create_bank_fresh_name db bank_in (User.mk 7)).
  repeat constructor; discriminate.
Defined.

Lemma create_bank_unshared_name_witness :
  create_bank sample_data.db3 (mkQuestionBankCreate "Biology" None None)
    (User.mk 7)
  = (inl (mkHTTPException 400
            "A question bank with the name 'Biology' already exists"),
     sample_data.db3).
Proof.
  apply (create_bank_unshared_name sample_data.db3
           (mkQuestionBankCreate "Biology" None None) (User.mk 7)).
  - repeat constructor; (reflexivity || discriminate).
  - left. reflexivity.
Defined.

Lemma read_banks_only_own_witness :
  let db := sample_data.db_banked in
  Z.of_nat (length (read_banks db 1 5 (User.mk 7))) ≤ 5 ∧
  bank <$> read_banks db 1 5 (User.mk 7) `sublist_of` question_banks db ∧
  Forall (λ r,
            QuestionBank.user_id (bank r) = Some 7 ∧
            question_count r
            = Z.of_nat
                (length (filter (λ q, Question.bank_id q
                                      = Some (QuestionBank.id (bank r)))
                                (questions db))))
         (read_banks db 1 5 (User.mk 7)).
Proof.
  intros db. apply (read_banks_only_own db 1 5 (User.mk 7)); lia.
Defined.

(** With a negative limit the query has no limit (in SQLite): all the
    banks of the caller are listed. *)
Example read_banks_negative_limit :
  bank <$> read_banks sample_data.db_banked 0 (-1) (User.mk 7)
  = [ QuestionBank.mk 1 "Biology" None (Some 7);
      QuestionBank.mk 2 "Chemistry" None (Some 7) ].
Proof. by vm_compute. Qed.

Lemma read_banks_complete_witness :
  bank <$> read_banks sample_data.db_banked 0 10 (User.mk 7)
  = filter (λ b, QuestionBank.user_id b = Some 7)
           (question_banks sample_data.db_banked).
Proof.
  apply (read_banks_complete sample_data.db_banked 10 (User.mk 7)).
  simpl. lia.
Defined.

Lemma read_bank_questions_by_owner_witness :
  let db := sample_data.db_banked in
  let refresh := refresh_options json_module.loads sample_data.dumps
                   (λ _, true) in
  ∃ stored,
    read_bank_questions json_module.loads sample_data.dumps (λ _, true)
      db 1 0 10 (User.mk 7)
    = inr (refresh <$> stored) ∧
    Z.of_nat (length stored) ≤ 10 ∧
    stored `sublist_of` questions db ∧
    Forall (λ q,
              Question.bank_id q = Some 1 ∧
              let q' := refresh q in
              q' = Question.set_options (Question.options q') q ∧
              (Py.truthy_str (Question.options q) = false → q' = q) ∧
              (∀ s, Question.options q = Some s → s ≠ ""%string →
                    json_module.loads s = None →
                    Question.options q' = None))
           stored.
Proof.
  intros db refresh.
  apply (read_bank_questions_by_owner json_module.loads sample_data.dumps
           (λ _, true) db 1 0 10 (User.mk 7)
           (QuestionBank.mk 1 "Biology" None (Some 7))).
  - lia.
  - lia.
  - reflexivity.
  - reflexivity.
Defined.

(** The questions of the bank 1 of the sample data, as they are listed:
    the options that decode are written anew, those that do not are
    gone. *)
Example read_bank_questions_sample :
  read_bank_questions json_module.loads sample_data.dumps (λ _, true)
    sample_data.db_banked 1 0 10 (User.mk 7)
  = inr [ Question.set_bank_id (Some 1)
            (sample_data.mc_question 1 "Remember"
               (Some sample_data.options_yes_no));
          Question.set_bank_id (Some 1)
            (sample_data.mc_question 2 "Remember" None) ].
Proof. by vm_compute. Qed.

Lemma added_questions_listed_witness :
  let db := sample_data.db_banked in
  ∃ r db1 listed q',
    add_questions_to_bank db 2 [3; 9] (User.mk 7) = (inr r, db1) ∧
    read_bank_questions json_module.loads sample_data.dumps (λ _, true)
      db1 2 0 10 (User.mk 7) = inr listed ∧
    q' ∈ listed ∧ Question.id q' = 3 ∧ Question.bank_id q' = Some 2.
Proof.
  intros db.
  destruct (added_questions_listed json_module.loads sample_data.dumps
              (λ _, true) db 2 [3; 9] 10 (User.mk 7)
              (mk_membership_response true "1 questions added to bank" 2
                 "Chemistry")
              (assign 2 [3; 9] db) 3) as (listed & q' & Hread & Hq');
    [vm_compute; reflexivity|simpl; lia|by left|by eexists|].
  eexists _, _, listed, q'. split; [vm_compute; reflexivity|].
  split; [exact Hread|exact Hq'].
Defined.

Lemma save_creates_bank_witness :
  let db := sample_data.db_banked in
  let request := mk_save_request [3; 9] None (Some "Biology"%string) in
  let new := QuestionBank.mk (bank_crud.fresh_id db) "Biology" None
               (Some 7) in
  save_questions_to_bank db request (User.mk 7)
  = (inr (mk_membership_response true
            (Py.str_of_int
               (Z.of_nat (length (resolve db (sr_question_ids request))))
             +:+ " questions saved to bank")
            (bank_crud.fresh_id db) "Biology"),
     assign (bank_crud.fresh_id db) (sr_question_ids request)
       (mkSession (questions db) (question_banks db ++ [new]))) ∧
  ∀ i q', i ∈ sr_question_ids request →
          question_crud.get
            (save_questions_to_bank db request (User.mk 7)).2 i = Some q' →
          Question.bank_id q' = Some (bank_crud.fresh_id db).
Proof.
  intros db request.
  apply (save_creates_bank db request (User.mk 7) "Biology").
  - discriminate.
  - reflexivity.
  - reflexivity.
  - discriminate.
Defined.

(** In the sample data the user 7 already has a bank named [Biology];
    saving under that name gives the user a second one. *)
Example save_duplicates_bank_name :
  let db := sample_data.db_banked in
  owned_named db 7 "Biology" = [QuestionBank.mk 1 "Biology" None (Some 7)] ∧
  owned_named
    (save_questions_to_bank db
       (mk_save_request [3; 9] None (Some "Biology"%string)) (User.mk 7)).2
    7 "Biology"
  = [QuestionBank.mk 1 "Biology" None (Some 7);
     QuestionBank.mk 4 "Biology" None (Some 7)].
Proof. by vm_compute. Qed.

Lemma save_forbidden_witness :
  save_questions_to_bank sample_data.db_banked
    (mk_save_request [3] (Some 3) None) (User.mk 7)
  = (inl (mkHTTPException 403 "You don't have access to this question bank"),
     sample_data.db_banked).
Proof.
  apply (save_forbidden sample_data.db_banked
           (mk_save_request [3] (Some 3) None) (User.mk 7) 3
           (QuestionBank.mk 3 "Biology" None (Some 8)) 8).
  - discriminate.
  - reflexivity.
  - discriminate.
  - reflexivity.
  - reflexivity.
  - discriminate.
  - discriminate.
Defined.

Lemma save_as_add_witness :
  let db := sample_data.db_banked in
  let request := mk_save_request [3; 9; 1] (Some 2) None in
  ∃ n db',
    save_questions_to_bank db request (User.mk 7)
    = (inr (mk_membership_response true
              (Py.str_of_int n +:+ " questions saved to bank")
              2 "Chemistry"), db') ∧
    add_questions_to_bank db 2 (sr_question_ids request) (User.mk 7)
    = (inr (mk_membership_response true
              (Py.str_of_int n +:+ " questions added to bank")
              2 "Chemistry"), db').
Proof.
  intros db request.
  apply (save_as_add db request (User.mk 7) 2
           (QuestionBank.mk 2 "Chemistry" None (Some 7))).
  - discriminate.
  - reflexivity.
  - discriminate.
  - reflexivity.
  - reflexivity.
Defined.

Lemma generation_checks_answer_500_witness :
  let generate_and_save :=
    λ (_ : generation_form.t) (db : Session),
      (inr [] : exception + list unit, db) in
  let str_HTTPException := λ _ : HTTPException, ""%string in
  generate_questions sample_data.str_int str_HTTPException generate_and_save
    sample_data.db3 sample_data.form_mismatch
  = (inl (mkHTTPException 500
            (str_HTTPException
               (mkHTTPException 400
                  ("Total question count ("
                   +:+ Py.str_of_int (level_total sample_data.form_mismatch)
                   +:+ ") does not match total question types ("
                   +:+ Py.str_of_int (type_total sample_data.form_mismatch)
                   +:+ ")")))), sample_data.db3).
Proof.
  intros generate_and_save str_HTTPException.
  apply (generation_checks_answer_500 sample_data.str_int str_HTTPException
           generate_and_save sample_data.db3 sample_data.form_mismatch).
  - vm_compute. discriminate.
  - vm_compute. discriminate.
  - vm_compute. discriminate.
  - vm_compute. reflexivity.
  - vm_compute. reflexivity.
Defined.

(** A form that asks for three questions by level and one by type is
    answered with a 500 whose detail is the text of the exception of the
    third check, whatever that text is. *)
Example generation_mismatch_sample {generated : Type} str_HTTPException
    (generate_and_save :
       generation_form.t → Session → (exception + list generated) * Session) :
  generate_questions sample_data.str_int str_HTTPException generate_and_save
    sample_data.db3 sample_data.form_mismatch
  = (inl (mkHTTPException 500
            (str_HTTPException
               (mkHTTPException 400
                  "Total question count (3) does not match total question types (1)"))),
     sample_data.db3).
Proof. reflexivity. Qed.

Lemma prompt_counts_agree_witness :
  let form := sample_data.form_three in
  LLMService.generate_questions_counts (Some "sk-test"%string) form
  = inr (LLMService.bloom_counts form, LLMService.question_types form) ∧
  Py.sum_values (LLMService.bloom_counts form) = level_total form ∧
  Py.sum_values (LLMService.question_types form) = level_total form ∧
  Forall (λ entry, 0 < entry.2) (LLMService.bloom_counts form) ∧
  Forall (λ entry, 0 < entry.2) (LLMService.question_types form).
Proof.
  intros form.
  apply (prompt_counts_agree (Some "sk-test"%string) form).
  - reflexivity.
  - repeat constructor; vm_compute; discriminate.
  - vm_compute. discriminate.
  - reflexivity.
Defined.

Lemma file_extension_after_last_dot_witness :
  file_extension Py.ascii_lower ("notes.v2" +:+ String "." "PDF")
  = Py.ascii_lower "PDF" ∧
  file_extension Py.ascii_lower "PDF" = Py.ascii_lower "PDF".
Proof.
  apply (file_extension_after_last_dot Py.ascii_lower "notes.v2" "PDF").
  reflexivity.
Defined.

Lemma checked_file_is_extracted_witness :
  let read_pdf := λ content : string, inr ("pdf:" +:+ content)%string in
  let read_docx := λ content : string, inr ("docx:" +:+ content)%string in
  let decode_utf8 := λ content : string, inr content in
  "docx"%string = file_extension Py.ascii_lower "Chapter.1.DocX" ∧
  "docx"%string ∈ ["pdf"%string; "docx"%string; "txt"%string] ∧
  extract_text_from_file Py.ascii_lower read_pdf read_docx decode_utf8
    "text"%string "Chapter.1.DocX"
  = (if bool_decide ("docx"%string = "pdf"%string)
     then read_pdf "text"%string
     else if bool_decide ("docx"%string = "docx"%string)
          then read_docx "text"%string
          else decode_utf8 "text"%string).
Proof.
  intros read_pdf read_docx decode_utf8.
  apply (checked_file_is_extracted Py.ascii_lower read_pdf read_docx
           decode_utf8 "text"%string "Chapter.1.DocX" "docx").
  reflexivity.
Defined.
